(** * termoPy: ideal-gas processes and cycles

    A shallow embedding of [termoPy.py].  Python floats are read as real
    numbers: [+ - * /] are the field operations of [R], [np.log] is [ln]
    and [x ** y] is [Rpower x y].  This reading is exact arithmetic; it is
    faithful where divisors are non-zero and the arguments of [np.log] and
    the bases of [**] are positive, and the theorems below state those
    side conditions explicitly.  Rounding is not modelled: where the program
    computes a quantity that is zero, or two quantities that are equal, in
    exact arithmetic, the theorems state that equality, and leave out how
    the rounding error of the doubles compares with the absolute tolerance
    [allowed_error].  Plotting is left out: it produces no value that the
    computations read back. *)

From Stdlib Require Import Reals Lra Lia List Ascii String Bool Psatz.
Import ListNotations.
Open Scope R_scope.

(** ** Module-level constants *)

Definition atm : R := 101300.
Definition L : R := 0.001.
(** The gas constant, [R] in the source (the name [R] is the type of reals here). *)
Definition R_gas : R := 8.314.
(** Boltzmann's constant, [k = 1.38064852e-23]. *)
Definition k : R := 1.38064852 / 10 ^ 23.
(** Number of steps, [K = 10000]. *)
Definition K : nat := 100 * 100.
Definition allowed_error : R := 1e-4.

(** ** Exceptions *)

(** One constructor per [assert] of the source that can fail; the comment
    gives the beginning of its message. *)
Inductive assertion : Set :=
| assert_moles_defined        (* "Number of moles must be defined" *)
| assert_three_defined        (* "Tre av P1,V1,T1 eller n ma vaere definert" *)
| assert_P2_from_V2           (* "P1,V1 ma vaere definert", in [P2_from_V2] *)
| assert_T2_from_V2           (* "V1,T1 ma vaere definert", in [T2_from_V2] *)
| assert_V2_from_P2           (* "P1,V1 ma vaere definert", in [V2_from_P2] *)
| assert_T2_from_P2           (* "P1,T1 ma vaere definert", in [T2_from_P2] *)
| assert_P2_from_T2           (* "T1,P1 ma vaere definert", in [P2_from_T2] *)
| assert_V2_from_T2           (* "T1,V1 ma vaere definert", in [V2_from_T2] *)
| assert_one_missing          (* "You must specify exactly one missing value" *)
| assert_consistent           (* "The values you entered are not consistent" *)
| assert_cycle_defined        (* "Tre av P,V,n eller T ma vaere definert" *)
| assert_ratio_too_low        (* "Compression ratio is too low, minimum compression: ..." *)
| assert_ratio_too_high       (* "Compression ratio is too high" *)
| assert_V3                   (* "Something went wrong, V3 = ..." *)
| assert_V4                   (* "Something went wrong, V4 = ..." *)
| assert_T4                   (* "Something went wrong, T4 = ..." *)
| assert_P4                   (* "Something went wrong, P4 = ..." *)
| assert_efficiency.          (* "Efficiency from heat: ..., efficiency from work: ..." *)

Inductive exn : Set :=
| AssertionError (a : assertion)
| TypeError                   (* arithmetic on [None] *)
| ZeroDivisionError           (* [0 / 0] on Python numbers *)
| IndexError                  (* [x[0]] or [x[-1]] on an empty array *)
| AttributeError              (* an attribute that was never assigned *)
| KeyError (key : string).

Inductive result (A : Type) : Type :=
| Ok (a : A)
| Raise (e : exn).
Arguments Ok {A} a.
Arguments Raise {A} e.

Definition bind {A B : Type} (m : result A) (f : A -> result B) : result B :=
  match m with
  | Ok a => f a
  | Raise e => Raise e
  end.

Notation "x <- m ;; f" := (bind m (fun x => f))
  (at level 61, m at next level, right associativity).
Notation "' pat <- m ;; f" := (bind m (fun x => match x with pat => f end))
  (at level 61, pat pattern, m at next level, right associativity).

(** [assert cond, a] *)
Definition assert (cond : bool) (a : assertion) : result unit :=
  if cond then Ok tt else Raise (AssertionError a).

(** Reading an attribute that takes part in arithmetic: [None] raises. *)
Definition attr (x : option R) : result R :=
  match x with
  | Some v => Ok v
  | None => Raise TypeError
  end.

(** Reading an attribute behind [assert x != None, a]. *)
Definition asserted (x : option R) (a : assertion) : result R :=
  match x with
  | Some v => Ok v
  | None => Raise (AssertionError a)
  end.

(** [x != None] as a summand, [x is None] as a summand. *)
Definition defined (x : option R) : nat :=
  match x with Some _ => 1 | None => 0 end.
Definition missing (x : option R) : nat :=
  match x with Some _ => 0 | None => 1 end.

(** ** Comparisons on floats *)

Definition Rlt_b (x y : R) : bool := if Rlt_dec x y then true else false.
Definition Req_b (x y : R) : bool := if Req_dec_T x y then true else false.

(** ** Arrays *)

(** [np.ones(steps)] *)
Definition ones (steps : nat) : list R := repeat 1 steps.

(** [c * array] *)
Definition scale (c : R) (a : list R) : list R := map (Rmult c) a.

(** [np.linspace(start, stop, num)]: [num - 1] equal steps from [start], the
    last sample being [stop] itself. *)
Definition linspace (start stop : R) (num : nat) : list R :=
  match num with
  | O => []
  | S O => [start]
  | S (S m as div) =>
      map (fun i => start + INR i * ((stop - start) / INR div)) (seq 0 div)
      ++ [stop]
  end.

(** Element-wise operations on two and three arrays. *)
Fixpoint zipWith {A B C : Type} (f : A -> B -> C) (a : list A) (b : list B) : list C :=
  match a, b with
  | x :: a', y :: b' => f x y :: zipWith f a' b'
  | _, _ => []
  end.

Fixpoint zipWith3 {A B C D : Type} (f : A -> B -> C -> D)
  (a : list A) (b : list B) (c : list C) : list D :=
  match a, b, c with
  | x :: a', y :: b', z :: c' => f x y z :: zipWith3 f a' b' c'
  | _, _, _ => []
  end.

(** [a[0]] and [a[-1]] *)
Definition index0 (a : list R) : result R :=
  match a with
  | [] => Raise IndexError
  | x :: _ => Ok x
  end.

Definition index_last (a : list R) : result R :=
  match a with
  | [] => Raise IndexError
  | _ :: _ => Ok (last a 0)
  end.

(** [sum(...)] over a Python list, and [np.sum]. *)
Definition sum (a : list R) : R := fold_left Rplus a 0.

(** [np.all(np.abs(a) < allowed_error)] *)
Definition all_within (a : list R) : bool :=
  forallb (fun r => Rlt_b (Rabs r) allowed_error) a.

(** ** The substance table

    [data/substances.JSON] is not part of the sources; the table is a
    parameter of the functions that consult it.  A JSON object keeps the
    order of its keys, and the lookup by formula takes the first match, so
    the table is an association list. *)

Record Material : Type := mkMaterial {
  mat_formula : string;
  mat_M : R;
  mat_Cv : R;
  mat_Cp : R;
  mat_gamma : R
}.

Definition SubstanceTable : Type := list (string * Material).

(** [substances[key]] *)
Fixpoint lookup (substances : SubstanceTable) (key : string) : option Material :=
  match substances with
  | [] => None
  | (name, m) :: rest => if String.eqb name key then Some m else lookup rest key
  end.

(** [[i for i in substances if substances[i]["formula"] == gas][0]] *)
Fixpoint lookup_formula (substances : SubstanceTable) (gas : string)
  : option (string * Material) :=
  match substances with
  | [] => None
  | (name, m) :: rest =>
      if String.eqb (mat_formula m) gas then Some (name, m)
      else lookup_formula rest gas
  end.

(** The choice made by every [set_internal_values]: the entry named [gas],
    else the first entry whose formula is [gas], else ["Air"]. *)
Definition select_material (substances : SubstanceTable) (gas : option string)
  : result (string * Material) :=
  let air :=
    match lookup substances "Air" with
    | Some m => Ok ("Air"%string, m)
    | None => Raise (KeyError "Air")
    end in
  match gas with
  | None => air
  | Some g =>
      match lookup substances g with
      | Some m => Ok (g, m)
      | None =>
          match lookup_formula substances g with
          | Some nm => Ok nm
          | None => air
          end
      end
  end.

(** What a caller may pass as [gas=]: nothing, a name, or (as [IdealGas]
    does) a whole table entry. *)
Inductive GasArg : Type :=
| gas_none
| gas_name (s : string)
| gas_material (m : Material).

(** ** Processes

    [BaseProcess] and its four subclasses.  A method of the source is one
    function here, with one branch per class that defines or inherits it. *)

Module Class.
Inductive t : Set := BaseProcess | Isothermal | Isobaric | Isochoric | Adiabatic.
End Class.

Module BaseProcess.

(** The attributes a trajectory generation assigns. *)
Record Data : Type := mkData {
  volume : list R;
  pressure : list R;
  temperature : list R;
  internal_energy : list R;
  entropy : list R;
  ideal_gas_law_consistency : list R;
  work_done_by : R;
  work_done_on : R;
  heat_absorbed : R;
  heat_released : R;
  first_law_consistency : R
}.

(** The object; [data] is [None] until a trajectory has been generated.
    [material], [name] and [formula] exist only after
    [set_internal_values]. *)
Record t : Type := mk {
  class : Class.t;
  n : option R;
  P1 : option R;
  V1 : option R;
  T1 : option R;
  Cv : R;
  Cp : R;
  gamma : R;
  diameter : R;
  M : option R;
  title : string;
  material : option Material;
  name : option string;
  formula : option string;
  data : option Data
}.

Definition with_state (self : t) (n' P1' V1' T1' : option R) : t :=
  mk (class self) n' P1' V1' T1' (Cv self) (Cp self) (gamma self)
     (diameter self) (M self) (title self) (material self) (name self)
     (formula self) (data self).

Definition with_gamma (self : t) (g : R) : t :=
  mk (class self) (n self) (P1 self) (V1 self) (T1 self) (Cv self) (Cp self) g
     (diameter self) (M self) (title self) (material self) (name self)
     (formula self) (data self).

Definition with_title (self : t) (s : string) : t :=
  mk (class self) (n self) (P1 self) (V1 self) (T1 self) (Cv self) (Cp self)
     (gamma self) (diameter self) (M self) s (material self) (name self)
     (formula self) (data self).

Definition with_data (self : t) (d : Data) : t :=
  mk (class self) (n self) (P1 self) (V1 self) (T1 self) (Cv self) (Cp self)
     (gamma self) (diameter self) (M self) (title self) (material self)
     (name self) (formula self) (Some d).

(** [BaseProcess.__init__]; the argument [gas] is not read. *)
Definition __init__ (c : Class.t) (n P1 V1 T1 : option R)
  (monatomic diatomic : bool) (gas : GasArg) : t :=
  let '(cv, cp, g) :=
    if monatomic then (3 / 2 * R_gas, 5 / 2 * R_gas, 5 / 3)
    else if diatomic then (5 / 2 * R_gas, 7 / 2 * R_gas, 7 / 5)
    else (3 / 2 * R_gas, 5 / 2 * R_gas, 5 / 3) in
  mk c n P1 V1 T1 cv cp g 3e-10 None "" None None None None.

(** [P(V,T)], [V(P,T)], [T(P,V)] and [get_n(P,V,T)], with [self.n] as
    first argument. *)
Definition P (n V T : R) : R := n * R_gas * T / V.
Definition V (n P T : R) : R := n * R_gas * T / P.
Definition T (n P V : R) : R := P * V / (n * R_gas).
Definition get_n (P V T : R) : R := P * V / (R_gas * T).

Definition _find_missing (self : t) : result t :=
  _ <- assert (2 <? defined (P1 self) + defined (V1 self) + defined (T1 self)
                    + defined (n self))%nat assert_three_defined ;;
  match P1 self, V1 self, T1 self, n self with
  | None, v1, t1, n0 =>
      n' <- attr n0 ;; v <- attr v1 ;; t <- attr t1 ;;
      Ok (with_state self n0 (Some (P n' v t)) v1 t1)
  | Some p, None, t1, n0 =>
      n' <- attr n0 ;; t <- attr t1 ;;
      Ok (with_state self n0 (Some p) (Some (V n' p t)) t1)
  | Some p, Some v, None, n0 =>
      n' <- attr n0 ;;
      Ok (with_state self n0 (Some p) (Some v) (Some (T n' p v)))
  | Some p, Some v, Some t, None =>
      Ok (with_state self (Some (get_n p v t)) (Some p) (Some v) (Some t))
  | Some _, Some _, Some _, Some _ => Ok self
  end.

(** [set_internal_values(gas)] *)
Definition set_internal_values (substances : SubstanceTable) (self : t)
  (gas : option string) : result t :=
  '(nm, m) <- select_material substances gas ;;
  Ok (mk (class self) (n self) (P1 self) (V1 self) (T1 self)
         (mat_Cv m) (mat_Cp m) (mat_gamma m) (diameter self) (Some (mat_M m))
         (title self) (Some m) (Some nm) (Some (mat_formula m)) (data self)).

(** [calculate_work_done_by]; the result is the pair
    [(work_done_by, work_done_on)] the method assigns. *)
Definition calculate_work_done_by (self : t) (volume temperature : list R)
  : result (R * R) :=
  match class self with
  | Class.BaseProcess | Class.Isobaric =>
      p1 <- attr (P1 self) ;; v_end <- index_last volume ;; v1 <- attr (V1 self) ;;
      let by_ := p1 * (v_end - v1) in
      Ok (by_, - by_)
  | Class.Isothermal =>
      n' <- attr (n self) ;; t1 <- attr (T1 self) ;;
      v_end <- index_last volume ;; v1 <- attr (V1 self) ;;
      let by_ := R_gas * n' * t1 * ln (v_end / v1) in
      Ok (by_, - by_)
  | Class.Isochoric => Ok (0, 0)
  | Class.Adiabatic =>
      n' <- attr (n self) ;; t_end <- index_last temperature ;;
      t1 <- attr (T1 self) ;;
      let on_ := n' * Cv self * (t_end - t1) in
      Ok (- on_, on_)
  end.

(** [calculate_heat_absorbed]; [work_done_on] is the attribute as
    [calculate_work_done_by] left it.  The result is
    [(heat_absorbed, heat_released)]. *)
Definition calculate_heat_absorbed (self : t) (temperature : list R)
  (work_done_on : R) : result (R * R) :=
  match class self with
  | Class.BaseProcess =>
      n' <- attr (n self) ;; t_end <- index_last temperature ;;
      t1 <- attr (T1 self) ;;
      let q := n' * (Cv self + 1) * (t_end - t1) in
      Ok (q, - q)
  | Class.Isothermal =>
      let q := - work_done_on in
      Ok (q, - q)
  | Class.Isobaric =>
      n' <- attr (n self) ;; t_end <- index_last temperature ;;
      t1 <- attr (T1 self) ;;
      let q := n' * Cp self * (t_end - t1) in
      Ok (q, - q)
  | Class.Isochoric =>
      n' <- attr (n self) ;; t_end <- index_last temperature ;;
      t1 <- attr (T1 self) ;;
      let q := n' * Cv self * (t_end - t1) in
      Ok (q, - q)
  | Class.Adiabatic => Ok (0, 0)
  end.

(** [_generate_extra_data], called with the three arrays the generation
    has just assigned.  The kinetic-theory attributes (computed only when
    [M] is set) are read by nothing else and are left out. *)
Definition _generate_extra_data (self : t) (volume pressure temperature : list R)
  : result t :=
  n' <- match n self with
        | Some v => Ok v
        | None => Raise (AssertionError assert_moles_defined)
        end ;;
  let internal_energy := map (fun t => Cv self * n' * t) temperature in
  let entropy :=
    zipWith (fun v t => n' * ln v + Cv self * ln t) volume temperature in
  let consistency :=
    zipWith3 (fun p v t => p * v - n' * R_gas * t) pressure volume temperature in
  '(by_, on_) <- calculate_work_done_by self volume temperature ;;
  '(q, _) <- calculate_heat_absorbed self temperature on_ ;;
  let work_done_on := - by_ in
  let heat_released := - q in
  u_end <- index_last internal_energy ;;
  u_start <- index0 internal_energy ;;
  Ok (with_data self
        (mkData volume pressure temperature internal_energy entropy consistency
                by_ work_done_on q heat_released
                (work_done_on + q - u_end + u_start))).

(** The adiabatic relations.  Each method of the source first asserts that
    the two start values it reads are not [None]; the generation methods
    below make that assertion where they call it (one of the two values
    has by then been read by [np.linspace], which raises [TypeError] on
    [None]). *)
Definition P2_from_V2 (P1 V1 gamma V2 : R) : R := P1 * Rpower (V1 / V2) gamma.
Definition T2_from_V2 (T1 V1 gamma V2 : R) : R := T1 * Rpower (V1 / V2) (gamma - 1).
Definition V2_from_P2 (V1 P1 gamma P2 : R) : R := V1 * Rpower (P1 / P2) (1 / gamma).
Definition T2_from_P2 (T1 P1 gamma P2 : R) : R :=
  T1 * Rpower (P2 / P1) ((gamma - 1) / gamma).
Definition P2_from_T2 (P1 T1 gamma T2 : R) : R :=
  P1 * Rpower (T2 / T1) (gamma / (gamma - 1)).
Definition V2_from_T2 (V1 T1 gamma T2 : R) : R :=
  V1 * Rpower (T1 / T2) (1 / (gamma - 1)).

(** [generate_data_from_dV(V2, steps)] *)
Definition generate_data_from_dV (self : t) (V2 : option R) (steps : nat)
  : result t :=
  match class self with
  | Class.BaseProcess | Class.Isochoric =>
      v1 <- attr (V1 self) ;; p1 <- attr (P1 self) ;; t1 <- attr (T1 self) ;;
      _generate_extra_data self
        (scale v1 (ones steps)) (scale p1 (ones steps)) (scale t1 (ones steps))
  | Class.Isothermal =>
      v1 <- attr (V1 self) ;; v2 <- attr V2 ;;
      let volume := linspace v1 v2 steps in
      n' <- attr (n self) ;; t1 <- attr (T1 self) ;;
      let pressure := map (fun v => P n' v t1) volume in
      let temperature := scale t1 (ones (List.length volume)) in
      _generate_extra_data self volume pressure temperature
  | Class.Isobaric =>
      v1 <- attr (V1 self) ;; v2 <- attr V2 ;;
      let volume := linspace v1 v2 steps in
      n' <- attr (n self) ;; p1 <- attr (P1 self) ;;
      let temperature := map (fun v => T n' p1 v) volume in
      let pressure := scale p1 (ones (List.length volume)) in
      _generate_extra_data self volume pressure temperature
  | Class.Adiabatic =>
      v1 <- attr (V1 self) ;; v2 <- attr V2 ;;
      let volume := linspace v1 v2 steps in
      p1 <- asserted (P1 self) assert_P2_from_V2 ;;
      let pressure := map (P2_from_V2 p1 v1 (gamma self)) volume in
      t1 <- asserted (T1 self) assert_T2_from_V2 ;;
      let temperature := map (T2_from_V2 t1 v1 (gamma self)) volume in
      _generate_extra_data self volume pressure temperature
  end.

(** [generate_data_from_dP(P2, steps)] *)
Definition generate_data_from_dP (self : t) (P2 : option R) (steps : nat)
  : result t :=
  match class self with
  | Class.BaseProcess | Class.Isobaric =>
      generate_data_from_dV self (V1 self) steps
  | Class.Isothermal =>
      p1 <- attr (P1 self) ;; p2 <- attr P2 ;;
      let pressure := linspace p1 p2 steps in
      n' <- attr (n self) ;; t1 <- attr (T1 self) ;;
      let volume := map (fun p => V n' p t1) pressure in
      let temperature := scale t1 (ones (List.length pressure)) in
      _generate_extra_data self volume pressure temperature
  | Class.Isochoric =>
      p1 <- attr (P1 self) ;; p2 <- attr P2 ;;
      let pressure := linspace p1 p2 steps in
      n' <- attr (n self) ;; v1 <- attr (V1 self) ;;
      let temperature := map (fun p => T n' p v1) pressure in
      let volume := scale v1 (ones (List.length pressure)) in
      _generate_extra_data self volume pressure temperature
  | Class.Adiabatic =>
      p1 <- attr (P1 self) ;; p2 <- attr P2 ;;
      let pressure := linspace p1 p2 steps in
      v1 <- asserted (V1 self) assert_V2_from_P2 ;;
      let volume := map (V2_from_P2 v1 p1 (gamma self)) pressure in
      t1 <- asserted (T1 self) assert_T2_from_P2 ;;
      let temperature := map (T2_from_P2 t1 p1 (gamma self)) pressure in
      _generate_extra_data self volume pressure temperature
  end.

(** [generate_data_from_dT(T2, steps)] *)
Definition generate_data_from_dT (self : t) (T2 : option R) (steps : nat)
  : result t :=
  match class self with
  | Class.BaseProcess | Class.Isothermal =>
      generate_data_from_dV self (V1 self) steps
  | Class.Isobaric =>
      t1 <- attr (T1 self) ;; t2 <- attr T2 ;;
      let temperature := linspace t1 t2 steps in
      n' <- attr (n self) ;; p1 <- attr (P1 self) ;;
      let volume := map (fun t => V n' p1 t) temperature in
      let pressure := scale p1 (ones (List.length temperature)) in
      _generate_extra_data self volume pressure temperature
  | Class.Isochoric =>
      t1 <- attr (T1 self) ;; t2 <- attr T2 ;;
      let temperature := linspace t1 t2 steps in
      n' <- attr (n self) ;; v1 <- attr (V1 self) ;;
      let pressure := map (fun t => P n' v1 t) temperature in
      let volume := scale v1 (ones (List.length temperature)) in
      _generate_extra_data self volume pressure temperature
  | Class.Adiabatic =>
      t1 <- attr (T1 self) ;; t2 <- attr T2 ;;
      let temperature := linspace t1 t2 steps in
      v1 <- asserted (V1 self) assert_V2_from_T2 ;;
      let volume := map (V2_from_T2 v1 t1 (gamma self)) temperature in
      p1 <- asserted (P1 self) assert_P2_from_T2 ;;
      let pressure := map (P2_from_T2 p1 t1 (gamma self)) temperature in
      _generate_extra_data self volume pressure temperature
  end.



End BaseProcess.

(** The constructors of the four subclasses: [super().__init__], the title,
    then [_find_missing]. *)
Definition Isothermal (n T1 V1 P1 : option R) (monatomic diatomic : bool)
  (gas : GasArg) : result BaseProcess.t :=
  let self := BaseProcess.__init__ Class.Isothermal n P1 V1 T1 monatomic diatomic gas in
  BaseProcess._find_missing (BaseProcess.with_title self "Isotermisk prosess").

Definition Isobaric (n P1 T1 V1 : option R) (monatomic diatomic : bool)
  (gas : GasArg) : result BaseProcess.t :=
  let self := BaseProcess.__init__ Class.Isobaric n P1 V1 T1 monatomic diatomic gas in
  BaseProcess._find_missing (BaseProcess.with_title self "Isobar prosess").

Definition Isochoric (n V1 T1 P1 : option R) (monatomic diatomic : bool)
  (gas : GasArg) : result BaseProcess.t :=
  let self := BaseProcess.__init__ Class.Isochoric n P1 V1 T1 monatomic diatomic gas in
  BaseProcess._find_missing (BaseProcess.with_title self "Isokor prosess").

Definition Adiabatic (gamma n P1 V1 T1 : option R) (monatomic diatomic : bool)
  (gas : GasArg) : result BaseProcess.t :=
  let self := BaseProcess.__init__ Class.Adiabatic n P1 V1 T1 monatomic diatomic gas in
  let self :=
    match gamma with
    | Some g => BaseProcess.with_gamma self g
    | None => self
    end in
  BaseProcess._find_missing (BaseProcess.with_title self "Adiabatisk prosess").

(** [process.volume[-1]] and its two companions, read from outside the
    process. *)
Definition trajectory (p : BaseProcess.t) : result BaseProcess.Data :=
  match BaseProcess.data p with
  | Some d => Ok d
  | None => Raise TypeError
  end.

Definition volume_end (p : BaseProcess.t) : result R :=
  d <- trajectory p ;; index_last (BaseProcess.volume d).
Definition pressure_end (p : BaseProcess.t) : result R :=
  d <- trajectory p ;; index_last (BaseProcess.pressure d).
Definition temperature_end (p : BaseProcess.t) : result R :=
  d <- trajectory p ;; index_last (BaseProcess.temperature d).

(** ** The [IdealGas] tape *)

Module IdealGas.

(** The history arrays hold [None] where a transition that generated no
    trajectory appended its process's unset attribute. *)
Record t : Type := mk {
  P : list (option R);
  V : list (option R);
  T : list (option R);
  n : R;
  material : Material;
  name : string;
  M : R;
  Cv : R;
  Cp : R;
  gamma : R;
  formula : string;
  processes : list BaseProcess.t
}.

Definition find_missing_values (P V T n : option R) : result (R * R * R * R) :=
  _ <- assert (missing P + missing V + missing T + missing n =? 1)%nat
         assert_one_missing ;;
  match P, V, T, n with
  | None, v0, t0, n0 =>
      n' <- attr n0 ;; t <- attr t0 ;; v <- attr v0 ;;
      Ok (n' * R_gas * t / v, v, t, n')
  | Some p, None, t0, n0 =>
      n' <- attr n0 ;; t <- attr t0 ;;
      Ok (p, n' * R_gas * t / p, t, n')
  | Some p, Some v, None, n0 =>
      n' <- attr n0 ;;
      Ok (p, v, p * v / (n' * R_gas), n')
  | Some p, Some v, Some t, None =>
      Ok (p, v, t, p * v / (R_gas * t))
  | Some p, Some v, Some t, Some n' =>
      _ <- assert (Rlt_b (Rabs (p * v - n' * R_gas * t)) 1e-10) assert_consistent ;;
      Ok (p, v, t, n')
  end.

Definition __init__ (substances : SubstanceTable) (P V T n : option R)
  (gas : option string) : result t :=
  '(P1, V1, T1, n') <- find_missing_values P V T n ;;
  '(nm, m) <- select_material substances gas ;;
  Ok (mk [Some P1] [Some V1] [Some T1] n' m nm (mat_M m) (mat_Cv m) (mat_Cp m)
         (mat_gamma m) (mat_formula m) []).

(** [self.P[-1]] *)
Definition current (a : list (option R)) : result (option R) :=
  match a with
  | [] => Raise IndexError
  | _ :: _ => Ok (last a None)
  end.

(** [np.append(self.P, process.pressure)] *)
Definition append (a : list (option R)) (x : option (list R)) : list (option R) :=
  match x with
  | Some l => a ++ map Some l
  | None => a ++ [None]
  end.

(** The four assignments that end every transition. *)
Definition record (self : t) (process : BaseProcess.t) : t :=
  let d := BaseProcess.data process in
  mk (append (P self) (option_map BaseProcess.pressure d))
     (append (V self) (option_map BaseProcess.volume d))
     (append (T self) (option_map BaseProcess.temperature d))
     (n self) (material self) (name self) (M self) (Cv self) (Cp self)
     (gamma self) (formula self) (processes self ++ [process]).

Definition isothermal (self : t) (P2 V2 : option R) : result t :=
  p1 <- current (P self) ;; v1 <- current (V self) ;; t1 <- current (T self) ;;
  Adiabatic_process <-
    Adiabatic None (Some (n self)) p1 v1 t1 false false (gas_material (material self)) ;;
  Adiabatic_process <-
    match P2, V2 with
    | None, _ => BaseProcess.generate_data_from_dV Adiabatic_process V2 K
    | Some _, None => BaseProcess.generate_data_from_dP Adiabatic_process P2 K
    | Some _, Some _ => Ok Adiabatic_process
    end ;;
  Ok (record self Adiabatic_process).

Definition isobaric (self : t) (V2 T2 : option R) : result t :=
  p1 <- current (P self) ;; v1 <- current (V self) ;; t1 <- current (T self) ;;
  Isobaric_process <-
    Isobaric (Some (n self)) p1 t1 v1 false false (gas_material (material self)) ;;
  Isobaric_process <-
    match V2, T2 with
    | None, _ => BaseProcess.generate_data_from_dT Isobaric_process T2 K
    | Some _, None => BaseProcess.generate_data_from_dV Isobaric_process V2 K
    | Some _, Some _ => Ok Isobaric_process
    end ;;
  Ok (record self Isobaric_process).

Definition isochoric (self : t) (P2 T2 : option R) : result t :=
  p1 <- current (P self) ;; v1 <- current (V self) ;; t1 <- current (T self) ;;
  Isochoric_process <-
    Isochoric (Some (n self)) v1 t1 p1 false false (gas_material (material self)) ;;
  Isochoric_process <-
    match P2, T2 with
    | None, _ => BaseProcess.generate_data_from_dT Isochoric_process T2 K
    | Some _, None => BaseProcess.generate_data_from_dP Isochoric_process P2 K
    | Some _, Some _ => Ok Isochoric_process
    end ;;
  Ok (record self Isochoric_process).

Definition adiabatic (self : t) (P2 V2 T2 : option R) : result t :=
  p1 <- current (P self) ;; v1 <- current (V self) ;; t1 <- current (T self) ;;
  Adiabatic_process <-
    Adiabatic None (Some (n self)) p1 v1 t1 false false (gas_material (material self)) ;;
  Adiabatic_process <-
    match P2, V2, T2 with
    | Some _, _, _ => BaseProcess.generate_data_from_dP Adiabatic_process P2 K
    | None, Some _, _ => BaseProcess.generate_data_from_dV Adiabatic_process V2 K
    | None, None, Some _ => BaseProcess.generate_data_from_dT Adiabatic_process T2 K
    | None, None, None => Ok Adiabatic_process
    end ;;
  Ok (record self Adiabatic_process).

End IdealGas.

(** ** Cycles *)

Module CycleClass.
Inductive t : Set := BaseCycle | Carnot | Otto.
End CycleClass.

Module BaseCycle.

(** What [run_cycle] assigns. *)
Record Run : Type := mkRun {
  processes : list BaseProcess.t;
  work_done_by : list R;
  work_done_on : list R;
  heat_absorbed : list R;
  heat_released : list R;
  efficiency : R;
  cycle_is_first_law_satisfied : bool;
  cycle_is_ideal_gas : bool
}.

(** The object.  [material], [name], [M] and [formula] exist only when
    neither flag is set; [alpha] and [beta] after [_calculate_alpha_beta];
    [run] after [run_cycle].  The attributes [volume], [pressure],
    [temperature] and [entropy] of the source stay [None] and are left out. *)
Record t : Type := mk {
  class : CycleClass.t;
  V1 : option R;
  P1 : option R;
  T : option R;
  n : option R;
  compression_ratio : R;
  T_hot : R;
  T_cold : R;
  monatomic : bool;
  diatomic : bool;
  gamma : R;
  Cv : R;
  Cp : R;
  M : option R;
  material : option Material;
  name : option string;
  formula : option string;
  title : string;
  theoretical_efficiency : option R;
  alpha : option R;
  beta : option R;
  run : option Run
}.

Definition with_state (self : t) (V1' P1' T' n' : option R) : t :=
  mk (class self) V1' P1' T' n' (compression_ratio self) (T_hot self) (T_cold self)
     (monatomic self) (diatomic self) (gamma self) (Cv self) (Cp self) (M self)
     (material self) (name self) (formula self) (title self)
     (theoretical_efficiency self) (alpha self) (beta self) (run self).

Definition with_title (self : t) (s : string) (theoretical : option R) : t :=
  mk (class self) (V1 self) (P1 self) (T self) (n self) (compression_ratio self)
     (T_hot self) (T_cold self) (monatomic self) (diatomic self) (gamma self)
     (Cv self) (Cp self) (M self) (material self) (name self) (formula self) s
     theoretical (alpha self) (beta self) (run self).

Definition with_alpha_beta (self : t) (a b : R) : t :=
  mk (class self) (V1 self) (P1 self) (T self) (n self) (compression_ratio self)
     (T_hot self) (T_cold self) (monatomic self) (diatomic self) (gamma self)
     (Cv self) (Cp self) (M self) (material self) (name self) (formula self)
     (title self) (theoretical_efficiency self) (Some a) (Some b) (run self).

Definition with_run (self : t) (r : Run) : t :=
  mk (class self) (V1 self) (P1 self) (T self) (n self) (compression_ratio self)
     (T_hot self) (T_cold self) (monatomic self) (diatomic self) (gamma self)
     (Cv self) (Cp self) (M self) (material self) (name self) (formula self)
     (title self) (theoretical_efficiency self) (alpha self) (beta self) (Some r).

(** [BaseCycle.__init__] *)
Definition __init__ (substances : SubstanceTable) (c : CycleClass.t)
  (P1 V1 n : option R) (compression_ratio T_hot T_cold : R)
  (monatomic diatomic : bool) (gas : option string) : result t :=
  let self g cv cp m mat nm f :=
    mk c V1 P1 (Some T_hot) n compression_ratio T_hot T_cold monatomic diatomic
       g cv cp m mat nm f "" None None None None in
  if monatomic then Ok (self (5 / 3) (3 / 2 * R_gas) (5 / 2 * R_gas) None None None None)
  else if diatomic then Ok (self (7 / 5) (5 / 2 * R_gas) (7 / 2 * R_gas) None None None None)
  else
    '(nm, m) <- select_material substances gas ;;
    Ok (self (mat_gamma m) (mat_Cv m) (mat_Cp m) (Some (mat_M m)) (Some m) (Some nm)
             (Some (mat_formula m))).

(** [_find_missing] of cycles *)
Definition _find_missing (self : t) : result t :=
  _ <- assert (0 <? defined (P1 self) + defined (V1 self) + defined (n self)
                    + defined (T self))%nat assert_cycle_defined ;;
  match P1 self, V1 self, T self, n self with
  | None, v1, t0, n0 =>
      n' <- attr n0 ;; t <- attr t0 ;; v <- attr v1 ;;
      Ok (with_state self v1 (Some (n' * R_gas * t / v)) t0 n0)
  | Some p, None, t0, n0 =>
      n' <- attr n0 ;; t <- attr t0 ;;
      Ok (with_state self (Some (n' * R_gas * t / p)) (Some p) t0 n0)
  | Some p, Some v, None, n0 =>
      n' <- attr n0 ;;
      Ok (with_state self (Some v) (Some p) (Some (p * v / (n' * R_gas))) n0)
  | Some p, Some v, Some t, None =>
      Ok (with_state self (Some v) (Some p) (Some t) (Some (p * v / (t * R_gas))))
  | Some _, Some _, Some _, Some _ => Ok self
  end.

(** [_calculate_alpha_beta]; [assert self.alpha] tests that [alpha] is not
    zero. *)
Definition _calculate_alpha_beta (self : t) : result t :=
  match class self with
  | CycleClass.BaseCycle => Ok (with_alpha_beta self 1 1)
  | CycleClass.Carnot =>
      let alpha :=
        compression_ratio self
        * Rpower (T_cold self / T_hot self) (1 / (gamma self - 1)) in
      _ <- assert (negb (Req_b alpha 0)) assert_ratio_too_low ;;
      let beta :=
        1 / compression_ratio self
        * Rpower (T_hot self / T_cold self) (1 / (gamma self - 1)) in
      _ <- assert (Rlt_b 1 (beta * compression_ratio self)) assert_ratio_too_high ;;
      Ok (with_alpha_beta self alpha beta)
  | CycleClass.Otto =>
      Ok (with_alpha_beta self (1 / compression_ratio self) (compression_ratio self))
  end.

(** [Carnot.generate_processes] *)
Definition Carnot_generate_processes (self : t) : result (list BaseProcess.t) :=
  isothermal_expansion <-
    Isothermal (n self) (Some (T_hot self)) (V1 self) None false (diatomic self) gas_none ;;
  a <- attr (alpha self) ;; v1 <- attr (V1 self) ;;
  isothermal_expansion <-
    BaseProcess.generate_data_from_dV isothermal_expansion (Some (a * v1)) K ;;
  v <- volume_end isothermal_expansion ;; t <- temperature_end isothermal_expansion ;;
  adiabatic_expansion <-
    Adiabatic None (n self) None (Some v) (Some t) false (diatomic self) gas_none ;;
  adiabatic_expansion <-
    BaseProcess.generate_data_from_dT adiabatic_expansion (Some (T_cold self)) K ;;
  V3 <- volume_end adiabatic_expansion ;;
  _ <- assert (Rlt_b (Rabs (V3 - v1 * compression_ratio self)) allowed_error) assert_V3 ;;
  v <- volume_end adiabatic_expansion ;;
  isothermal_compression <-
    Isothermal (n self) (Some (T_cold self)) (Some v) None false (diatomic self) gas_none ;;
  b <- attr (beta self) ;;
  isothermal_compression <-
    BaseProcess.generate_data_from_dV isothermal_compression (Some (b * V3)) K ;;
  v <- volume_end isothermal_compression ;; t <- temperature_end isothermal_compression ;;
  adiabatic_compression <-
    Adiabatic None (n self) None (Some v) (Some t) false (diatomic self) gas_none ;;
  adiabatic_compression <-
    BaseProcess.generate_data_from_dT adiabatic_compression (Some (T_hot self)) K ;;
  V4 <- volume_end adiabatic_compression ;;
  _ <- assert (Rlt_b (Rabs (V4 - v1)) allowed_error) assert_V4 ;;
  T4 <- temperature_end adiabatic_compression ;;
  _ <- assert (Rlt_b (Rabs (T4 - T_hot self)) allowed_error) assert_T4 ;;
  P4 <- pressure_end adiabatic_compression ;; p1 <- attr (P1 self) ;;
  _ <- assert (Rlt_b (Rabs (P4 - p1)) allowed_error) assert_P4 ;;
  Ok [isothermal_expansion; adiabatic_expansion; isothermal_compression;
      adiabatic_compression].

(** [Otto.generate_processes] *)
Definition Otto_generate_processes (self : t) : result (list BaseProcess.t) :=
  adiabatic_compression <-
    Adiabatic None (n self) None (V1 self) (Some (T_cold self)) false (diatomic self)
      gas_none ;;
  a <- attr (alpha self) ;; v1 <- attr (V1 self) ;;
  adiabatic_compression <-
    BaseProcess.generate_data_from_dV adiabatic_compression (Some (a * v1)) K ;;
  v <- volume_end adiabatic_compression ;;
  isochoric_heat_addition <-
    Isochoric (n self) (Some v) (Some (T_cold self)) None false (diatomic self) gas_none ;;
  isochoric_heat_addition <-
    BaseProcess.generate_data_from_dT isochoric_heat_addition (Some (T_hot self)) K ;;
  v <- volume_end isochoric_heat_addition ;;
  adiabatic_expansion <-
    Adiabatic None (n self) None (Some v) (Some (T_hot self)) false (diatomic self)
      gas_none ;;
  b <- attr (beta self) ;; v <- volume_end isochoric_heat_addition ;;
  adiabatic_expansion <-
    BaseProcess.generate_data_from_dV adiabatic_expansion (Some (b * v)) K ;;
  v <- volume_end adiabatic_expansion ;;
  isochoric_heat_rejection <-
    Isochoric (n self) (Some v) (Some (T_hot self)) None false (diatomic self) gas_none ;;
  isochoric_heat_rejection <-
    BaseProcess.generate_data_from_dT isochoric_heat_rejection (Some (T_cold self)) K ;;
  Ok [adiabatic_compression; isochoric_heat_addition; adiabatic_expansion;
      isochoric_heat_rejection].

(** [generate_processes]; in [BaseCycle] itself the body is [pass], so
    [self.processes] is never assigned and the next statement of [run_cycle]
    cannot read it. *)
Definition generate_processes (self : t) : result (list BaseProcess.t) :=
  match class self with
  | CycleClass.BaseCycle => Raise AttributeError
  | CycleClass.Carnot => Carnot_generate_processes self
  | CycleClass.Otto => Otto_generate_processes self
  end.

(** [[f(Process) for Process in self.processes]] for an attribute that a
    generation assigns. *)
Fixpoint collect {A : Type} (f : BaseProcess.Data -> A) (ps : list BaseProcess.t)
  : result (list A) :=
  match ps with
  | [] => Ok []
  | p :: rest => d <- trajectory p ;; l <- collect f rest ;; Ok (f d :: l)
  end.

(** [_calculate_efficiency]; its first assertion compares a list with [0]
    and always holds.  [Q_in] is zero exactly when no heat is positive
    ([sum] of an empty list is the integer [0]).  With no negative heat
    either, [Q_out / Q_in] is [0 / 0] on integers and raises
    [ZeroDivisionError]; with a negative heat, [Q_out] is a NumPy double,
    the quotients by zero are infinite or NaN, and the comparison of the
    second assertion fails. *)
Definition _calculate_efficiency (heat_absorbed work_done_by : list R) : result R :=
  let absorbed := filter (fun Q => Rlt_b 0 Q) heat_absorbed in
  let released := filter (fun Q => Rlt_b Q 0) heat_absorbed in
  let Q_in := sum absorbed in
  let Q_out := sum released in
  let work_done := sum work_done_by in
  match absorbed, released with
  | [], [] => Raise ZeroDivisionError
  | [], _ :: _ => Raise (AssertionError assert_efficiency)
  | _ :: _, _ =>
      let efficiency_from_heat := 1 - Rabs (Q_out / Q_in) in
      let efficiency_from_work := Rabs (work_done / Q_in) in
      _ <- assert (Rlt_b (Rabs (efficiency_from_heat - efficiency_from_work))
                     allowed_error) assert_efficiency ;;
      Ok ((efficiency_from_heat + efficiency_from_work) / 2)
  end.

(** [title.split(" ")[0]]: the title up to its first blank. *)
Fixpoint first_word (s : string) : string :=
  match s with
  | EmptyString => EmptyString
  | String c rest => if Ascii.eqb c " "%char then EmptyString else String c (first_word rest)
  end.

(** [title[:-3]] *)
Definition drop_last_three (s : string) : string :=
  substring 0 (String.length s - 3) s.

(** [process_label(process)]; [isinstance(process, Isochoric)] is the test
    of the class. *)
Definition process_label (process : BaseProcess.t) : result string :=
  let title := first_word (BaseProcess.title process) in
  let title :=
    if String.eqb title "Adiabatisk" then title else drop_last_three title in
  d <- trajectory process ;;
  v_end <- index_last (BaseProcess.volume d) ;;
  v_start <- index0 (BaseProcess.volume d) ;;
  if Rlt_b v_start v_end then Ok (title ++ " ekspansjon")%string
  else
    match BaseProcess.class process with
    | Class.Isochoric => Ok "Isokor process"%string
    | _ => Ok (title ++ " kompresjon")%string
    end.

(** [run_cycle] *)
Definition run_cycle (self : t) : result t :=
  ps <- generate_processes self ;;
  by_ <- collect BaseProcess.work_done_by ps ;;
  on_ <- collect BaseProcess.work_done_on ps ;;
  q <- collect BaseProcess.heat_absorbed ps ;;
  q' <- collect BaseProcess.heat_released ps ;;
  eff <- _calculate_efficiency q by_ ;;
  first_law <- collect (fun d =>
                 Rlt_b (Rabs (BaseProcess.first_law_consistency d)) allowed_error) ps ;;
  ideal <- collect (fun d => all_within (BaseProcess.ideal_gas_law_consistency d)) ps ;;
  Ok (with_run self
        (mkRun ps by_ on_ q q' eff (forallb (fun b => b) first_law) (forallb (fun b => b) ideal))).

End BaseCycle.

(** [Carnot(compression_ratio, T_hot, T_cold, P1, V1, n, monatomic, diatomic)] *)
Definition Carnot (substances : SubstanceTable) (compression_ratio T_hot T_cold : R)
  (P1 V1 n : option R) (monatomic diatomic : bool) : result BaseCycle.t :=
  self <- BaseCycle.__init__ substances CycleClass.Carnot P1 V1 n compression_ratio
            T_hot T_cold monatomic diatomic None ;;
  let self := BaseCycle.with_title self "Carnot syklus" (Some (1 - T_cold / T_hot)) in
  self <- BaseCycle._find_missing self ;;
  self <- BaseCycle._calculate_alpha_beta self ;;
  BaseCycle.run_cycle self.

(** [Otto(compression_ratio, T_cold, T_hot, P1, V1, n, monatomic, diatomic)] *)
Definition Otto (substances : SubstanceTable) (compression_ratio T_cold T_hot : R)
  (P1 V1 n : option R) (monatomic diatomic : bool) : result BaseCycle.t :=
  self <- BaseCycle.__init__ substances CycleClass.Otto P1 V1 n compression_ratio
            T_hot T_cold monatomic diatomic None ;;
  let self := BaseCycle.with_title self "Otto syklus" None in
  self <- BaseCycle._find_missing self ;;
  self <- BaseCycle._calculate_alpha_beta self ;;
  BaseCycle.run_cycle self.

(** * Vocabulary of the statements

    Every trajectory of the source is three arrays computed from one swept
    array [s]: [volume = map fV s], [pressure = map fP s] and
    [temperature = map fT s]. *)

(** The values of [calculate_work_done_by] and [calculate_heat_absorbed]
    for a trajectory that ends at volume [v_end] and temperature [t_end]. *)
Definition work_by (p : BaseProcess.t) (n' p1 v1 t1 v_end t_end : R) : R :=
  match BaseProcess.class p with
  | Class.BaseProcess | Class.Isobaric => p1 * (v_end - v1)
  | Class.Isothermal => R_gas * n' * t1 * ln (v_end / v1)
  | Class.Isochoric => 0
  | Class.Adiabatic => - (n' * BaseProcess.Cv p * (t_end - t1))
  end.

Definition heat_in (p : BaseProcess.t) (n' t1 t_end work_on : R) : R :=
  match BaseProcess.class p with
  | Class.BaseProcess => n' * (BaseProcess.Cv p + 1) * (t_end - t1)
  | Class.Isothermal => - work_on
  | Class.Isobaric => n' * BaseProcess.Cp p * (t_end - t1)
  | Class.Isochoric => n' * BaseProcess.Cv p * (t_end - t1)
  | Class.Adiabatic => 0
  end.

(** The start state is fully known. *)
Definition state (p : BaseProcess.t) (n' p1 v1 t1 : R) : Prop :=
  BaseProcess.n p = Some n' /\ BaseProcess.P1 p = Some p1
  /\ BaseProcess.V1 p = Some v1 /\ BaseProcess.T1 p = Some t1.

(** The three generation methods under one name. *)
Inductive Target : Set := to_V | to_P | to_T.

Definition generate (m : Target) (p : BaseProcess.t) (x2 : option R) (steps : nat)
  : result BaseProcess.t :=
  match m with
  | to_V => BaseProcess.generate_data_from_dV p x2 steps
  | to_P => BaseProcess.generate_data_from_dP p x2 steps
  | to_T => BaseProcess.generate_data_from_dT p x2 steps
  end.

(** The swept array of each method of each class, and the three functions
    that give volume, pressure and temperature along it. *)
Record Path : Type := mkPath {
  swept : list R;
  fV : R -> R;
  fP : R -> R;
  fT : R -> R
}.

Definition constant_path (p1 v1 t1 : R) (steps : nat) : Path :=
  mkPath (ones steps) (fun _ => v1 * 1) (fun _ => p1 * 1) (fun _ => t1 * 1).

Definition path (p : BaseProcess.t) (m : Target) (n' p1 v1 t1 x2 : R) (steps : nat)
  : Path :=
  let g := BaseProcess.gamma p in
  let x := fun r : R => r in
  match BaseProcess.class p, m with
  | Class.BaseProcess, _ | Class.Isochoric, to_V => constant_path p1 v1 t1 steps
  | Class.Isothermal, to_V =>
      mkPath (linspace v1 x2 steps) x (fun v => BaseProcess.P n' v t1) (fun _ => t1 * 1)
  | Class.Isothermal, to_T =>
      mkPath (linspace v1 v1 steps) x (fun v => BaseProcess.P n' v t1) (fun _ => t1 * 1)
  | Class.Isothermal, to_P =>
      mkPath (linspace p1 x2 steps) (fun q => BaseProcess.V n' q t1) x (fun _ => t1 * 1)
  | Class.Isobaric, to_V =>
      mkPath (linspace v1 x2 steps) x (fun _ => p1 * 1) (fun v => BaseProcess.T n' p1 v)
  | Class.Isobaric, to_P =>
      mkPath (linspace v1 v1 steps) x (fun _ => p1 * 1) (fun v => BaseProcess.T n' p1 v)
  | Class.Isobaric, to_T =>
      mkPath (linspace t1 x2 steps) (fun t => BaseProcess.V n' p1 t) (fun _ => p1 * 1) x
  | Class.Isochoric, to_T =>
      mkPath (linspace t1 x2 steps) (fun _ => v1 * 1) (fun t => BaseProcess.P n' v1 t) x
  | Class.Isochoric, to_P =>
      mkPath (linspace p1 x2 steps) (fun _ => v1 * 1) x (fun q => BaseProcess.T n' q v1)
  | Class.Adiabatic, to_V =>
      mkPath (linspace v1 x2 steps) x (BaseProcess.P2_from_V2 p1 v1 g)
             (BaseProcess.T2_from_V2 t1 v1 g)
  | Class.Adiabatic, to_P =>
      mkPath (linspace p1 x2 steps) (BaseProcess.V2_from_P2 v1 p1 g) x
             (BaseProcess.T2_from_P2 t1 p1 g)
  | Class.Adiabatic, to_T =>
      mkPath (linspace t1 x2 steps) (BaseProcess.V2_from_T2 v1 t1 g)
             (BaseProcess.P2_from_T2 p1 t1 g) x
  end.


(** What a generated process shows to the cycle that built it. *)
Record Outcome (q : BaseProcess.t) (v p t w h : R) : Prop := mkOutcome {
  out_data : exists d, BaseProcess.data q = Some d
                       /\ BaseProcess.work_done_by d = w
                       /\ BaseProcess.work_done_on d = - w
                       /\ BaseProcess.heat_absorbed d = h
                       /\ BaseProcess.heat_released d = - h;
  out_volume : volume_end q = Ok v;
  out_pressure : pressure_end q = Ok p;
  out_temperature : temperature_end q = Ok t
}.

(** The Carnot cycle of the example: 500 K and 300 K, a monatomic gas, one
    mole, 0.01 cubic metres, compression ratio [r]; the object after
    [_find_missing] and after [_calculate_alpha_beta]. *)
Definition carnot_e : R := 1 / (5 / 3 - 1).
Definition carnot_x : R := Rpower (300 / 500) carnot_e.
Definition carnot_alpha (r : R) : R := r * carnot_x.
Definition carnot_beta (r : R) : R := 1 / r * Rpower (500 / 300) carnot_e.
Definition carnot_p0 : R := 1 * R_gas * 500 / 0.01.

Definition carnot_self1 (r : R) : BaseCycle.t :=
  BaseCycle.with_state
    (BaseCycle.with_title
       (BaseCycle.mk CycleClass.Carnot (Some 0.01) None (Some 500) (Some 1) r 500 300
          true false (5 / 3) (3 / 2 * R_gas) (5 / 2 * R_gas) None None None None ""
          None None None None)
       "Carnot syklus" (Some (1 - 300 / 500)))
    (Some 0.01) (Some carnot_p0) (Some 500) (Some 1).

Definition carnot_self (r : R) : BaseCycle.t :=
  BaseCycle.with_alpha_beta (carnot_self1 r) (carnot_alpha r) (carnot_beta r).

(** [q'] starts on the state on which [q] ended. *)
Definition continues (q q' : BaseProcess.t) : Prop :=
  exists n' p v t,
    pressure_end q = Ok p /\ volume_end q = Ok v /\ temperature_end q = Ok t
    /\ state q' n' p v t.

(** [q'] is built from the volume and the temperature on which [q] ended;
    its start pressure is the one its constructor computes from them. *)
Definition hands_over (n' : R) (q q' : BaseProcess.t) : Prop :=
  exists v t,
    volume_end q = Ok v /\ temperature_end q = Ok t
    /\ state q' n' (BaseProcess.P n' v t) v t.

(** The title each constructor assigns. *)
Definition class_title (c : Class.t) : string :=
  match c with
  | Class.BaseProcess => ""
  | Class.Isothermal => "Isotermisk prosess"
  | Class.Isobaric => "Isobar prosess"
  | Class.Isochoric => "Isokor prosess"
  | Class.Adiabatic => "Adiabatisk prosess"
  end.

(** The transitions of the tape, each called with its single target. *)
Inductive Move : Set :=
| isothermal_V | isothermal_P
| isobaric_V | isobaric_T
| isochoric_P | isochoric_T
| adiabatic_P | adiabatic_V | adiabatic_T.

Definition move (mv : Move) (g : IdealGas.t) (x2 : R) : result IdealGas.t :=
  match mv with
  | isothermal_V => IdealGas.isothermal g None (Some x2)
  | isothermal_P => IdealGas.isothermal g (Some x2) None
  | isobaric_V => IdealGas.isobaric g (Some x2) None
  | isobaric_T => IdealGas.isobaric g None (Some x2)
  | isochoric_P => IdealGas.isochoric g (Some x2) None
  | isochoric_T => IdealGas.isochoric g None (Some x2)
  | adiabatic_P => IdealGas.adiabatic g (Some x2) None None
  | adiabatic_V => IdealGas.adiabatic g None (Some x2) None
  | adiabatic_T => IdealGas.adiabatic g None None (Some x2)
  end.

(** Whether a class defines the generation method itself (and does not
    inherit it from [BaseProcess]), and the start value of the variable the
    method sweeps. *)
Definition sweeps (c : Class.t) (m : Target) : bool :=
  match c, m with
  | Class.Isothermal, to_V | Class.Isothermal, to_P
  | Class.Isobaric, to_V | Class.Isobaric, to_T
  | Class.Isochoric, to_P | Class.Isochoric, to_T
  | Class.Adiabatic, _ => true
  | _, _ => false
  end.

Definition start_of (m : Target) (p1 v1 t1 : R) : R :=
  match m with
  | to_V => v1
  | to_P => p1
  | to_T => t1
  end.



(** The Carnot object constructed with neither gas flag: its constants are
    those of the table's entry [air]. *)
Definition carnot_of_air (air : Material) (r Th Tc v1 n' : R) : BaseCycle.t :=
  BaseCycle.with_state
    (BaseCycle.with_title
       (BaseCycle.mk CycleClass.Carnot (Some v1) None (Some Th) (Some n') r Th Tc
          false false (mat_gamma air) (mat_Cv air) (mat_Cp air) (Some (mat_M air))
          (Some air) (Some "Air"%string) (Some (mat_formula air)) ""
          None None None None)
       "Carnot syklus" (Some (1 - Tc / Th)))
    (Some v1) (Some (n' * R_gas * Th / v1)) (Some Th) (Some n').

(** * Properties *)

(** ** Comparisons and the error monad *)

Lemma Rlt_b_true (x y : R) : x < y -> Rlt_b x y = true.
Proof. intros H. unfold Rlt_b. destruct (Rlt_dec x y); [reflexivity | contradiction]. Qed.

Lemma Rlt_b_false (x y : R) : ~ x < y -> Rlt_b x y = false.
Proof. intros H. unfold Rlt_b. destruct (Rlt_dec x y); [contradiction | reflexivity]. Qed.

Lemma Req_b_true (x y : R) : x = y -> Req_b x y = true.
Proof. intros H. unfold Req_b. destruct (Req_dec_T x y); [reflexivity | contradiction]. Qed.

Lemma Req_b_false (x y : R) : x <> y -> Req_b x y = false.
Proof. intros H. unfold Req_b. destruct (Req_dec_T x y); [contradiction | reflexivity]. Qed.

Lemma within_zero : Rlt_b (Rabs 0) allowed_error = true.
Proof. apply Rlt_b_true. rewrite Rabs_R0. unfold allowed_error. lra. Qed.

Lemma R_gas_pos : 0 < R_gas.
Proof. unfold R_gas. lra. Qed.

Lemma K_ge_2 : (2 <= K)%nat.
Proof. unfold K. lia. Qed.

(** ** State completion *)

Lemma defined_lt_3_cases (a b c d : option R) :
  (defined a + defined b + defined c + defined d < 3)%nat ->
  (2 <? defined a + defined b + defined c + defined d)%nat = false.
Proof. intros H. apply Nat.ltb_ge. lia. Qed.

Lemma missing_defined (x : option R) : (missing x + defined x = 1)%nat.
Proof. destruct x; reflexivity. Qed.

(** A process built from four values that violate [P V = n R T] is
    accepted as it is. *)
Lemma find_missing_accepts_inconsistent_state :
  exists p,
    Isothermal (Some 1) (Some 1) (Some 1) (Some 1) false false gas_none = Ok p
    /\ BaseProcess.P1 p = Some 1 /\ BaseProcess.V1 p = Some 1
    /\ BaseProcess.T1 p = Some 1 /\ BaseProcess.n p = Some 1
    /\ ~ Rabs (1 * 1 - 1 * R_gas * 1) < 1e-10.
Proof.
  eexists. split; [reflexivity |]. cbn. repeat split.
  unfold R_gas. intros H. apply Rabs_def2 in H. lra.
Qed.

(** [find_missing_values] never reaches its consistency check: four
    supplied values, consistent or not, are turned away by the first
    assertion. *)
Lemma find_missing_values_rejects_four (P V T n : R) :
  IdealGas.find_missing_values (Some P) (Some V) (Some T) (Some n)
  = Raise (AssertionError assert_one_missing).
Proof. reflexivity. Qed.

(** C2, as amended: with fewer than three of P, V, T, n supplied both
    completions fail on their first assertion; [_find_missing] given all
    four returns the state unchanged, without any consistency check. *)
Theorem state_completion_failures :
  (forall P V T n : option R,
      (defined P + defined V + defined T + defined n < 3)%nat ->
      IdealGas.find_missing_values P V T n = Raise (AssertionError assert_one_missing))
  /\ (forall self : BaseProcess.t,
      (defined (BaseProcess.P1 self) + defined (BaseProcess.V1 self)
       + defined (BaseProcess.T1 self) + defined (BaseProcess.n self) < 3)%nat ->
      BaseProcess._find_missing self = Raise (AssertionError assert_three_defined))
  /\ (forall self : BaseProcess.t,
      (defined (BaseProcess.P1 self) + defined (BaseProcess.V1 self)
       + defined (BaseProcess.T1 self) + defined (BaseProcess.n self) = 4)%nat ->
      BaseProcess._find_missing self = Ok self).
Proof.
  split; [| split].
  - intros P V T n H.
    destruct P, V, T, n; cbn in H; try lia; reflexivity.
  - intros self H. unfold BaseProcess._find_missing.
    rewrite (defined_lt_3_cases _ _ _ _ H). reflexivity.
  - intros self H. unfold BaseProcess._find_missing.
    destruct (BaseProcess.P1 self), (BaseProcess.V1 self), (BaseProcess.T1 self),
      (BaseProcess.n self); cbn in H; try lia; reflexivity.
Qed.

Lemma state_completion_failures_witness :
  IdealGas.find_missing_values (Some 1) (Some 1) None None
  = Raise (AssertionError assert_one_missing)
  /\ Isochoric (Some 1) (Some 1) None None false false gas_none
     = Raise (AssertionError assert_three_defined)
  /\ (let self := BaseProcess.__init__ Class.Adiabatic (Some 1) (Some 1) (Some 1)
                    (Some 1) false false gas_none in
      BaseProcess._find_missing self = Ok self).
Proof.
  destruct state_completion_failures as [H1 [H2 H3]].
  split; [| split].
  - apply H1. cbn. lia.
  - apply H2. cbn. lia.
  - apply H3. cbn. lia.
Defined.

(** With exactly one value missing, the completed state satisfies
    [P V = n R T] (the divisor being non-zero). *)
Lemma find_missing_values_completes (P V T n : option R) (p v t n' : R) :
  IdealGas.find_missing_values P V T n = Ok (p, v, t, n') ->
  p <> 0 -> v <> 0 -> t <> 0 -> n' <> 0 ->
  p * v = n' * R_gas * t.
Proof.
  pose proof R_gas_pos as HR.
  intros H Hp Hv Ht Hn.
  destruct P as [p0|], V as [v0|], T as [t0|], n as [n0|]; cbn in H;
    try discriminate; injection H as <- <- <- <-; try (field; lra).
Qed.

(** ** Gas identity *)

(** C5 fails on the code: whatever is passed as [gas], a process is built
    with the monatomic constants and without a molar mass; the substance
    table is not consulted. *)
Theorem process_ignores_named_substance (gas : GasArg) (n P1 V1 T1 : option R)
  (p : BaseProcess.t) :
  (Isothermal n T1 V1 P1 false false gas = Ok p
   \/ Isobaric n P1 T1 V1 false false gas = Ok p
   \/ Isochoric n V1 T1 P1 false false gas = Ok p
   \/ Adiabatic None n P1 V1 T1 false false gas = Ok p) ->
  BaseProcess.Cv p = 3 / 2 * R_gas /\ BaseProcess.Cp p = 5 / 2 * R_gas
  /\ BaseProcess.gamma p = 5 / 3 /\ BaseProcess.M p = None
  /\ BaseProcess.material p = None.
Proof.
  unfold Isothermal, Isobaric, Isochoric, Adiabatic, BaseProcess._find_missing.
  intros H.
  destruct P1, V1, T1, n; cbn in H;
    repeat match goal with
      | H : _ \/ _ |- _ => destruct H as [H | H]
      end; try discriminate; injection H as <-; cbn; repeat split.
Qed.

Lemma process_ignores_named_substance_witness :
  exists p,
    Isothermal (Some 1) (Some 300) (Some 1) None false false (gas_name "Helium") = Ok p
    /\ BaseProcess.Cv p = 3 / 2 * R_gas /\ BaseProcess.Cp p = 5 / 2 * R_gas
    /\ BaseProcess.gamma p = 5 / 3 /\ BaseProcess.M p = None
    /\ BaseProcess.material p = None.
Proof.
  eexists. split; [reflexivity |].
  apply (process_ignores_named_substance (gas_name "Helium")
           (Some 1) None (Some 1) (Some 300)).
  left. reflexivity.
Defined.

(** What the same process would hold had [set_internal_values] been called
    with a name of the table. *)
Lemma set_internal_values_reads_table (substances : SubstanceTable) (gas : string)
  (m : Material) (self : BaseProcess.t) :
  lookup substances gas = Some m ->
  exists p,
    BaseProcess.set_internal_values substances self (Some gas) = Ok p
    /\ BaseProcess.Cv p = mat_Cv m /\ BaseProcess.Cp p = mat_Cp m
    /\ BaseProcess.gamma p = mat_gamma m /\ BaseProcess.M p = Some (mat_M m).
Proof.
  intros H. unfold BaseProcess.set_internal_values, select_material.
  rewrite H. cbn. eexists. split; [reflexivity |]. cbn. repeat split.
Qed.

(** ** Arrays *)

Lemma length_linspace (a b : R) (num : nat) : List.length (linspace a b num) = num.
Proof.
  destruct num as [| [| m]]; cbn [linspace List.length]; try reflexivity.
  rewrite length_app, length_map, length_seq. cbn. lia.
Qed.

Lemma linspace_nonempty (a b : R) (num : nat) : (1 <= num)%nat -> linspace a b num <> [].
Proof.
  intros H E. apply (f_equal (@List.length R)) in E.
  rewrite length_linspace in E. cbn in E. lia.
Qed.

Lemma hd_linspace (a b : R) (num : nat) : (1 <= num)%nat -> hd 0 (linspace a b num) = a.
Proof.
  intros H. destruct num as [| [| m]]; [lia | reflexivity |].
  cbn [linspace seq map app hd INR]. lra.
Qed.

Lemma last_linspace (a b : R) (num : nat) : (2 <= num)%nat -> last (linspace a b num) 0 = b.
Proof.
  intros H. destruct num as [| [| m]]; [lia | lia |].
  unfold linspace. apply last_last.
Qed.

(** Every sample lies between the end points; only positivity is used. *)
Lemma linspace_pos (a b : R) (num : nat) (x : R) :
  0 < a -> 0 < b -> In x (linspace a b num) -> 0 < x.
Proof.
  intros Ha Hb Hin. destruct num as [| [| m]].
  - destruct Hin.
  - destruct Hin as [<- | []]. exact Ha.
  - unfold linspace in Hin. apply in_app_or in Hin. destruct Hin as [Hin | Hin].
    + apply in_map_iff in Hin. destruct Hin as [i [<- Hi]].
      apply in_seq in Hi.
      assert (Hd : 0 < INR (S m)) by (apply lt_0_INR; lia).
      assert (Hi0 : 0 <= INR i) by apply pos_INR.
      assert (Hlt : INR i < INR (S m)) by (apply lt_INR; lia).
      replace (a + INR i * ((b - a) / INR (S m)))
        with ((a * (INR (S m) - INR i) + b * INR i) / INR (S m)) by (field; lra).
      apply Rdiv_lt_0_compat; [| exact Hd]. nra.
    + destruct Hin as [<- | []]. exact Hb.
Qed.

Lemma ones_nonempty (steps : nat) : (1 <= steps)%nat -> ones steps <> [].
Proof. destruct steps; [lia | discriminate]. Qed.

Lemma scale_ones_length (c : R) (s : list R) :
  scale c (ones (List.length s)) = map (fun _ => c * 1) s.
Proof.
  unfold scale, ones. induction s as [| x s IH]; cbn; [reflexivity |].
  f_equal. exact IH.
Qed.

Lemma scale_ones (c : R) (steps : nat) :
  scale c (ones steps) = map (fun _ => c * 1) (ones steps).
Proof.
  unfold scale, ones. induction steps as [| m IH]; cbn; [reflexivity |].
  f_equal. exact IH.
Qed.

Lemma zipWith_map {S A B C : Type} (f : A -> B -> C) (g : S -> A) (h : S -> B)
  (s : list S) :
  zipWith f (map g s) (map h s) = map (fun x => f (g x) (h x)) s.
Proof. induction s as [| x s IH]; cbn; [reflexivity | f_equal; exact IH]. Qed.

Lemma zipWith3_map {S A B C D : Type} (f : A -> B -> C -> D) (g : S -> A)
  (h : S -> B) (i : S -> C) (s : list S) :
  zipWith3 f (map g s) (map h s) (map i s) = map (fun x => f (g x) (h x) (i x)) s.
Proof. induction s as [| x s IH]; cbn; [reflexivity | f_equal; exact IH]. Qed.

Lemma zipWith_nth {A B C : Type} (f : A -> B -> C) (a : list A) (b : list B)
  (i : nat) (da : A) (db : B) (dc : C) :
  (i < List.length a)%nat -> (i < List.length b)%nat ->
  nth i (zipWith f a b) dc = f (nth i a da) (nth i b db).
Proof.
  revert b i. induction a as [| x a IH]; intros [| y b] i Ha Hb; cbn in *; try lia.
  destruct i; [reflexivity |]. apply IH; lia.
Qed.

Lemma index0_map (f : R -> R) (s : list R) :
  s <> [] -> index0 (map f s) = Ok (f (hd 0 s)).
Proof. destruct s; [contradiction | reflexivity]. Qed.

Lemma last_map (f : R -> R) (s : list R) :
  s <> [] -> last (map f s) 0 = f (last s 0).
Proof.
  induction s as [| x s IH]; [contradiction |]. intros _.
  destruct s as [| y s]; [reflexivity |].
  change (last (map f (y :: s)) 0 = f (last (y :: s) 0)).
  apply IH. discriminate.
Qed.

Lemma index_last_map (f : R -> R) (s : list R) :
  s <> [] -> index_last (map f s) = Ok (f (last s 0)).
Proof.
  intros H. rewrite <- (last_map f s H).
  destruct s; [contradiction | reflexivity].
Qed.

Lemma last_In (s : list R) : s <> [] -> In (last s 0) s.
Proof.
  induction s as [| x s IH]; [contradiction |]. intros _.
  destruct s as [| y s]; [left; reflexivity |].
  right. apply IH. discriminate.
Qed.

Lemma hd_In (s : list R) : s <> [] -> In (hd 0 s) s.
Proof. destruct s; [contradiction | intros _; left; reflexivity]. Qed.

Lemma all_within_map_zero (g : R -> R) (s : list R) :
  (forall x, In x s -> g x = 0) -> all_within (map g s) = true.
Proof.
  intros H. unfold all_within. apply forallb_forall. intros r Hr.
  apply in_map_iff in Hr. destruct Hr as [x [<- Hx]].
  rewrite (H x Hx). exact within_zero.
Qed.

(** ** What a generation assigns *)

Lemma generate_extra_data_sweep (p : BaseProcess.t) (n' p1 v1 t1 : R)
  (s vol pres temp : list R) (fV fP fT : R -> R) :
  state p n' p1 v1 t1 -> s <> [] ->
  vol = map fV s -> pres = map fP s -> temp = map fT s ->
  let W := work_by p n' p1 v1 t1 (fV (last s 0)) (fT (last s 0)) in
  let Q := heat_in p n' t1 (fT (last s 0)) (- W) in
  exists d,
    BaseProcess._generate_extra_data p vol pres temp = Ok (BaseProcess.with_data p d)
    /\ BaseProcess.volume d = map fV s
    /\ BaseProcess.pressure d = map fP s
    /\ BaseProcess.temperature d = map fT s
    /\ BaseProcess.entropy d
       = map (fun x => n' * ln (fV x) + BaseProcess.Cv p * ln (fT x)) s
    /\ BaseProcess.ideal_gas_law_consistency d
       = map (fun x => fP x * fV x - n' * R_gas * fT x) s
    /\ BaseProcess.work_done_by d = W
    /\ BaseProcess.heat_absorbed d = Q
    /\ BaseProcess.first_law_consistency d
       = - W + Q - BaseProcess.Cv p * n' * fT (last s 0)
         + BaseProcess.Cv p * n' * fT (hd 0 s).
Proof.
  intros (Hn & HP & HV & HT) Hs -> -> -> W Q.
  unfold BaseProcess._generate_extra_data, BaseProcess.calculate_work_done_by,
    BaseProcess.calculate_heat_absorbed.
  rewrite Hn, HP, HV, HT. cbn [bind attr]. cbv zeta.
  rewrite map_map, zipWith_map, zipWith3_map.
  rewrite !(index_last_map _ s Hs), (index0_map _ s Hs).
  subst W Q. unfold work_by, heat_in.
  destruct (BaseProcess.class p); cbn [bind attr];
    (eexists; split; [reflexivity |]); cbn; repeat split; try reflexivity.
Qed.

Lemma generate_path (p : BaseProcess.t) (m : Target) (n' p1 v1 t1 x2 : R) (steps : nat) :
  state p n' p1 v1 t1 ->
  let w := path p m n' p1 v1 t1 x2 steps in
  generate m p (Some x2) steps
  = BaseProcess._generate_extra_data p (map (fV w) (swept w)) (map (fP w) (swept w))
      (map (fT w) (swept w)).
Proof.
  intros (Hn & HP & HV & HT). unfold path, generate.
  unfold BaseProcess.generate_data_from_dP, BaseProcess.generate_data_from_dT,
    BaseProcess.generate_data_from_dV.
  destruct (BaseProcess.class p), m; rewrite ?Hn, ?HP, ?HV, ?HT;
    cbn [bind attr asserted swept fV fP fT constant_path];
    rewrite ?scale_ones_length, ?scale_ones, ?map_id; reflexivity.
Qed.

Lemma path_nonempty (p : BaseProcess.t) (m : Target) (n' p1 v1 t1 x2 : R) (steps : nat) :
  (1 <= steps)%nat -> swept (path p m n' p1 v1 t1 x2 steps) <> [].
Proof.
  intros H. unfold path.
  destruct (BaseProcess.class p), m; cbn [swept constant_path];
    first [apply linspace_nonempty; exact H | apply ones_nonempty; exact H].
Qed.

Lemma path_pos (p : BaseProcess.t) (m : Target) (n' p1 v1 t1 x2 : R) (steps : nat) (x : R) :
  0 < p1 -> 0 < v1 -> 0 < t1 -> 0 < x2 ->
  In x (swept (path p m n' p1 v1 t1 x2 steps)) -> 0 < x.
Proof.
  intros Hp Hv Ht Hx. unfold path.
  destruct (BaseProcess.class p), m; cbn [swept constant_path]; intros Hin;
    first [ apply repeat_spec in Hin; subst x; lra
          | eapply linspace_pos; [| | exact Hin]; assumption ].
Qed.

(** A generation from a fully known start state succeeds as soon as one
    step is asked for, and assigns the data of its path. *)
Lemma generate_data (p : BaseProcess.t) (m : Target) (n' p1 v1 t1 x2 : R) (steps : nat) :
  state p n' p1 v1 t1 -> (1 <= steps)%nat ->
  let w := path p m n' p1 v1 t1 x2 steps in
  let W := work_by p n' p1 v1 t1 (fV w (last (swept w) 0)) (fT w (last (swept w) 0)) in
  let Q := heat_in p n' t1 (fT w (last (swept w) 0)) (- W) in
  exists d,
    generate m p (Some x2) steps = Ok (BaseProcess.with_data p d)
    /\ BaseProcess.volume d = map (fV w) (swept w)
    /\ BaseProcess.pressure d = map (fP w) (swept w)
    /\ BaseProcess.temperature d = map (fT w) (swept w)
    /\ BaseProcess.entropy d
       = map (fun x => n' * ln (fV w x) + BaseProcess.Cv p * ln (fT w x)) (swept w)
    /\ BaseProcess.ideal_gas_law_consistency d
       = map (fun x => fP w x * fV w x - n' * R_gas * fT w x) (swept w)
    /\ BaseProcess.work_done_by d = W
    /\ BaseProcess.heat_absorbed d = Q
    /\ BaseProcess.first_law_consistency d
       = - W + Q - BaseProcess.Cv p * n' * fT w (last (swept w) 0)
         + BaseProcess.Cv p * n' * fT w (hd 0 (swept w)).
Proof.
  intros Hst Hsteps w W Q.
  rewrite (generate_path p m n' p1 v1 t1 x2 steps Hst). fold w.
  apply (generate_extra_data_sweep p n' p1 v1 t1 (swept w) _ _ _ (fV w) (fP w) (fT w));
    try reflexivity; [exact Hst |].
  apply path_nonempty. exact Hsteps.
Qed.

(** ** Powers *)

Lemma Rpower_pos (x y : R) : 0 < Rpower x y.
Proof. unfold Rpower. apply exp_pos. Qed.

Lemma Rpower_1_base (y : R) : Rpower 1 y = 1.
Proof. unfold Rpower. rewrite ln_1, Rmult_0_r. apply exp_0. Qed.

Lemma Rpower_succ (x y : R) : 0 < x -> Rpower x (y + 1) = Rpower x y * x.
Proof. intros H. rewrite Rpower_plus, (Rpower_1 x H). reflexivity. Qed.

Lemma Rpower_inv_base (x y : R) : 0 < x -> Rpower (/ x) y = / Rpower x y.
Proof.
  intros H. unfold Rpower. rewrite (ln_Rinv x H).
  replace (y * - ln x) with (- (y * ln x)) by ring. apply exp_Ropp.
Qed.

Lemma Rpower_swap (a b y : R) : 0 < a -> 0 < b -> Rpower (b / a) y = / Rpower (a / b) y.
Proof.
  intros Ha Hb. rewrite <- Rpower_inv_base by (apply Rdiv_lt_0_compat; assumption).
  f_equal. field. split; lra.
Qed.

Lemma Rpower_there_and_back (a b y : R) :
  0 < a -> 0 < b -> Rpower (a / b) y * Rpower (b / a) y = 1.
Proof.
  intros Ha Hb. rewrite (Rpower_swap a b y Ha Hb).
  apply Rinv_r. pose proof (Rpower_pos (a / b) y). lra.
Qed.

(** [8 ** (5/3 - 1) = 4] *)
Lemma Rpower_8_two_thirds : Rpower 8 (5 / 3 - 1) = 4.
Proof.
  replace 8 with (Rpower 2 (INR 3)) by (rewrite Rpower_pow by lra; simpl; lra).
  rewrite Rpower_mult.
  replace (INR 3 * (5 / 3 - 1)) with (INR 2) by (simpl; lra).
  rewrite Rpower_pow by lra. simpl. lra.
Qed.

(** ** The ideal-gas law along a path *)

Lemma path_ideal (p : BaseProcess.t) (m : Target) (n' p1 v1 t1 x2 : R) (steps : nat)
  (x : R) :
  0 < n' -> 0 < p1 -> 0 < v1 -> 0 < t1 -> p1 * v1 = n' * R_gas * t1 ->
  1 < BaseProcess.gamma p -> 0 < x ->
  let w := path p m n' p1 v1 t1 x2 steps in
  fP w x * fV w x - n' * R_gas * fT w x = 0.
Proof.
  intros Hn Hp Hv Ht Hlaw Hg Hx. pose proof R_gas_pos as HR.
  unfold path. set (g := BaseProcess.gamma p) in *.
  destruct (BaseProcess.class p), m; cbn [fV fP fT constant_path];
    unfold BaseProcess.P, BaseProcess.V, BaseProcess.T;
    try (rewrite !Rmult_1_r; lra);
    try (field_simplify_eq; [nra | try split; nra]).
  - (* adiabatic, swept volume *)
    unfold BaseProcess.P2_from_V2, BaseProcess.T2_from_V2.
    replace g with (g - 1 + 1) at 1 by ring.
    rewrite Rpower_succ by (apply Rdiv_lt_0_compat; assumption).
    replace (p1 * (Rpower (v1 / x) (g - 1) * (v1 / x)) * x)
      with (p1 * v1 * Rpower (v1 / x) (g - 1)) by (field; lra).
    rewrite Hlaw. ring.
  - (* adiabatic, swept pressure *)
    unfold BaseProcess.V2_from_P2, BaseProcess.T2_from_P2.
    replace ((g - 1) / g) with (- (1 / g) + 1) by (field; lra).
    rewrite Rpower_succ by (apply Rdiv_lt_0_compat; assumption).
    rewrite Rpower_Ropp, <- (Rpower_swap x p1 (1 / g)) by assumption.
    replace (n' * R_gas * (t1 * (Rpower (p1 / x) (1 / g) * (x / p1))))
      with (n' * R_gas * t1 * (Rpower (p1 / x) (1 / g) * (x / p1))) by ring.
    rewrite <- Hlaw. field. lra.
  - (* adiabatic, swept temperature *)
    unfold BaseProcess.V2_from_T2, BaseProcess.P2_from_T2.
    replace (g / (g - 1)) with (1 / (g - 1) + 1) by (field; lra).
    rewrite Rpower_succ by (apply Rdiv_lt_0_compat; assumption).
    rewrite (Rpower_swap x t1 (1 / (g - 1))) by assumption.
    pose proof (Rpower_pos (x / t1) (1 / (g - 1))) as Hpow.
    replace (p1 * (Rpower (x / t1) (1 / (g - 1)) * (x / t1))
             * (v1 * / Rpower (x / t1) (1 / (g - 1))))
      with (p1 * v1 * (x / t1)) by (field; lra).
    rewrite Hlaw. field. lra.
Qed.

(** ** Completed start states *)


(** ** C7: the ideal-gas residual *)

Lemma path_length (p : BaseProcess.t) (m : Target) (n' p1 v1 t1 x2 : R) (steps : nat) :
  List.length (swept (path p m n' p1 v1 t1 x2 steps)) = steps.
Proof.
  unfold path.
  destruct (BaseProcess.class p), m; cbn [swept constant_path];
    first [apply length_linspace | apply repeat_length].
Qed.

Lemma nth_map_default (f : R -> R) (s : list R) (i : nat) :
  (i < List.length s)%nat -> nth i (map f s) 0 = f (nth i s 0).
Proof.
  intros H. rewrite (nth_indep (map f s) 0 (f 0)) by (rewrite length_map; exact H).
  apply map_nth.
Qed.





(** ** C8: the first-law residual *)

Lemma path_start (p : BaseProcess.t) (m : Target) (n' p1 v1 t1 x2 : R) (steps : nat) :
  0 < n' -> p1 * v1 = n' * R_gas * t1 -> 0 < v1 -> 0 < p1 -> 0 < t1 ->
  (1 <= steps)%nat ->
  let w := path p m n' p1 v1 t1 x2 steps in
  fT w (hd 0 (swept w)) = t1.
Proof.
  intros Hn Hlaw Hv Hp Ht Hsteps. pose proof R_gas_pos as HR. unfold path.
  destruct (BaseProcess.class p), m; cbn [swept fT constant_path];
    rewrite ?(hd_linspace _ _ _ Hsteps);
    unfold BaseProcess.T, BaseProcess.T2_from_V2, BaseProcess.T2_from_P2;
    try lra;
    try (rewrite Hlaw; field; lra);
    try (replace (v1 / v1) with 1 by (field; lra); rewrite Rpower_1_base; lra);
    try (replace (p1 / p1) with 1 by (field; lra); rewrite Rpower_1_base; lra).
Qed.





(** ** End states *)

Lemma hd_map (f : R -> R) (s : list R) : s <> [] -> hd 0 (map f s) = f (hd 0 s).
Proof. destruct s; [contradiction | reflexivity]. Qed.

(** The last point of a generated trajectory, and its work and heat. *)
Lemma generate_end (p : BaseProcess.t) (m : Target) (n' p1 v1 t1 x2 : R) (steps : nat) :
  state p n' p1 v1 t1 -> (1 <= steps)%nat ->
  let w := path p m n' p1 v1 t1 x2 steps in
  let x := last (swept w) 0 in
  exists d,
    generate m p (Some x2) steps = Ok (BaseProcess.with_data p d)
    /\ volume_end (BaseProcess.with_data p d) = Ok (fV w x)
    /\ pressure_end (BaseProcess.with_data p d) = Ok (fP w x)
    /\ temperature_end (BaseProcess.with_data p d) = Ok (fT w x)
    /\ BaseProcess.work_done_by d = work_by p n' p1 v1 t1 (fV w x) (fT w x)
    /\ BaseProcess.work_done_on d = - work_by p n' p1 v1 t1 (fV w x) (fT w x)
    /\ BaseProcess.heat_absorbed d
       = heat_in p n' t1 (fT w x) (- work_by p n' p1 v1 t1 (fV w x) (fT w x))
    /\ BaseProcess.heat_released d
       = - heat_in p n' t1 (fT w x) (- work_by p n' p1 v1 t1 (fV w x) (fT w x)).
Proof.
  intros Hst Hsteps w x.
  pose proof (generate_path p m n' p1 v1 t1 x2 steps Hst) as Hpath.
  destruct (generate_data p m n' p1 v1 t1 x2 steps Hst Hsteps)
    as (d & Hgen & HV & HP & HT & _ & _ & HW & HQ & _).
  fold w in HV, HP, HT, HW, HQ. fold x in HW, HQ.
  assert (Hs : swept w <> []) by (apply path_nonempty; exact Hsteps).
  exists d. unfold volume_end, pressure_end, temperature_end, trajectory.
  cbn [BaseProcess.data BaseProcess.with_data bind].
  rewrite HV, HP, HT, !(index_last_map _ _ Hs).
  repeat split; try assumption.
  - cbv zeta in Hpath. rewrite Hpath in Hgen.
    unfold BaseProcess._generate_extra_data in Hgen.
    destruct Hst as (Hn' & _). rewrite Hn' in Hgen. cbn [bind] in Hgen.
    destruct (BaseProcess.calculate_work_done_by p _ _) as [[by_ on_] |]; [| discriminate].
    cbn [bind] in Hgen.
    destruct (BaseProcess.calculate_heat_absorbed p _ _) as [[q q'] |]; [| discriminate].
    cbn [bind] in Hgen.
    destruct (index_last _) as [u_end |]; [| discriminate].
    destruct (index0 _) as [u_start |]; [| discriminate].
    cbn [bind] in Hgen. injection Hgen as <-.
    cbn [BaseProcess.work_done_on BaseProcess.work_done_by] in *. rewrite HW. reflexivity.
  - cbv zeta in Hpath. rewrite Hpath in Hgen.
    unfold BaseProcess._generate_extra_data in Hgen.
    destruct Hst as (Hn' & _). rewrite Hn' in Hgen. cbn [bind] in Hgen.
    destruct (BaseProcess.calculate_work_done_by p _ _) as [[by_ on_] |]; [| discriminate].
    cbn [bind] in Hgen.
    destruct (BaseProcess.calculate_heat_absorbed p _ _) as [[q q'] |]; [| discriminate].
    cbn [bind] in Hgen.
    destruct (index_last _) as [u_end |]; [| discriminate].
    destruct (index0 _) as [u_start |]; [| discriminate].
    cbn [bind] in Hgen. injection Hgen as <-.
    cbn [BaseProcess.heat_released BaseProcess.heat_absorbed] in *. rewrite HQ. reflexivity.
Qed.

(** ** C10: entropy *)

(** C10: the entropy array holds [n ln V_i + Cv ln T_i] at every index of
    every generated trajectory; and the adiabatic expansion of one mole of
    monatomic gas from 1 to 2 cubic metres absorbs no heat while its
    entropy array ends on a value different from the one it starts on. *)
Theorem entropy_pointwise_not_constant :
  (forall (p p' : BaseProcess.t) (m : Target) (n' p1 v1 t1 x2 : R) (steps : nat)
          (d : BaseProcess.Data) (i : nat),
      state p n' p1 v1 t1 ->
      generate m p (Some x2) steps = Ok p' ->
      BaseProcess.data p' = Some d ->
      (i < steps)%nat ->
      List.length (BaseProcess.entropy d) = steps
      /\ nth i (BaseProcess.entropy d) 0
         = n' * ln (nth i (BaseProcess.volume d) 0)
           + BaseProcess.Cv p * ln (nth i (BaseProcess.temperature d) 0))
  /\ exists p p' d,
      Adiabatic None (Some 1) None (Some 1) (Some 300) true false gas_none = Ok p
      /\ BaseProcess.generate_data_from_dV p (Some 2) K = Ok p'
      /\ BaseProcess.data p' = Some d
      /\ hd 0 (BaseProcess.volume d) = 1 /\ last (BaseProcess.volume d) 0 = 2
      /\ BaseProcess.heat_absorbed d = 0
      /\ last (BaseProcess.entropy d) 0 <> hd 0 (BaseProcess.entropy d).
Proof.
  split.
  - intros p p' m n' p1 v1 t1 x2 steps d i Hst Hgen Hd Hi.
    assert (Hsteps : (1 <= steps)%nat) by lia.
    destruct (generate_data p m n' p1 v1 t1 x2 steps Hst Hsteps)
      as (d0 & Hgen0 & HV & HP & HT & HS & _).
    rewrite Hgen0 in Hgen. injection Hgen as <-.
    cbn in Hd. injection Hd as <-.
    pose proof (path_length p m n' p1 v1 t1 x2 steps) as Hlen.
    rewrite HS, HV, HT, length_map, !nth_map_default by lia.
    split; [exact Hlen | reflexivity].
  - eexists.
    assert (Hone : (1 <= K)%nat) by (unfold K; lia).
    pose (p := BaseProcess.with_state
                 (BaseProcess.with_title
                    (BaseProcess.__init__ Class.Adiabatic (Some 1) None (Some 1) (Some 300)
                       true false gas_none) "Adiabatisk prosess")
                 (Some 1) (Some (BaseProcess.P 1 1 300)) (Some 1) (Some 300)).
    assert (Hst : state p 1 (BaseProcess.P 1 1 300) 1 300) by (repeat split).
    destruct (generate_data p to_V 1 (BaseProcess.P 1 1 300) 1 300 2 K Hst Hone)
      as (d & Hgen & HV & _ & _ & HS & _ & _ & HQ & _).
    exists (BaseProcess.with_data p d), d.
    cbn [generate] in Hgen.
    cbn [path p BaseProcess.class BaseProcess.with_title BaseProcess.with_state
           BaseProcess.__init__ swept fV fP fT BaseProcess.gamma BaseProcess.Cv] in *.
    pose proof (linspace_nonempty 1 2 K Hone) as Hs.
    split; [reflexivity |]. repeat split.
    + exact Hgen.
    + rewrite HV, map_id. apply hd_linspace. exact Hone.
    + rewrite HV, map_id. apply last_linspace. exact K_ge_2.
    + rewrite HQ. reflexivity.
    + rewrite HS, (last_map _ _ Hs), (hd_map _ _ Hs).
      rewrite (last_linspace 1 2 K K_ge_2), (hd_linspace 1 2 K Hone).
      unfold BaseProcess.T2_from_V2.
      replace (1 / 1) with 1 by lra. rewrite Rpower_1_base.
      rewrite ln_1, Rmult_1_r.
      rewrite ln_mult by (try apply Rpower_pos; lra).
      rewrite ln_Rpower. replace (1 / 2) with (/ 2) by lra.
      rewrite ln_Rinv by lra.
      pose proof ln_lt_2 as Hln. unfold R_gas. intros H. nra.
Qed.

Lemma entropy_pointwise_not_constant_witness :
  exists p' d,
    BaseProcess.generate_data_from_dV
      (BaseProcess.__init__ Class.Adiabatic (Some 1) (Some R_gas) (Some 1) (Some 1)
         true false gas_none) (Some 2) 2 = Ok p'
    /\ BaseProcess.data p' = Some d
    /\ List.length (BaseProcess.entropy d) = 2%nat
    /\ nth 1 (BaseProcess.entropy d) 0
       = 1 * ln (nth 1 (BaseProcess.volume d) 0)
         + 3 / 2 * R_gas * ln (nth 1 (BaseProcess.temperature d) 0).
Proof.
  pose (p := BaseProcess.__init__ Class.Adiabatic (Some 1) (Some R_gas) (Some 1) (Some 1)
               true false gas_none).
  assert (Hst : state p 1 R_gas 1 1) by (repeat split).
  destruct (generate_data p to_V 1 R_gas 1 1 2 2 Hst (le_S 1 1 (le_n 1)))
    as (d & Hgen & _).
  exists (BaseProcess.with_data p d), d.
  split; [exact Hgen |]. split; [reflexivity |].
  exact (proj1 entropy_pointwise_not_constant p (BaseProcess.with_data p d) to_V
           1 R_gas 1 1 2 2%nat d 1%nat Hst Hgen eq_refl (le_n 2)).
Defined.

(** ** Constructed processes *)

Lemma find_missing_preserves (self p : BaseProcess.t) :
  BaseProcess._find_missing self = Ok p ->
  BaseProcess.class p = BaseProcess.class self
  /\ BaseProcess.gamma p = BaseProcess.gamma self
  /\ BaseProcess.Cv p = BaseProcess.Cv self
  /\ BaseProcess.Cp p = BaseProcess.Cp self.
Proof.
  unfold BaseProcess._find_missing.
  destruct (BaseProcess.P1 self), (BaseProcess.V1 self), (BaseProcess.T1 self),
    (BaseProcess.n self); cbn; intros H; try discriminate;
    injection H as <-; repeat split.
Qed.

Lemma adiabatic_class (g n P1 V1 T1 : option R) (monatomic diatomic : bool)
  (gas : GasArg) (p : BaseProcess.t) :
  Adiabatic g n P1 V1 T1 monatomic diatomic gas = Ok p ->
  BaseProcess.class p = Class.Adiabatic
  /\ BaseProcess.gamma p
     = match g with
       | Some g' => g'
       | None => if monatomic then 5 / 3 else if diatomic then 7 / 5 else 5 / 3
       end.
Proof.
  unfold Adiabatic. intros H. apply find_missing_preserves in H.
  destruct H as (Hc & Hg & _). rewrite Hc, Hg.
  destruct g, monatomic, diatomic; split; reflexivity.
Qed.

Lemma adiabatic_of_four (g : option R) (n' p1 v1 t1 : R) (monatomic diatomic : bool)
  (gas : GasArg) :
  exists q,
    Adiabatic g (Some n') (Some p1) (Some v1) (Some t1) monatomic diatomic gas = Ok q
    /\ state q n' p1 v1 t1.
Proof.
  unfold Adiabatic, BaseProcess._find_missing.
  destruct g, monatomic, diatomic; cbn;
    (eexists; split; [reflexivity |]); repeat split.
Qed.

(** ** C1: the [isothermal] transition of the tape *)

Lemma last_map_Some (l : list R) :
  l <> [] -> last (map Some l) None = Some (last l 0).
Proof.
  induction l as [| x l IH]; [contradiction |]. intros _.
  destruct l as [| y l]; [reflexivity |].
  change (last (map Some (y :: l)) None = Some (last (y :: l) 0)).
  apply IH. discriminate.
Qed.

Lemma last_append {A : Type} (a b : list A) (d : A) :
  b <> [] -> last (a ++ b) d = last b d.
Proof.
  intros Hb. induction a as [| x a IH]; [reflexivity |].
  cbn [app]. destruct (a ++ b) as [| y r] eqn:E.
  - destruct a, b; try discriminate. contradiction.
  - exact IH.
Qed.

Lemma current_append (a : list (option R)) (l : list R) :
  l <> [] -> IdealGas.current (IdealGas.append a (Some l)) = Ok (Some (last l 0)).
Proof.
  intros Hl. unfold IdealGas.current, IdealGas.append.
  assert (Hm : map Some l <> []) by (destruct l; [contradiction | discriminate]).
  rewrite <- (last_map_Some l Hl), <- (last_append a (map Some l) None Hm).
  destruct (a ++ map Some l) as [| y r] eqn:E; [| reflexivity].
  destruct a, l; try discriminate. contradiction.
Qed.

(** C1 fails on the code: [isothermal] builds an [Adiabatic] process.  On a
    tape holding one mole at 8 cubic metres and 300 K, [isothermal(V2=1)]
    appends an adiabatic trajectory, and the temperature ends on 1200 K. *)
Theorem isothermal_transition_is_adiabatic (m : Material) (rest : SubstanceTable) :
  exists g g' process d,
    IdealGas.__init__ (("Air"%string, m) :: rest) None (Some 8) (Some 300) (Some 1) None
    = Ok g
    /\ IdealGas.current (IdealGas.T g) = Ok (Some 300)
    /\ IdealGas.isothermal g None (Some 1) = Ok g'
    /\ IdealGas.processes g' = [process]
    /\ BaseProcess.class process = Class.Adiabatic
    /\ BaseProcess.data process = Some d
    /\ IdealGas.T g' = Some 300 :: map Some (BaseProcess.temperature d)
    /\ BaseProcess.temperature d
       = map (BaseProcess.T2_from_V2 300 8 (5 / 3)) (linspace 8 1 K)
    /\ IdealGas.current (IdealGas.T g') = Ok (Some 1200).
Proof.
  assert (Hone : (1 <= K)%nat) by (unfold K; lia).
  set (P0 := 1 * R_gas * 300 / 8).
  destruct (adiabatic_of_four None 1 P0 8 300 false false (gas_material m))
    as (q & Hq & Hst).
  destruct (adiabatic_class _ _ _ _ _ _ _ _ _ Hq) as (Hclass & Hgamma).
  cbn in Hgamma.
  destruct (generate_data q to_V 1 P0 8 300 1 K Hst Hone)
    as (d & Hgen & _ & _ & HT & _).
  cbn [generate] in Hgen.
  unfold path in HT. rewrite Hclass, Hgamma in HT. cbn [swept fT] in HT.
  eexists. exists (IdealGas.record
                     (IdealGas.mk [Some P0] [Some 8] [Some 300] 1 m "Air" (mat_M m)
                        (mat_Cv m) (mat_Cp m) (mat_gamma m) (mat_formula m) [])
                     (BaseProcess.with_data q d)), (BaseProcess.with_data q d), d.
  split; [reflexivity |].
  cbn [IdealGas.T IdealGas.P IdealGas.V IdealGas.n IdealGas.material IdealGas.processes
         IdealGas.record app BaseProcess.data BaseProcess.with_data option_map
         BaseProcess.class].
  split; [reflexivity |]. split.
  - unfold IdealGas.isothermal.
    cbn [IdealGas.T IdealGas.P IdealGas.V IdealGas.n IdealGas.material IdealGas.current
           last bind].
    fold P0. rewrite Hq. cbn [bind]. rewrite Hgen. reflexivity.
  - repeat split; try assumption.
    rewrite current_append.
    + rewrite HT, last_map, last_linspace by (try apply linspace_nonempty; lia || exact K_ge_2).
      unfold BaseProcess.T2_from_V2. replace (8 / 1) with 8 by lra.
      rewrite Rpower_8_two_thirds. do 2 f_equal. lra.
    + rewrite HT. intros E. apply map_eq_nil in E.
      exact (linspace_nonempty 8 1 K Hone E).
Qed.

(** ** C6: the compression-ratio checks of Carnot *)

(** What [_calculate_alpha_beta] of a Carnot cycle decides: it fails on
    [alpha = 0], else on [beta * r <= 1], else it assigns both. *)
Lemma carnot_alpha_beta (self : BaseCycle.t) :
  BaseCycle.class self = CycleClass.Carnot ->
  let e := 1 / (BaseCycle.gamma self - 1) in
  let r := BaseCycle.compression_ratio self in
  let alpha := r * Rpower (BaseCycle.T_cold self / BaseCycle.T_hot self) e in
  let beta := 1 / r * Rpower (BaseCycle.T_hot self / BaseCycle.T_cold self) e in
  (alpha = 0 ->
   BaseCycle._calculate_alpha_beta self = Raise (AssertionError assert_ratio_too_low))
  /\ (alpha <> 0 -> ~ 1 < beta * r ->
      BaseCycle._calculate_alpha_beta self = Raise (AssertionError assert_ratio_too_high))
  /\ (alpha <> 0 -> 1 < beta * r ->
      BaseCycle._calculate_alpha_beta self = Ok (BaseCycle.with_alpha_beta self alpha beta)).
Proof.
  intros Hc e r alpha beta. unfold BaseCycle._calculate_alpha_beta. rewrite Hc.
  fold e r. fold alpha beta. repeat split.
  - intros H. rewrite (Req_b_true _ _ H). reflexivity.
  - intros H H'. rewrite (Req_b_false _ _ H), (Rlt_b_false _ _ H'). reflexivity.
  - intros H H'. rewrite (Req_b_false _ _ H), (Rlt_b_true _ _ H'). reflexivity.
Qed.

Lemma Rpower_gt_1 (x y : R) : 1 < x -> 0 < y -> 1 < Rpower x y.
Proof.
  intros Hx Hy. rewrite <- (Rpower_O x) by lra. apply Rpower_lt; assumption.
Qed.

(** C6 fails on the code: with compression ratio [-2] between 500 K and
    300 K, [alpha] is negative, yet both assertions pass and the
    construction goes on to run the cycle. *)
Theorem negative_alpha_is_accepted (substances : SubstanceTable) :
  exists self self' a b,
    (s0 <- BaseCycle.__init__ substances CycleClass.Carnot None (Some 0.01) (Some 1)
             (-2) 500 300 true false None ;;
     BaseCycle._find_missing
       (BaseCycle.with_title s0 "Carnot syklus" (Some (1 - 300 / 500)))) = Ok self
    /\ BaseCycle._calculate_alpha_beta self = Ok self'
    /\ BaseCycle.alpha self' = Some a /\ BaseCycle.beta self' = Some b
    /\ a = -2 * Rpower (300 / 500) (1 / (5 / 3 - 1))
    /\ a < 0 /\ 1 < b * -2.
Proof.
  eexists. eexists. eexists. eexists.
  split; [reflexivity |].
  assert (Ha : -2 * Rpower (300 / 500) (1 / (5 / 3 - 1)) < 0).
  { pose proof (Rpower_pos (300 / 500) (1 / (5 / 3 - 1))). lra. }
  assert (Hb : 1 < 1 / -2 * Rpower (500 / 300) (1 / (5 / 3 - 1)) * -2).
  { pose proof (Rpower_gt_1 (500 / 300) (1 / (5 / 3 - 1))) as H.
    assert (H' : 1 < Rpower (500 / 300) (1 / (5 / 3 - 1))) by (apply H; lra).
    lra. }
  split.
  - apply carnot_alpha_beta; [reflexivity | |]; cbn; lra.
  - cbn. repeat split; assumption.
Qed.

(** ** The processes of the cycles *)

Lemma isothermal_of_three (n' t v : R) (diatomic : bool) :
  exists q,
    Isothermal (Some n') (Some t) (Some v) None false diatomic gas_none = Ok q
    /\ state q n' (BaseProcess.P n' v t) v t
    /\ BaseProcess.class q = Class.Isothermal.
Proof.
  unfold Isothermal, BaseProcess._find_missing.
  destruct diatomic; cbn; (eexists; split; [reflexivity |]); repeat split.
Qed.

Lemma isochoric_of_three (n' v t : R) (diatomic : bool) :
  exists q,
    Isochoric (Some n') (Some v) (Some t) None false diatomic gas_none = Ok q
    /\ state q n' (BaseProcess.P n' v t) v t
    /\ BaseProcess.class q = Class.Isochoric
    /\ BaseProcess.Cv q = (if diatomic then 5 / 2 * R_gas else 3 / 2 * R_gas).
Proof.
  unfold Isochoric, BaseProcess._find_missing.
  destruct diatomic; cbn; (eexists; split; [reflexivity |]); repeat split.
Qed.

Lemma adiabatic_of_three (n' v t : R) (diatomic : bool) :
  exists q,
    Adiabatic None (Some n') None (Some v) (Some t) false diatomic gas_none = Ok q
    /\ state q n' (BaseProcess.P n' v t) v t
    /\ BaseProcess.class q = Class.Adiabatic
    /\ BaseProcess.gamma q = (if diatomic then 7 / 5 else 5 / 3)
    /\ BaseProcess.Cv q = (if diatomic then 5 / 2 * R_gas else 3 / 2 * R_gas).
Proof.
  unfold Adiabatic, BaseProcess._find_missing.
  destruct diatomic; cbn; (eexists; split; [reflexivity |]); repeat split.
Qed.

Lemma isothermal_dV_outcome (q : BaseProcess.t) (n' p1 v1 t1 V2 : R) (steps : nat) :
  BaseProcess.class q = Class.Isothermal -> state q n' p1 v1 t1 -> (2 <= steps)%nat ->
  exists q',
    BaseProcess.generate_data_from_dV q (Some V2) steps = Ok q'
    /\ state q' n' p1 v1 t1
    /\ Outcome q' V2 (BaseProcess.P n' V2 t1) (t1 * 1)
         (R_gas * n' * t1 * ln (V2 / v1)) (- - (R_gas * n' * t1 * ln (V2 / v1))).
Proof.
  intros Hc Hst Hs. assert (H1 : (1 <= steps)%nat) by lia.
  destruct (generate_end q to_V n' p1 v1 t1 V2 steps Hst H1)
    as (d & Hgen & Hv & Hp & Ht & Hw & Hw' & Hh & Hh').
  unfold path, work_by, heat_in in *. rewrite Hc in *.
  cbn [swept fV fP fT] in *. rewrite (last_linspace v1 V2 steps Hs) in *.
  exists (BaseProcess.with_data q d). split; [exact Hgen |].
  split; [exact Hst |]. split; try assumption.
  exists d. repeat split; assumption.
Qed.

Lemma adiabatic_dT_outcome (q : BaseProcess.t) (n' p1 v1 t1 T2 : R) (steps : nat) :
  BaseProcess.class q = Class.Adiabatic -> state q n' p1 v1 t1 -> (2 <= steps)%nat ->
  exists q',
    BaseProcess.generate_data_from_dT q (Some T2) steps = Ok q'
    /\ state q' n' p1 v1 t1
    /\ Outcome q' (BaseProcess.V2_from_T2 v1 t1 (BaseProcess.gamma q) T2)
         (BaseProcess.P2_from_T2 p1 t1 (BaseProcess.gamma q) T2) T2
         (- (n' * BaseProcess.Cv q * (T2 - t1))) 0.
Proof.
  intros Hc Hst Hs. assert (H1 : (1 <= steps)%nat) by lia.
  destruct (generate_end q to_T n' p1 v1 t1 T2 steps Hst H1)
    as (d & Hgen & Hv & Hp & Ht & Hw & Hw' & Hh & Hh').
  unfold path, work_by, heat_in in *. rewrite Hc in *.
  cbn [swept fV fP fT] in *. rewrite (last_linspace t1 T2 steps Hs) in *.
  exists (BaseProcess.with_data q d). split; [exact Hgen |].
  split; [exact Hst |]. split; try assumption.
  exists d. repeat split; assumption.
Qed.

Lemma adiabatic_dV_outcome (q : BaseProcess.t) (n' p1 v1 t1 V2 : R) (steps : nat) :
  BaseProcess.class q = Class.Adiabatic -> state q n' p1 v1 t1 -> (2 <= steps)%nat ->
  exists q',
    BaseProcess.generate_data_from_dV q (Some V2) steps = Ok q'
    /\ state q' n' p1 v1 t1
    /\ Outcome q' V2 (BaseProcess.P2_from_V2 p1 v1 (BaseProcess.gamma q) V2)
         (BaseProcess.T2_from_V2 t1 v1 (BaseProcess.gamma q) V2)
         (- (n' * BaseProcess.Cv q
             * (BaseProcess.T2_from_V2 t1 v1 (BaseProcess.gamma q) V2 - t1))) 0.
Proof.
  intros Hc Hst Hs. assert (H1 : (1 <= steps)%nat) by lia.
  destruct (generate_end q to_V n' p1 v1 t1 V2 steps Hst H1)
    as (d & Hgen & Hv & Hp & Ht & Hw & Hw' & Hh & Hh').
  unfold path, work_by, heat_in in *. rewrite Hc in *.
  cbn [swept fV fP fT] in *. rewrite (last_linspace v1 V2 steps Hs) in *.
  exists (BaseProcess.with_data q d). split; [exact Hgen |].
  split; [exact Hst |]. split; try assumption.
  exists d. repeat split; assumption.
Qed.

Lemma isochoric_dT_outcome (q : BaseProcess.t) (n' p1 v1 t1 T2 : R) (steps : nat) :
  BaseProcess.class q = Class.Isochoric -> state q n' p1 v1 t1 -> (2 <= steps)%nat ->
  exists q',
    BaseProcess.generate_data_from_dT q (Some T2) steps = Ok q'
    /\ state q' n' p1 v1 t1
    /\ Outcome q' (v1 * 1) (BaseProcess.P n' v1 T2) T2 0
         (n' * BaseProcess.Cv q * (T2 - t1)).
Proof.
  intros Hc Hst Hs. assert (H1 : (1 <= steps)%nat) by lia.
  destruct (generate_end q to_T n' p1 v1 t1 T2 steps Hst H1)
    as (d & Hgen & Hv & Hp & Ht & Hw & Hw' & Hh & Hh').
  unfold path, work_by, heat_in in *. rewrite Hc in *.
  cbn [swept fV fP fT] in *. rewrite (last_linspace t1 T2 steps Hs) in *.
  exists (BaseProcess.with_data q d). split; [exact Hgen |].
  split; [exact Hst |]. split; try assumption.
  exists d. repeat split; assumption.
Qed.

Lemma collect_four {A : Type} (f : BaseProcess.Data -> A) (q1 q2 q3 q4 : BaseProcess.t)
  (d1 d2 d3 d4 : BaseProcess.Data) :
  BaseProcess.data q1 = Some d1 -> BaseProcess.data q2 = Some d2 ->
  BaseProcess.data q3 = Some d3 -> BaseProcess.data q4 = Some d4 ->
  BaseCycle.collect f [q1; q2; q3; q4] = Ok [f d1; f d2; f d3; f d4].
Proof.
  intros H1 H2 H3 H4. unfold BaseCycle.collect, trajectory.
  rewrite H1, H2, H3, H4. reflexivity.
Qed.

(** ** C4: the chain of Otto *)

(** The four processes [Otto.generate_processes] builds, each with the
    start state it is given and the end state it reaches. *)
Lemma otto_processes (self : BaseCycle.t) (n' v1 a b : R) :
  BaseCycle.n self = Some n' -> BaseCycle.V1 self = Some v1 ->
  BaseCycle.alpha self = Some a -> BaseCycle.beta self = Some b ->
  BaseCycle.diatomic self = false ->
  let Tc := BaseCycle.T_cold self in
  let Th := BaseCycle.T_hot self in
  let cv := 3 / 2 * R_gas in
  let t2 := BaseProcess.T2_from_V2 Tc v1 (5 / 3) (a * v1) in
  let v3 := a * v1 * 1 in
  let t4 := BaseProcess.T2_from_V2 Th v3 (5 / 3) (b * v3) in
  exists q1 q2 q3 q4 p2 p4,
    BaseCycle.Otto_generate_processes self = Ok [q1; q2; q3; q4]
    /\ state q1 n' (BaseProcess.P n' v1 Tc) v1 Tc
    /\ Outcome q1 (a * v1) p2 t2 (- (n' * cv * (t2 - Tc))) 0
    /\ state q2 n' (BaseProcess.P n' (a * v1) Tc) (a * v1) Tc
    /\ Outcome q2 v3 (BaseProcess.P n' (a * v1) Th) Th 0 (n' * cv * (Th - Tc))
    /\ state q3 n' (BaseProcess.P n' v3 Th) v3 Th
    /\ Outcome q3 (b * v3) p4 t4 (- (n' * cv * (t4 - Th))) 0
    /\ state q4 n' (BaseProcess.P n' (b * v3) Th) (b * v3) Th
    /\ Outcome q4 (b * v3 * 1) (BaseProcess.P n' (b * v3) Tc) Tc 0 (n' * cv * (Tc - Th)).
Proof.
  intros Hn HV Ha Hb Hdia Tc Th cv t2 v3 t4.
  unfold BaseCycle.Otto_generate_processes. rewrite Hn, HV, Ha, Hb, Hdia.
  fold Tc Th.
  destruct (adiabatic_of_three n' v1 Tc false) as (q1 & Hq1 & Hst1 & Hc1 & Hg1 & Hcv1).
  rewrite Hq1. cbn [bind attr].
  destruct (adiabatic_dV_outcome q1 n' _ v1 Tc (a * v1) K Hc1 Hst1 K_ge_2)
    as (q1' & Hgen1 & Hst1' & O1).
  rewrite Hgen1. cbn [bind]. rewrite (out_volume _ _ _ _ _ _ O1). cbn [bind].
  destruct (isochoric_of_three n' (a * v1) Tc false) as (q2 & Hq2 & Hst2 & Hc2 & Hcv2).
  rewrite Hq2. cbn [bind].
  destruct (isochoric_dT_outcome q2 n' _ (a * v1) Tc Th K Hc2 Hst2 K_ge_2)
    as (q2' & Hgen2 & Hst2' & O2).
  rewrite Hgen2. cbn [bind]. rewrite (out_volume _ _ _ _ _ _ O2). cbn [bind].
  fold v3.
  destruct (adiabatic_of_three n' v3 Th false) as (q3 & Hq3 & Hst3 & Hc3 & Hg3 & Hcv3).
  rewrite Hq3. cbn [bind].
  destruct (adiabatic_dV_outcome q3 n' _ v3 Th (b * v3) K Hc3 Hst3 K_ge_2)
    as (q3' & Hgen3 & Hst3' & O3).
  rewrite Hgen3. cbn [bind]. rewrite (out_volume _ _ _ _ _ _ O3). cbn [bind].
  destruct (isochoric_of_three n' (b * v3) Th false) as (q4 & Hq4 & Hst4 & Hc4 & Hcv4).
  rewrite Hq4. cbn [bind].
  destruct (isochoric_dT_outcome q4 n' _ (b * v3) Th Tc K Hc4 Hst4 K_ge_2)
    as (q4' & Hgen4 & Hst4' & O4).
  rewrite Hgen4. cbn [bind].
  rewrite Hg1, Hcv1 in O1. rewrite Hcv2 in O2. rewrite Hg3, Hcv3 in O3. rewrite Hcv4 in O4.
  exists q1', q2', q3', q4'. eexists. eexists.
  split; [reflexivity |].
  repeat split; try eassumption; first [apply Hst1' | apply Hst2' | apply Hst3' | apply Hst4'
    | apply O1 | apply O2 | apply O3 | apply O4].
Qed.

Lemma Rabs_minus_one : Rabs (-1) = 1.
Proof. unfold Rabs. destruct (Rcase_abs (-1)); lra. Qed.

Lemma Rpower_eighth_two_thirds : Rpower (/ 8) (5 / 3 - 1) = / 4.
Proof. rewrite Rpower_inv_base by lra. rewrite Rpower_8_two_thirds. reflexivity. Qed.

(** C4 fails on the code for Otto: the isochoric steps are started at the
    reservoir temperatures [T_cold] and [T_hot], not at the temperature on
    which the preceding adiabatic step ended.  With compression ratio 8
    between 300 K and 1200 K the run completes (both efficiency estimates
    are 0), the compression ends at 1200 K and the heat addition starts at
    300 K; the expansion ends at 300 K and the heat rejection starts at
    1200 K.  The number of moles is the same in all four processes. *)
Theorem otto_chain_is_broken (substances : SubstanceTable) :
  exists c run q1 q2 q3 q4,
    Otto substances 8 300 1200 None (Some 0.01) (Some 1) true false = Ok c
    /\ BaseCycle.run c = Some run
    /\ BaseCycle.processes run = [q1; q2; q3; q4]
    /\ temperature_end q1 = Ok 1200 /\ BaseProcess.T1 q2 = Some 300
    /\ temperature_end q3 = Ok 300 /\ BaseProcess.T1 q4 = Some 1200
    /\ BaseProcess.n q1 = Some 1 /\ BaseProcess.n q2 = Some 1
    /\ BaseProcess.n q3 = Some 1 /\ BaseProcess.n q4 = Some 1
    /\ BaseCycle.efficiency run = 0.
Proof.
  pose (self := BaseCycle.with_alpha_beta
                  (BaseCycle.with_state
                     (BaseCycle.with_title
                        (BaseCycle.mk CycleClass.Otto (Some 0.01) None (Some 1200) (Some 1)
                           8 1200 300 true false (5 / 3) (3 / 2 * R_gas) (5 / 2 * R_gas)
                           None None None None "" None None None None)
                        "Otto syklus" None)
                     (Some 0.01) (Some (1 * R_gas * 1200 / 0.01)) (Some 1200) (Some 1))
                  (1 / 8) 8).
  destruct (otto_processes self 1 0.01 (1 / 8) 8 eq_refl eq_refl eq_refl eq_refl eq_refl)
    as (q1 & q2 & q3 & q4 & p2 & p4 & Hps & Hst1 & O1 & Hst2 & O2 & Hst3 & O3 & Hst4 & O4).
  cbn [self BaseCycle.T_cold BaseCycle.T_hot BaseCycle.with_alpha_beta
         BaseCycle.with_state BaseCycle.with_title] in *.
  assert (Ht2 : BaseProcess.T2_from_V2 300 0.01 (5 / 3) (1 / 8 * 0.01) = 1200).
  { unfold BaseProcess.T2_from_V2.
    replace (0.01 / (1 / 8 * 0.01)) with 8 by lra.
    rewrite Rpower_8_two_thirds. lra. }
  assert (Ht4 : BaseProcess.T2_from_V2 1200 (1 / 8 * 0.01 * 1) (5 / 3)
                  (8 * (1 / 8 * 0.01 * 1)) = 300).
  { unfold BaseProcess.T2_from_V2.
    replace (1 / 8 * 0.01 * 1 / (8 * (1 / 8 * 0.01 * 1))) with (/ 8) by lra.
    rewrite Rpower_eighth_two_thirds. lra. }
  rewrite Ht2 in O1. rewrite Ht4 in O3.
  destruct (out_data _ _ _ _ _ _ O1) as (d1 & Hd1 & Hw1 & Hw1' & Hh1 & Hh1').
  destruct (out_data _ _ _ _ _ _ O2) as (d2 & Hd2 & Hw2 & Hw2' & Hh2 & Hh2').
  destruct (out_data _ _ _ _ _ _ O3) as (d3 & Hd3 & Hw3 & Hw3' & Hh3 & Hh3').
  destruct (out_data _ _ _ _ _ _ O4) as (d4 & Hd4 & Hw4 & Hw4' & Hh4 & Hh4').
  pose proof R_gas_pos as HR.
  assert (Heff : BaseCycle._calculate_efficiency
                   [BaseProcess.heat_absorbed d1; BaseProcess.heat_absorbed d2;
                    BaseProcess.heat_absorbed d3; BaseProcess.heat_absorbed d4]
                   [BaseProcess.work_done_by d1; BaseProcess.work_done_by d2;
                    BaseProcess.work_done_by d3; BaseProcess.work_done_by d4]
                 = Ok ((1 - Rabs (-1) + Rabs 0) / 2)).
  { rewrite Hh1, Hh2, Hh3, Hh4, Hw1, Hw2, Hw3, Hw4.
    unfold BaseCycle._calculate_efficiency. cbn [filter].
    rewrite (Rlt_b_false 0 0), (Rlt_b_true 0 (1 * (3 / 2 * R_gas) * (1200 - 300))),
      (Rlt_b_false 0 (1 * (3 / 2 * R_gas) * (300 - 1200))),
      (Rlt_b_false (1 * (3 / 2 * R_gas) * (1200 - 300)) 0),
      (Rlt_b_true (1 * (3 / 2 * R_gas) * (300 - 1200)) 0) by lra.
    unfold sum. cbn [fold_left].
    replace ((0 + 1 * (3 / 2 * R_gas) * (300 - 1200))
             / (0 + 1 * (3 / 2 * R_gas) * (1200 - 300))) with (-1) by (field; lra).
    replace ((0 + - (1 * (3 / 2 * R_gas) * (1200 - 300)) + 0
              + - (1 * (3 / 2 * R_gas) * (300 - 1200)) + 0)
             / (0 + 1 * (3 / 2 * R_gas) * (1200 - 300))) with 0 by (field; lra).
    rewrite Rlt_b_true; [reflexivity |].
    rewrite Rabs_R0, Rabs_minus_one.
    replace (1 - 1 - 0) with 0 by lra. rewrite Rabs_R0. unfold allowed_error. lra. }
  eexists. eexists. exists q1, q2, q3, q4.
  split.
  - change (Otto substances 8 300 1200 None (Some 0.01) (Some 1) true false)
      with (BaseCycle.run_cycle self).
    unfold BaseCycle.run_cycle, BaseCycle.generate_processes.
    change (BaseCycle.class self) with CycleClass.Otto. cbv iota.
    rewrite Hps. cbn [bind].
    rewrite !(collect_four _ q1 q2 q3 q4 d1 d2 d3 d4 Hd1 Hd2 Hd3 Hd4). cbn [bind].
    rewrite Heff. cbn [bind]. reflexivity.
  - cbn [BaseCycle.run BaseCycle.with_run BaseCycle.processes BaseCycle.efficiency].
    split; [reflexivity |]. split; [reflexivity |].
    repeat split; try (apply O1 || apply O3 || apply Hst1 || apply Hst2 || apply Hst3
                       || apply Hst4).
    cbn [BaseCycle.efficiency]. rewrite Rabs_R0, Rabs_minus_one. lra.
Qed.

(** ** C3: the Carnot cycle *)

(** The four processes [Carnot.generate_processes] builds when its four
    assertions hold. *)
Lemma carnot_processes (self : BaseCycle.t) (n' v1 p1 a b : R) :
  BaseCycle.n self = Some n' -> BaseCycle.V1 self = Some v1 ->
  BaseCycle.P1 self = Some p1 ->
  BaseCycle.alpha self = Some a -> BaseCycle.beta self = Some b ->
  BaseCycle.diatomic self = false ->
  let Tc := BaseCycle.T_cold self in
  let Th := BaseCycle.T_hot self in
  let r := BaseCycle.compression_ratio self in
  let cv := 3 / 2 * R_gas in
  let v2 := a * v1 in
  let V3 := BaseProcess.V2_from_T2 v2 (Th * 1) (5 / 3) Tc in
  let P3 := BaseProcess.P2_from_T2 (BaseProcess.P n' v2 (Th * 1)) (Th * 1) (5 / 3) Tc in
  let v4 := b * V3 in
  let V4 := BaseProcess.V2_from_T2 v4 (Tc * 1) (5 / 3) Th in
  let P4 := BaseProcess.P2_from_T2 (BaseProcess.P n' v4 (Tc * 1)) (Tc * 1) (5 / 3) Th in
  let W1 := R_gas * n' * Th * ln (v2 / v1) in
  let W3 := R_gas * n' * Tc * ln (v4 / V3) in
  Rabs (V3 - v1 * r) < allowed_error ->
  Rabs (V4 - v1) < allowed_error ->
  Rabs (P4 - p1) < allowed_error ->
  exists q1 q2 q3 q4,
    BaseCycle.Carnot_generate_processes self = Ok [q1; q2; q3; q4]
    /\ state q1 n' (BaseProcess.P n' v1 Th) v1 Th
    /\ Outcome q1 v2 (BaseProcess.P n' v2 Th) (Th * 1) W1 (- - W1)
    /\ state q2 n' (BaseProcess.P n' v2 (Th * 1)) v2 (Th * 1)
    /\ Outcome q2 V3 P3 Tc (- (n' * cv * (Tc - Th * 1))) 0
    /\ state q3 n' (BaseProcess.P n' V3 Tc) V3 Tc
    /\ Outcome q3 v4 (BaseProcess.P n' v4 Tc) (Tc * 1) W3 (- - W3)
    /\ state q4 n' (BaseProcess.P n' v4 (Tc * 1)) v4 (Tc * 1)
    /\ Outcome q4 V4 P4 Th (- (n' * cv * (Th - Tc * 1))) 0.
Proof.
  intros Hn HV HP Ha Hb Hdia Tc Th r cv v2 V3 P3 v4 V4 P4 W1 W3 HV3 HV4 HP4.
  unfold BaseCycle.Carnot_generate_processes. rewrite Hn, HV, HP, Ha, Hb, Hdia.
  fold Tc Th r.
  destruct (isothermal_of_three n' Th v1 false) as (q1 & Hq1 & Hst1 & Hc1).
  rewrite Hq1. cbn [bind attr]. fold v2.
  destruct (isothermal_dV_outcome q1 n' _ v1 Th v2 K Hc1 Hst1 K_ge_2)
    as (q1' & Hgen1 & Hst1' & O1).
  rewrite Hgen1. cbn [bind].
  rewrite (out_volume _ _ _ _ _ _ O1), (out_temperature _ _ _ _ _ _ O1). cbn [bind].
  destruct (adiabatic_of_three n' v2 (Th * 1) false) as (q2 & Hq2 & Hst2 & Hc2 & Hg2 & Hcv2).
  rewrite Hq2. cbn [bind].
  destruct (adiabatic_dT_outcome q2 n' _ v2 (Th * 1) Tc K Hc2 Hst2 K_ge_2)
    as (q2' & Hgen2 & Hst2' & O2).
  rewrite Hg2, Hcv2 in O2. fold V3 P3 cv in O2.
  rewrite Hgen2. cbn [bind]. rewrite (out_volume _ _ _ _ _ _ O2). cbn [bind].
  rewrite (Rlt_b_true _ _ HV3). cbn [assert bind].
  destruct (isothermal_of_three n' Tc V3 false) as (q3 & Hq3 & Hst3 & Hc3).
  rewrite Hq3. cbn [bind]. fold v4.
  destruct (isothermal_dV_outcome q3 n' _ V3 Tc v4 K Hc3 Hst3 K_ge_2)
    as (q3' & Hgen3 & Hst3' & O3).
  rewrite Hgen3. cbn [bind].
  rewrite (out_volume _ _ _ _ _ _ O3), (out_temperature _ _ _ _ _ _ O3). cbn [bind].
  destruct (adiabatic_of_three n' v4 (Tc * 1) false) as (q4 & Hq4 & Hst4 & Hc4 & Hg4 & Hcv4).
  rewrite Hq4. cbn [bind].
  destruct (adiabatic_dT_outcome q4 n' _ v4 (Tc * 1) Th K Hc4 Hst4 K_ge_2)
    as (q4' & Hgen4 & Hst4' & O4).
  rewrite Hg4, Hcv4 in O4. fold V4 P4 cv in O4.
  rewrite Hgen4. cbn [bind]. rewrite (out_volume _ _ _ _ _ _ O4). cbn [bind].
  rewrite (Rlt_b_true _ _ HV4). cbn [assert bind].
  rewrite (out_temperature _ _ _ _ _ _ O4). cbn [bind].
  rewrite (Rlt_b_true (Rabs (Th - Th)) allowed_error)
    by (rewrite Rminus_diag, Rabs_R0; unfold allowed_error; lra).
  cbn [assert bind]. rewrite (out_pressure _ _ _ _ _ _ O4). cbn [bind].
  rewrite (Rlt_b_true _ _ HP4). cbn [assert bind].
  exists q1', q2', q3', q4'.
  split; [reflexivity |].
  split; [exact Hst1' |]. split; [exact O1 |]. split; [exact Hst2' |].
  split; [exact O2 |]. split; [exact Hst3' |]. split; [exact O3 |].
  split; [exact Hst4' | exact O4].
Qed.

Lemma efficiency_forward (h w : R) :
  0 < h ->
  BaseCycle._calculate_efficiency
    [R_gas * 500 * h; 0; - (R_gas * 300 * h); 0]
    [R_gas * 500 * h; w; - (R_gas * 300 * h); - w]
  = Ok (2 / 5).
Proof.
  intros Hh. pose proof R_gas_pos as HR.
  assert (H5 : 0 < R_gas * 500 * h) by nra.
  assert (H3 : 0 < R_gas * 300 * h) by nra.
  unfold BaseCycle._calculate_efficiency. cbn [filter].
  rewrite (Rlt_b_false 0 0), (Rlt_b_true 0 (R_gas * 500 * h)),
    (Rlt_b_false 0 (- (R_gas * 300 * h))), (Rlt_b_false (R_gas * 500 * h) 0),
    (Rlt_b_true (- (R_gas * 300 * h)) 0) by lra.
  unfold sum. cbn [fold_left].
  replace ((0 + - (R_gas * 300 * h)) / (0 + R_gas * 500 * h)) with (- (3 / 5))
    by (field; lra).
  replace ((0 + R_gas * 500 * h + w + - (R_gas * 300 * h) + - w) / (0 + R_gas * 500 * h))
    with (2 / 5) by (field; lra).
  rewrite Rabs_Ropp, (Rabs_pos_eq (3 / 5)), (Rabs_pos_eq (2 / 5)) by lra.
  rewrite Rlt_b_true.
  - cbn [assert bind]. f_equal. lra.
  - replace (1 - 3 / 5 - 2 / 5) with 0 by lra. rewrite Rabs_R0. unfold allowed_error. lra.
Qed.

Lemma efficiency_backward (h w : R) :
  h < 0 ->
  BaseCycle._calculate_efficiency
    [R_gas * 500 * h; 0; - (R_gas * 300 * h); 0]
    [R_gas * 500 * h; w; - (R_gas * 300 * h); - w]
  = Raise (AssertionError assert_efficiency).
Proof.
  intros Hh. pose proof R_gas_pos as HR.
  assert (H5 : R_gas * 500 * h < 0) by nra.
  assert (H3 : R_gas * 300 * h < 0) by nra.
  unfold BaseCycle._calculate_efficiency. cbn [filter].
  rewrite (Rlt_b_false 0 0), (Rlt_b_false 0 (R_gas * 500 * h)),
    (Rlt_b_true 0 (- (R_gas * 300 * h))), (Rlt_b_true (R_gas * 500 * h) 0),
    (Rlt_b_false (- (R_gas * 300 * h)) 0) by lra.
  unfold sum. cbn [fold_left].
  replace ((0 + R_gas * 500 * h) / (0 + - (R_gas * 300 * h))) with (- (5 / 3))
    by (field; lra).
  replace ((0 + R_gas * 500 * h + w + - (R_gas * 300 * h) + - w)
           / (0 + - (R_gas * 300 * h)))
    with (- (2 / 3)) by (field; lra).
  rewrite !Rabs_Ropp, (Rabs_pos_eq (5 / 3)), (Rabs_pos_eq (2 / 3)) by lra.
  rewrite Rlt_b_false; [reflexivity |].
  intros H. apply Rabs_def2 in H. unfold allowed_error in H. lra.
Qed.

Section CarnotExample.

(** The example for any positive compression ratio [r]. *)
Variable substances : SubstanceTable.
Variable r : R.
Hypothesis r_pos : 0 < r.

Lemma carnot_x_pos : 0 < carnot_x.
Proof. apply Rpower_pos. Qed.

Lemma carnot_y : Rpower (500 / 300) carnot_e = / carnot_x.
Proof. unfold carnot_x. apply Rpower_swap; lra. Qed.

Lemma carnot_constructor :
  Carnot substances r 500 300 None (Some 0.01) (Some 1) true false
  = BaseCycle.run_cycle (carnot_self r).
Proof.
  pose proof carnot_x_pos as Hx.
  unfold Carnot.
  change (BaseCycle.__init__ substances CycleClass.Carnot None (Some 0.01) (Some 1) r
            500 300 true false None)
    with (Ok (BaseCycle.mk CycleClass.Carnot (Some 0.01) None (Some 500) (Some 1) r 500
                300 true false (5 / 3) (3 / 2 * R_gas) (5 / 2 * R_gas) None None None
                None "" None None None None)).
  cbn [bind].
  match goal with
  | |- bind (BaseCycle._find_missing ?s) _ = _ =>
      change (BaseCycle._find_missing s) with (Ok (carnot_self1 r))
  end.
  cbn [bind].
  destruct (carnot_alpha_beta (carnot_self1 r) eq_refl) as (_ & _ & H).
  cbn [carnot_self1 BaseCycle.gamma BaseCycle.compression_ratio BaseCycle.T_cold
         BaseCycle.T_hot BaseCycle.with_state BaseCycle.with_title] in H.
  fold carnot_e in H. fold carnot_x in H. fold (carnot_self1 r) in H. rewrite H.
  - reflexivity.
  - fold (carnot_alpha r). unfold carnot_alpha. nra.
  - rewrite carnot_y. replace (1 / r * / carnot_x * r) with (/ carnot_x) by (field; lra).
    rewrite <- carnot_y. apply Rpower_gt_1; unfold carnot_e; lra.
Qed.

(** The processes of the example: the three closure assertions hold with
    equality, and heat and work are multiples of [ln alpha]. *)
Lemma carnot_example_processes :
  exists q1 q2 q3 q4 d1 d2 d3 d4 w,
    BaseCycle.Carnot_generate_processes (carnot_self r) = Ok [q1; q2; q3; q4]
    /\ (BaseProcess.data q1 = Some d1 /\ BaseProcess.data q2 = Some d2
        /\ BaseProcess.data q3 = Some d3 /\ BaseProcess.data q4 = Some d4)
    /\ (BaseProcess.heat_absorbed d1 = R_gas * 500 * ln (carnot_alpha r)
        /\ BaseProcess.heat_absorbed d2 = 0
        /\ BaseProcess.heat_absorbed d3 = - (R_gas * 300 * ln (carnot_alpha r))
        /\ BaseProcess.heat_absorbed d4 = 0)
    /\ (BaseProcess.work_done_by d1 = R_gas * 500 * ln (carnot_alpha r)
        /\ BaseProcess.work_done_by d2 = w
        /\ BaseProcess.work_done_by d3 = - (R_gas * 300 * ln (carnot_alpha r))
        /\ BaseProcess.work_done_by d4 = - w)
    /\ volume_end q4 = Ok 0.01 /\ temperature_end q4 = Ok 500
    /\ pressure_end q4 = Ok carnot_p0.
Proof.
  pose proof carnot_x_pos as Hx. pose proof R_gas_pos as HR.
  assert (Ha : 0 < (carnot_alpha r)) by (unfold carnot_alpha; nra).
  assert (H500 : Rpower (500 * 1 / 300) carnot_e = / carnot_x)
    by (rewrite Rmult_1_r; exact carnot_y).
  assert (H300 : Rpower (300 * 1 / 500) carnot_e = carnot_x) by (rewrite Rmult_1_r; reflexivity).
  assert (HV3 : BaseProcess.V2_from_T2 ((carnot_alpha r) * 0.01) (500 * 1) (5 / 3) 300 = 0.01 * r).
  { unfold BaseProcess.V2_from_T2. fold carnot_e. rewrite H500. unfold carnot_alpha. field. lra. }
  assert (HV4 : BaseProcess.V2_from_T2 ((carnot_beta r) * (0.01 * r)) (300 * 1) (5 / 3) 500 = 0.01).
  { unfold BaseProcess.V2_from_T2. fold carnot_e. rewrite H300. unfold carnot_beta.
    rewrite carnot_y. field. lra. }
  assert (HP4 : BaseProcess.P2_from_T2 (BaseProcess.P 1 ((carnot_beta r) * (0.01 * r)) (300 * 1))
                  (300 * 1) (5 / 3) 500 = carnot_p0).
  { unfold BaseProcess.P2_from_T2, BaseProcess.P, carnot_p0, carnot_beta.
    replace (5 / 3 / (5 / 3 - 1)) with (carnot_e + 1) by (unfold carnot_e; field; lra).
    rewrite Rpower_succ by lra.
    replace (500 / (300 * 1)) with (500 / 300) by lra.
    rewrite carnot_y. field. lra. }
  destruct (carnot_processes (carnot_self r) 1 0.01 carnot_p0 (carnot_alpha r) (carnot_beta r) eq_refl eq_refl eq_refl eq_refl eq_refl
              eq_refl)
    as (q1 & q2 & q3 & q4 & Hps & _ & O1 & _ & O2 & _ & O3 & _ & O4);
    cbn [carnot_self carnot_self1 BaseCycle.T_cold BaseCycle.T_hot BaseCycle.compression_ratio
           BaseCycle.with_alpha_beta BaseCycle.with_state BaseCycle.with_title] in *;
    rewrite ?HV3, ?HV4, ?HP4 in *;
    try (match goal with
         | |- Rabs _ < allowed_error =>
             match goal with
             | |- Rabs (?u - ?v) < _ => replace (u - v) with 0 by lra
             end;
             rewrite Rabs_R0; unfold allowed_error; lra
         end).
  destruct (out_data _ _ _ _ _ _ O1) as (d1 & Hd1 & Hw1 & _ & Hh1 & _).
  destruct (out_data _ _ _ _ _ _ O2) as (d2 & Hd2 & Hw2 & _ & Hh2 & _).
  destruct (out_data _ _ _ _ _ _ O3) as (d3 & Hd3 & Hw3 & _ & Hh3 & _).
  destruct (out_data _ _ _ _ _ _ O4) as (d4 & Hd4 & Hw4 & _ & Hh4 & _).
  exists q1, q2, q3, q4, d1, d2, d3, d4, (- (1 * (3 / 2 * R_gas) * (300 - 500 * 1))).
  assert (Hl1 : ln ((carnot_alpha r) * 0.01 / 0.01) = ln (carnot_alpha r)) by (f_equal; field; lra).
  assert (Hl3 : ln ((carnot_beta r) * (0.01 * r) / (0.01 * r)) = - ln (carnot_alpha r)).
  { rewrite <- ln_Rinv by exact Ha. f_equal. unfold carnot_beta, carnot_alpha. rewrite carnot_y. field. lra. }
  rewrite Hl1 in Hw1, Hh1. rewrite Hl3 in Hw3, Hh3.
  split; [exact Hps |].
  split; [repeat split; assumption |].
  split; [repeat split; try assumption; lra |].
  split; [repeat split; try assumption; lra |].
  split; [apply O4 |]. split; apply O4.
Qed.

Lemma carnot_example_forward :
  1 < (carnot_alpha r) ->
  exists c run q1 q2 q3 q4,
    Carnot substances r 500 300 None (Some 0.01) (Some 1) true false = Ok c
    /\ BaseCycle.run c = Some run
    /\ BaseCycle.processes run = [q1; q2; q3; q4]
    /\ BaseCycle.efficiency run = 2 / 5
    /\ BaseCycle.theoretical_efficiency c = Some (1 - 300 / 500)
    /\ BaseCycle.V1 c = Some 0.01 /\ BaseCycle.T_hot c = 500
    /\ BaseCycle.P1 c = Some carnot_p0
    /\ volume_end q4 = Ok 0.01 /\ temperature_end q4 = Ok 500
    /\ pressure_end q4 = Ok carnot_p0.
Proof.
  intros Ha.
  destruct carnot_example_processes
    as (q1 & q2 & q3 & q4 & d1 & d2 & d3 & d4 & w & Hps & (Hd1 & Hd2 & Hd3 & Hd4)
        & (Hh1 & Hh2 & Hh3 & Hh4) & (Hw1 & Hw2 & Hw3 & Hw4) & Hv & Ht & Hp).
  assert (Hln : 0 < ln (carnot_alpha r)) by (rewrite <- ln_1; apply ln_increasing; lra).
  eexists. eexists. exists q1, q2, q3, q4.
  split.
  - rewrite carnot_constructor.
    unfold BaseCycle.run_cycle, BaseCycle.generate_processes.
    change (BaseCycle.class (carnot_self r)) with CycleClass.Carnot. cbv iota.
    rewrite Hps. cbn [bind].
    rewrite !(collect_four _ q1 q2 q3 q4 d1 d2 d3 d4 Hd1 Hd2 Hd3 Hd4). cbn [bind].
    rewrite Hh1, Hh2, Hh3, Hh4, Hw1, Hw2, Hw3, Hw4.
    rewrite (efficiency_forward (ln (carnot_alpha r)) w Hln). cbn [bind]. reflexivity.
  - cbn. repeat split; assumption.
Qed.

Lemma carnot_example_backward :
  (carnot_alpha r) < 1 ->
  Carnot substances r 500 300 None (Some 0.01) (Some 1) true false
  = Raise (AssertionError assert_efficiency).
Proof.
  intros Ha.
  destruct carnot_example_processes
    as (q1 & q2 & q3 & q4 & d1 & d2 & d3 & d4 & w & Hps & (Hd1 & Hd2 & Hd3 & Hd4)
        & (Hh1 & Hh2 & Hh3 & Hh4) & (Hw1 & Hw2 & Hw3 & Hw4) & _).
  assert (Hpos : 0 < (carnot_alpha r)) by (pose proof carnot_x_pos; unfold carnot_alpha; nra).
  assert (Hln : ln (carnot_alpha r) < 0) by (rewrite <- ln_1; apply ln_increasing; lra).
  rewrite carnot_constructor.
  unfold BaseCycle.run_cycle, BaseCycle.generate_processes.
  change (BaseCycle.class (carnot_self r)) with CycleClass.Carnot. cbv iota.
  rewrite Hps. cbn [bind].
  rewrite !(collect_four _ q1 q2 q3 q4 d1 d2 d3 d4 Hd1 Hd2 Hd3 Hd4). cbn [bind].
  rewrite Hh1, Hh2, Hh3, Hh4, Hw1, Hw2, Hw3, Hw4.
  rewrite (efficiency_backward (ln (carnot_alpha r)) w Hln). reflexivity.
Qed.

End CarnotExample.

Lemma carnot_x_squared :
  Rpower (300 / 500) (1 / (5 / 3 - 1)) * Rpower (300 / 500) (1 / (5 / 3 - 1)) = 27 / 125.
Proof.
  rewrite <- Rpower_plus.
  replace (1 / (5 / 3 - 1) + 1 / (5 / 3 - 1)) with (INR 3) by (simpl; field; lra).
  rewrite Rpower_pow by lra. simpl. lra.
Qed.

(** C3 fails as stated: with compression ratio 2 the first isothermal step
    is a compression ([alpha < 1]); the closure assertions hold, the two
    efficiency estimates are [-2/3] and [2/3], and the construction raises
    on their comparison. *)
Lemma carnot_ratio_two_fails :
  Carnot [] 2 500 300 None (Some 0.01) (Some 1) true false
  = Raise (AssertionError assert_efficiency).
Proof.
  apply carnot_example_backward; [lra |].
  unfold carnot_alpha, carnot_x, carnot_e.
  pose proof carnot_x_squared as H.
  pose proof (Rpower_pos (300 / 500) (1 / (5 / 3 - 1))) as Hx. nra.
Qed.

(** C3, as amended: with compression ratio 3, which is above the minimum
    [(500/300)**(1/(gamma-1))], the Carnot cycle between 500 K and 300 K of
    one mole of monatomic gas from 0.01 cubic metres completes, its
    efficiency is [1 - 300/500 = 0.4] within [allowed_error], and the last
    process ends on the initial volume, temperature and pressure within
    [allowed_error]. *)
Theorem carnot_ratio_three_completes (substances : SubstanceTable) :
  exists c run q1 q2 q3 q4 v4 t4 p4 p1,
    Carnot substances 3 500 300 None (Some 0.01) (Some 1) true false = Ok c
    /\ BaseCycle.run c = Some run
    /\ BaseCycle.processes run = [q1; q2; q3; q4]
    /\ Rabs (BaseCycle.efficiency run - (1 - 300 / 500)) < allowed_error
    /\ Rabs (BaseCycle.efficiency run - 0.4) < allowed_error
    /\ BaseCycle.theoretical_efficiency c = Some (1 - 300 / 500)
    /\ BaseCycle.P1 c = Some p1
    /\ volume_end q4 = Ok v4 /\ temperature_end q4 = Ok t4 /\ pressure_end q4 = Ok p4
    /\ Rabs (v4 - 0.01) < allowed_error
    /\ Rabs (t4 - 500) < allowed_error
    /\ Rabs (p4 - p1) < allowed_error.
Proof.
  assert (Ha : 1 < carnot_alpha 3).
  { unfold carnot_alpha, carnot_x, carnot_e.
    pose proof carnot_x_squared as H.
    pose proof (Rpower_pos (300 / 500) (1 / (5 / 3 - 1))) as Hx. nra. }
  assert (Hr : 0 < 3) by lra.
  destruct (carnot_example_forward substances 3 Hr Ha)
    as (c & run & q1 & q2 & q3 & q4 & Hc & Hrun & Hps & Heff & Hth & HV & HT & HP
        & Hv & Ht & Hp).
  exists c, run, q1, q2, q3, q4, 0.01, 500, (1 * R_gas * 500 / 0.01),
    (1 * R_gas * 500 / 0.01).
  assert (Hz : Rabs 0 < allowed_error) by (rewrite Rabs_R0; unfold allowed_error; lra).
  repeat split; try assumption;
    try (rewrite Heff);
    match goal with
    | |- Rabs (?u - ?v) < _ => replace (u - v) with 0 by lra; exact Hz
    end.
Qed.

(** * Further properties of the code *)

(** ** State completion *)



(** X2: [IdealGas.find_missing_values] with exactly one value missing
    succeeds, returns the three supplied values unchanged, and the
    completed quadruple obeys [P V = n R T] when the supplied values are
    not zero. *)
Theorem find_missing_values_one_missing (P V T n : option R) :
  (missing P + missing V + missing T + missing n = 1)%nat ->
  (forall x, In (Some x) [P; V; T; n] -> x <> 0) ->
  exists p v t n',
    IdealGas.find_missing_values P V T n = Ok (p, v, t, n')
    /\ (forall x, P = Some x -> p = x) /\ (forall x, V = Some x -> v = x)
    /\ (forall x, T = Some x -> t = x) /\ (forall x, n = Some x -> n' = x)
    /\ p * v = n' * R_gas * t.
Proof.
  pose proof R_gas_pos as HR. intros Hc Hnz.
  destruct P as [p |], V as [v |], T as [t |], n as [n' |]; cbn in Hc; try lia.
  - exists p, v, t, (p * v / (R_gas * t)). split; [reflexivity |].
    assert (t <> 0) by (apply Hnz; cbn; auto).
    repeat split; try (intros x E; injection E as <-; reflexivity);
      try discriminate. field. lra.
  - exists p, v, (p * v / (n' * R_gas)), n'. split; [reflexivity |].
    assert (n' <> 0) by (apply Hnz; cbn; auto).
    repeat split; try (intros x E; injection E as <-; reflexivity);
      try discriminate. field. lra.
  - exists p, (n' * R_gas * t / p), t, n'. split; [reflexivity |].
    assert (p <> 0) by (apply Hnz; cbn; auto).
    repeat split; try (intros x E; injection E as <-; reflexivity);
      try discriminate. field. lra.
  - exists (n' * R_gas * t / v), v, t, n'. split; [reflexivity |].
    assert (v <> 0) by (apply Hnz; cbn; auto).
    repeat split; try (intros x E; injection E as <-; reflexivity);
      try discriminate. field. lra.
Qed.

Lemma find_missing_values_one_missing_witness :
  exists p v t n',
    IdealGas.find_missing_values None (Some 8) (Some 300) (Some 1) = Ok (p, v, t, n')
    /\ v = 8 /\ t = 300 /\ n' = 1 /\ p * v = n' * R_gas * t.
Proof.
  destruct (find_missing_values_one_missing None (Some 8) (Some 300) (Some 1))
    as (p & v & t & n' & H & _ & Hv & Ht & Hn & Hlaw).
  - reflexivity.
  - intros x [E | [E | [E | [E | []]]]]; try discriminate; injection E as <-; lra.
  - exists p, v, t, n'.
    repeat split; [exact H | apply Hv | apply Ht | apply Hn | exact Hlaw]; reflexivity.
Defined.

(** X3: [IdealGas.find_missing_values] turns away every call that does not
    leave exactly one value out; in particular four supplied values are
    rejected before the [1e-10] consistency check, which no input
    reaches, even when they obey [P V = n R T]. *)
Theorem find_missing_values_needs_one_missing (P V T n : option R) :
  (missing P + missing V + missing T + missing n <> 1)%nat ->
  IdealGas.find_missing_values P V T n = Raise (AssertionError assert_one_missing).
Proof.
  intros H. destruct P, V, T, n; cbn in H; try lia; reflexivity.
Qed.

Lemma find_missing_values_needs_one_missing_witness :
  IdealGas.find_missing_values (Some R_gas) (Some 1) (Some 1) (Some 1)
  = Raise (AssertionError assert_one_missing)
  /\ R_gas * 1 = 1 * R_gas * 1.
Proof.
  split; [| lra].
  apply (find_missing_values_needs_one_missing (Some R_gas) (Some 1) (Some 1) (Some 1)).
  cbn. lia.
Defined.

(** ** The substance table *)

Lemma lookup_formula_first (substances : SubstanceTable) (gas nm : string) (m : Material) :
  lookup_formula substances gas = Some (nm, m) ->
  exists before rest,
    substances = before ++ (nm, m) :: rest
    /\ mat_formula m = gas
    /\ forall k e, In (k, e) before -> mat_formula e <> gas.
Proof.
  induction substances as [| [k e] l IH]; [discriminate |].
  cbn. destruct (String.eqb (mat_formula e) gas) eqn:E.
  - intros H. injection H as <- <-. exists [], l.
    apply String.eqb_eq in E. repeat split; [exact E |]. intros k' e' [].
  - intros H. destruct (IH H) as (before & rest & -> & Hf & Hb).
    exists ((k, e) :: before), rest. repeat split; [exact Hf |].
    intros k' e' [Heq | Hin].
    + injection Heq as <- <-. apply String.eqb_neq. exact E.
    + exact (Hb k' e' Hin).
Qed.

(** X4: [set_internal_values] given a chemical formula that is not itself a
    name of the table selects the first entry (in table order) carrying
    that formula: the process gets that entry's name and its M, Cv, Cp and
    gamma. *)
Theorem set_internal_values_by_formula (substances : SubstanceTable) (gas nm : string)
  (m : Material) (self : BaseProcess.t) :
  lookup substances gas = None ->
  lookup_formula substances gas = Some (nm, m) ->
  exists p before rest,
    BaseProcess.set_internal_values substances self (Some gas) = Ok p
    /\ substances = before ++ (nm, m) :: rest
    /\ (forall k e, In (k, e) before -> mat_formula e <> gas)
    /\ BaseProcess.name p = Some nm /\ BaseProcess.formula p = Some gas
    /\ BaseProcess.material p = Some m
    /\ BaseProcess.M p = Some (mat_M m) /\ BaseProcess.Cv p = mat_Cv m
    /\ BaseProcess.Cp p = mat_Cp m /\ BaseProcess.gamma p = mat_gamma m
    /\ BaseProcess.n p = BaseProcess.n self /\ BaseProcess.P1 p = BaseProcess.P1 self
    /\ BaseProcess.V1 p = BaseProcess.V1 self /\ BaseProcess.T1 p = BaseProcess.T1 self.
Proof.
  intros Hname Hform.
  destruct (lookup_formula_first substances gas nm m Hform) as (before & rest & Hs & Hf & Hb).
  unfold BaseProcess.set_internal_values, select_material.
  rewrite Hname, Hform. cbn [bind].
  eexists. exists before, rest. split; [reflexivity |]. cbn.
  rewrite Hf. repeat split; assumption.
Qed.

Lemma set_internal_values_by_formula_witness :
  let he := mkMaterial "He" 4 12 21 (5 / 3) in
  let table := [("Air"%string, mkMaterial "N2O2" 29 21 29 (7 / 5));
                ("Helium"%string, he); ("Helium-3"%string, mkMaterial "He" 3 12 21 (5 / 3))] in
  exists p,
    BaseProcess.set_internal_values table
      (BaseProcess.__init__ Class.Isothermal (Some 1) None (Some 1) (Some 300) false false
         gas_none) (Some "He"%string) = Ok p
    /\ BaseProcess.name p = Some "Helium"%string
    /\ BaseProcess.M p = Some 4.
Proof.
  intros he table.
  destruct (set_internal_values_by_formula table "He" "Helium" he
              (BaseProcess.__init__ Class.Isothermal (Some 1) None (Some 1) (Some 300)
                 false false gas_none) eq_refl eq_refl)
    as (p & before & rest & H & _ & _ & Hn & _ & _ & HM & _).
  exists p. repeat split; assumption.
Defined.



(** ** Cycle construction *)

(** X6: what the two assertions of [Carnot._calculate_alpha_beta] decide
    (for positive temperatures and [gamma > 1]): the call succeeds exactly when [alpha] is not zero and [beta * r > 1],
    and then stores both multipliers; a zero [alpha] raises the "too low"
    assertion, otherwise [beta * r <= 1] raises the "too high" one. *)
Theorem carnot_ratio_checks (self : BaseCycle.t) :
  BaseCycle.class self = CycleClass.Carnot ->
  0 < BaseCycle.T_cold self -> 0 < BaseCycle.T_hot self -> 1 < BaseCycle.gamma self ->
  let e := 1 / (BaseCycle.gamma self - 1) in
  let r := BaseCycle.compression_ratio self in
  let alpha := r * Rpower (BaseCycle.T_cold self / BaseCycle.T_hot self) e in
  let beta := 1 / r * Rpower (BaseCycle.T_hot self / BaseCycle.T_cold self) e in
  ((exists self', BaseCycle._calculate_alpha_beta self = Ok self')
   <-> alpha <> 0 /\ 1 < beta * r)
  /\ (forall self', BaseCycle._calculate_alpha_beta self = Ok self' ->
      BaseCycle.alpha self' = Some alpha /\ BaseCycle.beta self' = Some beta)
  /\ (BaseCycle._calculate_alpha_beta self = Raise (AssertionError assert_ratio_too_low)
      <-> alpha = 0)
  /\ (BaseCycle._calculate_alpha_beta self = Raise (AssertionError assert_ratio_too_high)
      <-> alpha <> 0 /\ ~ 1 < beta * r).
Proof.
  intros Hc _ _ _ e r alpha beta.
  destruct (carnot_alpha_beta self Hc) as (Hlow & Hhigh & Hok).
  fold e r in Hlow, Hhigh, Hok. fold alpha beta in Hlow, Hhigh, Hok.
  assert (Hinj : forall (u v : BaseCycle.t), Ok u = Ok v -> u = v)
    by (intros u v E; injection E as ->; reflexivity).
  destruct (Req_dec_T alpha 0) as [Hz | Hnz].
  - rewrite (Hlow Hz).
    split; [split; [intros (self' & E); discriminate | intros (E & _); contradiction] |].
    split; [intros self' E; discriminate |].
    split; [split; [intros _; exact Hz | intros _; reflexivity] |].
    split; [intros E; discriminate | intros (E & _); contradiction].
  - destruct (Rlt_dec 1 (beta * r)) as [Hb | Hb].
    + rewrite (Hok Hnz Hb).
      split; [split; [intros _; split; assumption | intros _; eexists; reflexivity] |].
      split; [intros self' E; apply Hinj in E; subst self'; split; reflexivity |].
      split; [split; [intros E; discriminate | intros E; contradiction] |].
      split; [intros E; discriminate | intros (_ & E); contradiction].
    + rewrite (Hhigh Hnz Hb).
      split; [split; [intros (self' & E); discriminate | intros (_ & E); contradiction] |].
      split; [intros self' E; discriminate |].
      split; [split; [intros E; discriminate | intros E; contradiction] |].
      split; [intros _; split; assumption | intros _; reflexivity].
Qed.

Lemma carnot_ratio_checks_witness :
  BaseCycle._calculate_alpha_beta (carnot_self1 0)
  = Raise (AssertionError assert_ratio_too_low).
Proof.
  assert (H3 : 0 < 300) by lra. assert (H5 : 0 < 500) by lra.
  assert (Hg : 1 < 5 / 3) by lra.
  apply (carnot_ratio_checks (carnot_self1 0) eq_refl H3 H5 Hg). cbn. lra.
Defined.

(** X7: a Carnot or Otto cycle constructed (with a gas flag set and a
    non-zero [T_hot]) without [P1] and without [n] raises [TypeError]: the assertion of the cycles' [_find_missing] asks
    for one defined value only, which [T = T_hot] always is, and the
    completion of [P1] then multiplies [None]. *)
Theorem cycle_without_moles_raises_type_error (substances : SubstanceTable)
  (r T_hot T_cold : R) (V1 : option R) (monatomic diatomic : bool) :
  monatomic || diatomic = true -> T_hot <> 0 ->
  Carnot substances r T_hot T_cold None V1 None monatomic diatomic = Raise TypeError
  /\ Otto substances r T_cold T_hot None V1 None monatomic diatomic = Raise TypeError.
Proof.
  intros H _. unfold Carnot, Otto, BaseCycle.__init__.
  destruct monatomic, diatomic; try discriminate; destruct V1; split; reflexivity.
Qed.

Lemma cycle_without_moles_raises_type_error_witness :
  Carnot [] 3 500 300 None (Some 0.01) None true false = Raise TypeError
  /\ Otto [] 8 300 1500 None (Some 0.01) None false true = Raise TypeError.
Proof.
  split.
  - apply (cycle_without_moles_raises_type_error [] 3 500 300 (Some 0.01) true false);
      [reflexivity | lra].
  - apply (cycle_without_moles_raises_type_error [] 8 1500 300 (Some 0.01) false true);
      [reflexivity | lra].
Defined.

(** ** Trajectories *)

Lemma generate_zero_steps (p : BaseProcess.t) (m : Target)
  (n' p1 v1 t1 x2 : R) :
  state p n' p1 v1 t1 ->
  generate m p (Some x2) 0 = Raise IndexError.
Proof.
  intros Hst. rewrite (generate_path p m n' p1 v1 t1 x2 0 Hst).
  destruct Hst as (Hn & HP & HV & HT).
  unfold path, BaseProcess._generate_extra_data, BaseProcess.calculate_work_done_by,
    BaseProcess.calculate_heat_absorbed.
  rewrite Hn, HP, HV, HT.
  destruct (BaseProcess.class p), m; reflexivity.
Qed.



Lemma generate_succeeds_inv (p p' : BaseProcess.t) (m : Target) (n' p1 v1 t1 x2 : R)
  (steps : nat) :
  state p n' p1 v1 t1 -> generate m p (Some x2) steps = Ok p' -> (1 <= steps)%nat.
Proof.
  intros Hst H. destruct steps; [| lia].
  rewrite (generate_zero_steps p m n' p1 v1 t1 x2 Hst) in H. discriminate.
Qed.

Lemma generate_internal_energy (p p' : BaseProcess.t) (m : Target) (n' p1 v1 t1 x2 : R)
  (steps : nat) (d : BaseProcess.Data) :
  state p n' p1 v1 t1 -> generate m p (Some x2) steps = Ok p' ->
  BaseProcess.data p' = Some d ->
  BaseProcess.internal_energy d
  = map (fun t => BaseProcess.Cv p * n' * t) (BaseProcess.temperature d).
Proof.
  intros Hst Hgen Hd.
  rewrite (generate_path p m n' p1 v1 t1 x2 steps Hst) in Hgen. cbv zeta in Hgen.
  unfold BaseProcess._generate_extra_data in Hgen.
  destruct Hst as (Hn' & _). rewrite Hn' in Hgen. cbn [bind] in Hgen.
  destruct (BaseProcess.calculate_work_done_by p _ _) as [[by_ on_] |]; [| discriminate].
  cbn [bind] in Hgen.
  destruct (BaseProcess.calculate_heat_absorbed p _ _) as [[q q'] |]; [| discriminate].
  cbn [bind] in Hgen.
  destruct (index_last _) as [u_end |]; [| discriminate].
  destruct (index0 _) as [u_start |]; [| discriminate].
  cbn [bind] in Hgen. injection Hgen as <-. cbn in Hd. injection Hd as <-.
  reflexivity.
Qed.

(** X9: a successful generation, by any method of any class, assigns six
    arrays of exactly [steps] entries each: volume, pressure, temperature,
    internal energy, entropy and the ideal-gas residual; the internal
    energy is [Cv n T] entry by entry. *)
Theorem generated_arrays_have_steps_entries (p p' : BaseProcess.t) (m : Target)
  (n' p1 v1 t1 x2 : R) (steps : nat) (d : BaseProcess.Data) :
  state p n' p1 v1 t1 ->
  generate m p (Some x2) steps = Ok p' ->
  BaseProcess.data p' = Some d ->
  List.length (BaseProcess.volume d) = steps
  /\ List.length (BaseProcess.pressure d) = steps
  /\ List.length (BaseProcess.temperature d) = steps
  /\ List.length (BaseProcess.internal_energy d) = steps
  /\ List.length (BaseProcess.entropy d) = steps
  /\ List.length (BaseProcess.ideal_gas_law_consistency d) = steps
  /\ forall i, (i < steps)%nat ->
       nth i (BaseProcess.internal_energy d) 0
       = BaseProcess.Cv p * n' * nth i (BaseProcess.temperature d) 0.
Proof.
  intros Hst Hgen Hd.
  pose proof (generate_succeeds_inv p p' m n' p1 v1 t1 x2 steps Hst Hgen) as Hsteps.
  pose proof (generate_internal_energy p p' m n' p1 v1 t1 x2 steps d Hst Hgen Hd) as HU.
  destruct (generate_data p m n' p1 v1 t1 x2 steps Hst Hsteps)
    as (d0 & Hgen0 & HV & HP & HT & HS & HI & _).
  rewrite Hgen0 in Hgen. injection Hgen as <-. cbn in Hd. injection Hd as <-.
  pose proof (path_length p m n' p1 v1 t1 x2 steps) as Hlen.
  rewrite HU, HV, HP, HS, HI, HT, !length_map.
  repeat split; try exact Hlen.
  intros i Hi. rewrite nth_map_default by (rewrite length_map; lia). reflexivity.
Qed.

Lemma generated_arrays_have_steps_entries_witness :
  exists p' d,
    BaseProcess.generate_data_from_dP
      (BaseProcess.__init__ Class.Isochoric (Some 1) (Some R_gas) (Some 1) (Some 1)
         false false gas_none) (Some 2) 5 = Ok p'
    /\ BaseProcess.data p' = Some d
    /\ List.length (BaseProcess.volume d) = 5%nat
    /\ List.length (BaseProcess.entropy d) = 5%nat.
Proof.
  pose (p := BaseProcess.__init__ Class.Isochoric (Some 1) (Some R_gas) (Some 1) (Some 1)
               false false gas_none).
  assert (Hst : state p 1 R_gas 1 1) by (repeat split).
  assert (H5 : (1 <= 5)%nat) by lia.
  destruct (generate_data p to_P 1 R_gas 1 1 2 5 Hst H5) as (d & Hgen & _).
  exists (BaseProcess.with_data p d), d.
  destruct (generated_arrays_have_steps_entries p (BaseProcess.with_data p d) to_P
              1 R_gas 1 1 2 5 d Hst Hgen eq_refl) as (HV & _ & _ & _ & HS & _).
  repeat split; assumption.
Defined.

(** X10: the energy bookkeeping of every process generated from a positive
    start state towards a positive target:
    [work_done_on = - work_done_by] and [heat_released = - heat_absorbed];
    an isochoric process does no work, an adiabatic one absorbs no heat,
    and an isothermal one absorbs exactly the work it does, so that its
    first-law residual is zero even when [P1 V1 <> n R T1]. *)
Theorem energy_bookkeeping (p p' : BaseProcess.t) (m : Target) (n' p1 v1 t1 x2 : R)
  (steps : nat) (d : BaseProcess.Data) :
  state p n' p1 v1 t1 ->
  0 < n' -> 0 < p1 -> 0 < v1 -> 0 < t1 -> 0 < x2 ->
  generate m p (Some x2) steps = Ok p' ->
  BaseProcess.data p' = Some d ->
  BaseProcess.work_done_on d = - BaseProcess.work_done_by d
  /\ BaseProcess.heat_released d = - BaseProcess.heat_absorbed d
  /\ (BaseProcess.class p = Class.Isochoric -> BaseProcess.work_done_by d = 0)
  /\ (BaseProcess.class p = Class.Adiabatic -> BaseProcess.heat_absorbed d = 0)
  /\ (BaseProcess.class p = Class.Isothermal ->
      BaseProcess.heat_absorbed d = BaseProcess.work_done_by d
      /\ BaseProcess.first_law_consistency d = 0).
Proof.
  intros Hst _ _ _ _ _ Hgen Hd.
  pose proof (generate_succeeds_inv p p' m n' p1 v1 t1 x2 steps Hst Hgen) as Hsteps.
  destruct (generate_end p m n' p1 v1 t1 x2 steps Hst Hsteps)
    as (d0 & Hgen0 & _ & _ & _ & HW & HW' & HQ & HQ').
  destruct (generate_data p m n' p1 v1 t1 x2 steps Hst Hsteps)
    as (d1 & Hgen1 & _ & _ & _ & _ & _ & _ & _ & HF).
  rewrite Hgen0 in Hgen1. injection Hgen1 as <-.
  rewrite Hgen0 in Hgen. injection Hgen as <-. cbn in Hd. injection Hd as <-.
  rewrite HW', HQ', HQ, HW, HF. unfold work_by, heat_in.
  split; [reflexivity |]. split; [reflexivity |].
  split; [intros Hc; rewrite Hc; reflexivity |].
  split; [intros Hc; rewrite Hc; reflexivity |].
  intros Hc. unfold path. rewrite Hc. split; [lra |].
  destruct m; cbn [fT]; lra.
Qed.

Lemma energy_bookkeeping_witness :
  exists p' d,
    BaseProcess.generate_data_from_dV
      (BaseProcess.__init__ Class.Isothermal (Some 1) (Some 1) (Some 1) (Some 1)
         false false gas_none) (Some 2) 3 = Ok p'
    /\ BaseProcess.data p' = Some d
    /\ BaseProcess.heat_absorbed d = BaseProcess.work_done_by d
    /\ BaseProcess.first_law_consistency d = 0.
Proof.
  pose (p := BaseProcess.__init__ Class.Isothermal (Some 1) (Some 1) (Some 1) (Some 1)
               false false gas_none).
  assert (Hst : state p 1 1 1 1) by (repeat split).
  assert (H3 : (1 <= 3)%nat) by lia.
  destruct (generate_data p to_V 1 1 1 1 2 3 Hst H3) as (d & Hgen & _).
  exists (BaseProcess.with_data p d), d.
  assert (H01 : 0 < 1) by lra. assert (H02 : 0 < 2) by lra.
  destruct (energy_bookkeeping p (BaseProcess.with_data p d) to_V 1 1 1 1 2 3 d Hst
              H01 H01 H01 H01 H02 Hgen eq_refl) as (_ & _ & _ & _ & H).
  destruct (H eq_refl) as (HQ & HF).
  repeat split; assumption.
Defined.

Lemma map_constant (c : R) (s : list R) (f : R -> R) :
  (forall x, In x s -> f x = c) -> map f s = repeat c (List.length s).
Proof.
  induction s as [| x s IH]; intros H; [reflexivity |].
  cbn. rewrite (H x) by (left; reflexivity). f_equal.
  apply IH. intros y Hy. apply H. right. exact Hy.
Qed.

(** X11: each process class holds its own variable fixed along every
    trajectory it generates, by any of the three methods: the temperature
    array of an isothermal process is [T1] at every index, the pressure
    array of an isobaric process is [P1], the volume array of an isochoric
    process is [V1]. *)
Theorem held_variable_is_constant (p p' : BaseProcess.t) (m : Target)
  (n' p1 v1 t1 x2 : R) (steps : nat) (d : BaseProcess.Data) :
  state p n' p1 v1 t1 ->
  generate m p (Some x2) steps = Ok p' ->
  BaseProcess.data p' = Some d ->
  (BaseProcess.class p = Class.Isothermal -> BaseProcess.temperature d = repeat t1 steps)
  /\ (BaseProcess.class p = Class.Isobaric -> BaseProcess.pressure d = repeat p1 steps)
  /\ (BaseProcess.class p = Class.Isochoric -> BaseProcess.volume d = repeat v1 steps).
Proof.
  intros Hst Hgen Hd.
  pose proof (generate_succeeds_inv p p' m n' p1 v1 t1 x2 steps Hst Hgen) as Hsteps.
  destruct (generate_data p m n' p1 v1 t1 x2 steps Hst Hsteps)
    as (d0 & Hgen0 & HV & HP & HT & _).
  rewrite Hgen0 in Hgen. injection Hgen as <-. cbn in Hd. injection Hd as <-.
  pose proof (path_length p m n' p1 v1 t1 x2 steps) as Hlen.
  rewrite HV, HP, HT.
  split; [| split]; intros Hc.
  - rewrite (map_constant t1); [rewrite Hlen; reflexivity |].
    intros x _. unfold path. rewrite Hc. destruct m; cbn [fT]; lra.
  - rewrite (map_constant p1); [rewrite Hlen; reflexivity |].
    intros x _. unfold path. rewrite Hc. destruct m; cbn [fP]; lra.
  - rewrite (map_constant v1); [rewrite Hlen; reflexivity |].
    intros x _. unfold path. rewrite Hc. destruct m; cbn [fV constant_path]; lra.
Qed.

Lemma held_variable_is_constant_witness :
  exists p' d,
    BaseProcess.generate_data_from_dT
      (BaseProcess.__init__ Class.Isobaric (Some 1) (Some R_gas) (Some 1) (Some 1)
         false false gas_none) (Some 2) 4 = Ok p'
    /\ BaseProcess.data p' = Some d
    /\ BaseProcess.pressure d = [R_gas; R_gas; R_gas; R_gas].
Proof.
  pose (p := BaseProcess.__init__ Class.Isobaric (Some 1) (Some R_gas) (Some 1) (Some 1)
               false false gas_none).
  assert (Hst : state p 1 R_gas 1 1) by (repeat split).
  assert (H4 : (1 <= 4)%nat) by lia.
  destruct (generate_data p to_T 1 R_gas 1 1 2 4 Hst H4) as (d & Hgen & _).
  exists (BaseProcess.with_data p d), d.
  destruct (held_variable_is_constant p (BaseProcess.with_data p d) to_T 1 R_gas 1 1 2 4 d
              Hst Hgen eq_refl) as (_ & H & _).
  repeat split; [exact Hgen | exact (H eq_refl)].
Defined.

Lemma path_adiabatic (p : BaseProcess.t) (m : Target) (n' p1 v1 t1 x2 : R) (steps : nat)
  (x : R) :
  BaseProcess.class p = Class.Adiabatic ->
  0 < p1 -> 0 < v1 -> 0 < t1 -> 1 < BaseProcess.gamma p -> 0 < x ->
  let w := path p m n' p1 v1 t1 x2 steps in
  let g := BaseProcess.gamma p in
  fP w x * Rpower (fV w x) g = p1 * Rpower v1 g
  /\ fT w x * Rpower (fV w x) (g - 1) = t1 * Rpower v1 (g - 1).
Proof.
  intros Hc Hp Hv Ht Hg Hx. unfold path. rewrite Hc.
  set (g := BaseProcess.gamma p) in *.
  destruct m; cbn [fV fP fT]; cbv zeta.
  - (* swept volume *)
    unfold BaseProcess.P2_from_V2, BaseProcess.T2_from_V2.
    assert (Hq : 0 < v1 / x) by (apply Rdiv_lt_0_compat; assumption).
    rewrite !Rmult_assoc, !Rpower_mult_distr by assumption.
    replace (v1 / x * x) with v1 by (field; lra). split; reflexivity.
  - (* swept pressure *)
    unfold BaseProcess.V2_from_P2, BaseProcess.T2_from_P2.
    assert (Hq : 0 < p1 / x) by (apply Rdiv_lt_0_compat; assumption).
    pose proof (Rpower_pos (p1 / x) (1 / g)) as Hpw.
    rewrite <- !(Rpower_mult_distr v1 (Rpower (p1 / x) (1 / g))) by assumption.
    rewrite !Rpower_mult. split.
    + replace (1 / g * g) with 1 by (field; lra).
      rewrite Rpower_1 by assumption. field. lra.
    + replace (1 / g * (g - 1)) with ((g - 1) / g) by (field; lra).
      replace (t1 * Rpower (x / p1) ((g - 1) / g)
               * (Rpower v1 (g - 1) * Rpower (p1 / x) ((g - 1) / g)))
        with (t1 * Rpower v1 (g - 1)
              * (Rpower (x / p1) ((g - 1) / g) * Rpower (p1 / x) ((g - 1) / g))) by ring.
      rewrite Rpower_there_and_back by assumption. ring.
  - (* swept temperature *)
    unfold BaseProcess.V2_from_T2, BaseProcess.P2_from_T2.
    assert (Hq : 0 < t1 / x) by (apply Rdiv_lt_0_compat; assumption).
    pose proof (Rpower_pos (t1 / x) (1 / (g - 1))) as Hpw.
    rewrite <- !(Rpower_mult_distr v1 (Rpower (t1 / x) (1 / (g - 1)))) by assumption.
    rewrite !Rpower_mult. split.
    + replace (1 / (g - 1) * g) with (g / (g - 1)) by (field; lra).
      replace (p1 * Rpower (x / t1) (g / (g - 1))
               * (Rpower v1 g * Rpower (t1 / x) (g / (g - 1))))
        with (p1 * Rpower v1 g
              * (Rpower (x / t1) (g / (g - 1)) * Rpower (t1 / x) (g / (g - 1)))) by ring.
      rewrite Rpower_there_and_back by assumption. ring.
    + replace (1 / (g - 1) * (g - 1)) with 1 by (field; lra).
      rewrite Rpower_1 by assumption. field. lra.
Qed.

(** X12: along every trajectory of an adiabatic process (swept in volume,
    pressure or temperature, from a positive start state towards a
    positive target, [gamma > 1]) the isentropic relations hold at each
    index: [P V^gamma = P1 V1^gamma] and
    [T V^(gamma-1) = T1 V1^(gamma-1)]. *)
Theorem adiabatic_trajectory_is_isentropic (p p' : BaseProcess.t) (m : Target)
  (n' p1 v1 t1 x2 : R) (steps : nat) (d : BaseProcess.Data) (i : nat) :
  BaseProcess.class p = Class.Adiabatic ->
  state p n' p1 v1 t1 ->
  0 < p1 -> 0 < v1 -> 0 < t1 -> 0 < x2 -> 1 < BaseProcess.gamma p ->
  generate m p (Some x2) steps = Ok p' ->
  BaseProcess.data p' = Some d ->
  (i < steps)%nat ->
  let g := BaseProcess.gamma p in
  nth i (BaseProcess.pressure d) 0 * Rpower (nth i (BaseProcess.volume d) 0) g
  = p1 * Rpower v1 g
  /\ nth i (BaseProcess.temperature d) 0
     * Rpower (nth i (BaseProcess.volume d) 0) (g - 1)
     = t1 * Rpower v1 (g - 1).
Proof.
  intros Hc Hst Hp Hv Ht Hx Hg Hgen Hd Hi.
  assert (Hsteps : (1 <= steps)%nat) by lia.
  destruct (generate_data p m n' p1 v1 t1 x2 steps Hst Hsteps)
    as (d0 & Hgen0 & HV & HP & HT & _).
  rewrite Hgen0 in Hgen. injection Hgen as <-. cbn in Hd. injection Hd as <-.
  pose proof (path_length p m n' p1 v1 t1 x2 steps) as Hlen.
  cbv zeta. rewrite HV, HP, HT, !nth_map_default by lia.
  apply path_adiabatic; try assumption.
  apply (path_pos p m n' p1 v1 t1 x2 steps); try assumption.
  apply nth_In. lia.
Qed.

Lemma adiabatic_trajectory_is_isentropic_witness :
  exists p' d,
    BaseProcess.generate_data_from_dP
      (BaseProcess.__init__ Class.Adiabatic (Some 1) (Some R_gas) (Some 1) (Some 1)
         false true gas_none) (Some 2) 3 = Ok p'
    /\ BaseProcess.data p' = Some d
    /\ nth 2 (BaseProcess.pressure d) 0 * Rpower (nth 2 (BaseProcess.volume d) 0) (7 / 5)
       = R_gas * Rpower 1 (7 / 5).
Proof.
  pose (p := BaseProcess.__init__ Class.Adiabatic (Some 1) (Some R_gas) (Some 1) (Some 1)
               false true gas_none).
  assert (Hst : state p 1 R_gas 1 1) by (repeat split).
  assert (H3 : (1 <= 3)%nat) by lia.
  destruct (generate_data p to_P 1 R_gas 1 1 2 3 Hst H3) as (d & Hgen & _).
  exists (BaseProcess.with_data p d), d.
  split; [exact Hgen |]. split; [reflexivity |].
  refine (proj1 (adiabatic_trajectory_is_isentropic p (BaseProcess.with_data p d) to_P
                   1 R_gas 1 1 2 3 d 2 eq_refl Hst R_gas_pos _ _ _ _ Hgen eq_refl _));
    try (cbn; lra). lia.
Defined.

Lemma path_start_point (p : BaseProcess.t) (m : Target) (n' p1 v1 t1 x2 : R)
  (steps : nat) :
  0 < n' -> 0 < p1 -> 0 < v1 -> 0 < t1 -> p1 * v1 = n' * R_gas * t1 ->
  (1 <= steps)%nat ->
  let w := path p m n' p1 v1 t1 x2 steps in
  fV w (hd 0 (swept w)) = v1 /\ fP w (hd 0 (swept w)) = p1.
Proof.
  intros Hn Hp Hv Ht Hlaw Hsteps. pose proof R_gas_pos as HR. unfold path.
  assert (Ht1 : t1 = p1 * v1 / (n' * R_gas)) by (rewrite Hlaw; field; lra).
  destruct (BaseProcess.class p), m; cbn [swept fV fP constant_path];
    rewrite ?(hd_linspace _ _ _ Hsteps);
    unfold BaseProcess.P, BaseProcess.V, BaseProcess.P2_from_V2, BaseProcess.V2_from_P2,
      BaseProcess.P2_from_T2, BaseProcess.V2_from_T2;
    replace (v1 / v1) with 1 by (field; lra);
    replace (p1 / p1) with 1 by (field; lra);
    replace (t1 / t1) with 1 by (field; lra);
    rewrite ?Rpower_1_base;
    (split; [try lra | try lra]); try (rewrite Ht1; field; lra).
Qed.

(** X13: from a positive start state with [P1 V1 = n R T1], the first
    point of every generated trajectory (any class, any method) is the
    start state itself: [volume[0] = V1], [pressure[0] = P1] and
    [temperature[0] = T1]. *)
Theorem trajectory_starts_at_start_state (p p' : BaseProcess.t) (m : Target)
  (n' p1 v1 t1 x2 : R) (steps : nat) (d : BaseProcess.Data) :
  state p n' p1 v1 t1 ->
  0 < n' -> 0 < p1 -> 0 < v1 -> 0 < t1 -> p1 * v1 = n' * R_gas * t1 ->
  generate m p (Some x2) steps = Ok p' ->
  BaseProcess.data p' = Some d ->
  index0 (BaseProcess.volume d) = Ok v1
  /\ index0 (BaseProcess.pressure d) = Ok p1
  /\ index0 (BaseProcess.temperature d) = Ok t1.
Proof.
  intros Hst Hn Hp Hv Ht Hlaw Hgen Hd.
  pose proof (generate_succeeds_inv p p' m n' p1 v1 t1 x2 steps Hst Hgen) as Hsteps.
  destruct (generate_data p m n' p1 v1 t1 x2 steps Hst Hsteps)
    as (d0 & Hgen0 & HV & HP & HT & _).
  rewrite Hgen0 in Hgen. injection Hgen as <-. cbn in Hd. injection Hd as <-.
  pose proof (path_nonempty p m n' p1 v1 t1 x2 steps Hsteps) as Hs.
  destruct (path_start_point p m n' p1 v1 t1 x2 steps Hn Hp Hv Ht Hlaw Hsteps) as (H1 & H2).
  pose proof (path_start p m n' p1 v1 t1 x2 steps Hn Hlaw Hv Hp Ht Hsteps) as H3.
  cbv zeta in H3.
  rewrite HV, HP, HT, !(index0_map _ _ Hs), H1, H2, H3. repeat split.
Qed.

Lemma trajectory_starts_at_start_state_witness :
  exists p p' d,
    Adiabatic None (Some 1) None (Some 1) (Some 300) true false gas_none = Ok p
    /\ BaseProcess.generate_data_from_dT p (Some 200) K = Ok p'
    /\ BaseProcess.data p' = Some d
    /\ index0 (BaseProcess.volume d) = Ok 1
    /\ index0 (BaseProcess.pressure d) = Ok (BaseProcess.P 1 1 300)
    /\ index0 (BaseProcess.temperature d) = Ok 300.
Proof.
  pose (p := BaseProcess.with_state
               (BaseProcess.with_title
                  (BaseProcess.__init__ Class.Adiabatic (Some 1) None (Some 1) (Some 300)
                     true false gas_none) "Adiabatisk prosess")
               (Some 1) (Some (BaseProcess.P 1 1 300)) (Some 1) (Some 300)).
  assert (Hst : state p 1 (BaseProcess.P 1 1 300) 1 300) by (repeat split).
  assert (Hone : (1 <= K)%nat) by (unfold K; lia).
  destruct (generate_data p to_T 1 (BaseProcess.P 1 1 300) 1 300 200 K Hst Hone)
    as (d & Hgen & _).
  exists p, (BaseProcess.with_data p d), d.
  split; [reflexivity |]. split; [exact Hgen |]. split; [reflexivity |].
  apply (trajectory_starts_at_start_state p (BaseProcess.with_data p d) to_T 1
           (BaseProcess.P 1 1 300) 1 300 200 K d Hst);
    try (unfold BaseProcess.P, R_gas; lra); [exact Hgen | reflexivity].
Defined.

(** X14: with at least two steps the variable a method sweeps ends exactly
    on the requested target; the methods a class inherits from
    [BaseProcess] ([Isothermal] from a temperature, [Isobaric] from a
    pressure, [Isochoric] from a volume) ignore the target and leave the
    volume on [V1]. *)
Theorem swept_variable_reaches_target (p p' : BaseProcess.t) (m : Target)
  (n' p1 v1 t1 x2 : R) (steps : nat) :
  state p n' p1 v1 t1 -> (2 <= steps)%nat ->
  generate m p (Some x2) steps = Ok p' ->
  match BaseProcess.class p, m with
  | Class.Isothermal, to_V | Class.Isobaric, to_V | Class.Adiabatic, to_V =>
      volume_end p' = Ok x2
  | Class.Isothermal, to_P | Class.Isochoric, to_P | Class.Adiabatic, to_P =>
      pressure_end p' = Ok x2
  | Class.Isobaric, to_T | Class.Isochoric, to_T | Class.Adiabatic, to_T =>
      temperature_end p' = Ok x2
  | Class.BaseProcess, _ | Class.Isothermal, to_T | Class.Isobaric, to_P
  | Class.Isochoric, to_V =>
      volume_end p' = Ok v1
  end.
Proof.
  intros Hst Hsteps Hgen. assert (H1 : (1 <= steps)%nat) by lia.
  destruct (generate_end p m n' p1 v1 t1 x2 steps Hst H1)
    as (d & Hgen0 & Hv & Hp & Ht & _).
  rewrite Hgen0 in Hgen. injection Hgen as <-.
  rewrite Hv, Hp, Ht. unfold path.
  destruct (BaseProcess.class p), m; cbn [swept fV fP fT constant_path];
    rewrite ?(last_linspace _ _ _ Hsteps); try reflexivity; f_equal; lra.
Qed.

Lemma swept_variable_reaches_target_witness :
  exists p',
    BaseProcess.generate_data_from_dV
      (BaseProcess.__init__ Class.Isochoric (Some 1) (Some R_gas) (Some 1) (Some 1)
         false false gas_none) (Some 5) K = Ok p'
    /\ volume_end p' = Ok 1.
Proof.
  pose (p := BaseProcess.__init__ Class.Isochoric (Some 1) (Some R_gas) (Some 1) (Some 1)
               false false gas_none).
  assert (Hst : state p 1 R_gas 1 1) by (repeat split).
  assert (Hone : (1 <= K)%nat) by (unfold K; lia).
  destruct (generate_data p to_V 1 R_gas 1 1 5 K Hst Hone) as (d & Hgen & _).
  exists (BaseProcess.with_data p d). split; [exact Hgen |].
  exact (swept_variable_reaches_target p (BaseProcess.with_data p d) to_V 1 R_gas 1 1 5 K
           Hst K_ge_2 Hgen).
Defined.

(** ** The tape of [IdealGas] *)

Lemma isobaric_of_four (n' p1 t1 v1 : R) (gas : GasArg) :
  exists q,
    Isobaric (Some n') (Some p1) (Some t1) (Some v1) false false gas = Ok q
    /\ state q n' p1 v1 t1 /\ BaseProcess.class q = Class.Isobaric
    /\ BaseProcess.data q = None.
Proof.
  unfold Isobaric, BaseProcess._find_missing. cbn.
  eexists. split; [reflexivity |]. repeat split.
Qed.

Lemma isochoric_of_four (n' v1 t1 p1 : R) (gas : GasArg) :
  exists q,
    Isochoric (Some n') (Some v1) (Some t1) (Some p1) false false gas = Ok q
    /\ state q n' p1 v1 t1 /\ BaseProcess.class q = Class.Isochoric
    /\ BaseProcess.data q = None.
Proof.
  unfold Isochoric, BaseProcess._find_missing. cbn.
  eexists. split; [reflexivity |]. repeat split.
Qed.

Lemma map_Some_repeat (c : R) (k : nat) : map Some (repeat c k) = repeat (Some c) k.
Proof. induction k as [| k IH]; cbn; [reflexivity | f_equal; exact IH]. Qed.

(** X15: the [isobaric] and [isochoric] transitions of the tape do what
    their names say.  From a tape whose last state is [(p, v, t)],
    [isobaric(V2=...)] appends [K] pressures all equal to [p], ends on
    volume [V2] and records one [Isobaric] process; [isochoric(P2=...)]
    appends [K] volumes all equal to [v], ends on pressure [P2] and
    records one [Isochoric] process.  The three histories grow by [K]
    entries each. *)
Theorem isobaric_and_isochoric_transitions (g : IdealGas.t) (p v t x2 : R) :
  IdealGas.current (IdealGas.P g) = Ok (Some p) ->
  IdealGas.current (IdealGas.V g) = Ok (Some v) ->
  IdealGas.current (IdealGas.T g) = Ok (Some t) ->
  (exists g' q,
      IdealGas.isobaric g (Some x2) None = Ok g'
      /\ IdealGas.P g' = IdealGas.P g ++ repeat (Some p) K
      /\ IdealGas.current (IdealGas.V g') = Ok (Some x2)
      /\ List.length (IdealGas.V g') = (List.length (IdealGas.V g) + K)%nat
      /\ List.length (IdealGas.T g') = (List.length (IdealGas.T g) + K)%nat
      /\ IdealGas.processes g' = IdealGas.processes g ++ [q]
      /\ BaseProcess.class q = Class.Isobaric)
  /\ (exists g' q,
      IdealGas.isochoric g (Some x2) None = Ok g'
      /\ IdealGas.V g' = IdealGas.V g ++ repeat (Some v) K
      /\ IdealGas.current (IdealGas.P g') = Ok (Some x2)
      /\ List.length (IdealGas.P g') = (List.length (IdealGas.P g) + K)%nat
      /\ List.length (IdealGas.T g') = (List.length (IdealGas.T g) + K)%nat
      /\ IdealGas.processes g' = IdealGas.processes g ++ [q]
      /\ BaseProcess.class q = Class.Isochoric).
Proof.
  intros HP HV HT.
  assert (Hone : (1 <= K)%nat) by (unfold K; lia).
  split.
  - destruct (isobaric_of_four (IdealGas.n g) p t v (gas_material (IdealGas.material g)))
      as (q & Hq & Hst & Hc & _).
    destruct (generate_data q to_V (IdealGas.n g) p v t x2 K Hst Hone)
      as (d & Hgen & HVd & HPd & HTd & _).
    cbn [generate] in Hgen.
    unfold path in HVd, HPd, HTd. rewrite Hc in HVd, HPd, HTd.
    cbn [swept fV fP fT] in HVd, HPd, HTd.
    exists (IdealGas.record g (BaseProcess.with_data q d)), (BaseProcess.with_data q d).
    split.
    { unfold IdealGas.isobaric. rewrite HP, HV, HT. cbn [bind].
      rewrite Hq. cbn [bind]. rewrite Hgen. reflexivity. }
    cbn [IdealGas.record IdealGas.P IdealGas.V IdealGas.T IdealGas.processes
           BaseProcess.data BaseProcess.with_data option_map BaseProcess.class].
    unfold IdealGas.append.
    rewrite HPd, (map_constant p) by (intros; lra).
    rewrite length_linspace, map_Some_repeat.
    split; [reflexivity |]. split.
    { fold (IdealGas.append (IdealGas.V g) (Some (BaseProcess.volume d))).
      rewrite current_append.
      - rewrite HVd, map_id, (last_linspace v x2 K K_ge_2). reflexivity.
      - rewrite HVd, map_id. apply linspace_nonempty. exact Hone. }
    rewrite !length_app, !length_map, HVd, HTd, !length_map, length_linspace.
    repeat split. exact Hc.
  - destruct (isochoric_of_four (IdealGas.n g) v t p (gas_material (IdealGas.material g)))
      as (q & Hq & Hst & Hc & _).
    destruct (generate_data q to_P (IdealGas.n g) p v t x2 K Hst Hone)
      as (d & Hgen & HVd & HPd & HTd & _).
    cbn [generate] in Hgen.
    unfold path in HVd, HPd, HTd. rewrite Hc in HVd, HPd, HTd.
    cbn [swept fV fP fT] in HVd, HPd, HTd.
    exists (IdealGas.record g (BaseProcess.with_data q d)), (BaseProcess.with_data q d).
    split.
    { unfold IdealGas.isochoric. rewrite HP, HV, HT. cbn [bind].
      rewrite Hq. cbn [bind]. rewrite Hgen. reflexivity. }
    cbn [IdealGas.record IdealGas.P IdealGas.V IdealGas.T IdealGas.processes
           BaseProcess.data BaseProcess.with_data option_map BaseProcess.class].
    unfold IdealGas.append.
    rewrite HVd, (map_constant v) by (intros; lra).
    rewrite length_linspace, map_Some_repeat.
    split; [reflexivity |]. split.
    { fold (IdealGas.append (IdealGas.P g) (Some (BaseProcess.pressure d))).
      rewrite current_append.
      - rewrite HPd, map_id, (last_linspace p x2 K K_ge_2). reflexivity.
      - rewrite HPd, map_id. apply linspace_nonempty. exact Hone. }
    rewrite !length_app, !length_map, HPd, HTd, !length_map, length_linspace.
    repeat split. exact Hc.
Qed.

Lemma isobaric_and_isochoric_transitions_witness :
  let g := IdealGas.mk [Some R_gas] [Some 1] [Some 1] 1
             (mkMaterial "N2O2" 29 21 29 (7 / 5)) "Air" 29 21 29 (7 / 5) "N2O2" [] in
  exists g',
    IdealGas.isobaric g (Some 2) None = Ok g'
    /\ IdealGas.P g' = Some R_gas :: repeat (Some R_gas) K
    /\ IdealGas.current (IdealGas.V g') = Ok (Some 2).
Proof.
  intros g.
  destruct (isobaric_and_isochoric_transitions g R_gas 1 1 2 eq_refl eq_refl eq_refl)
    as ((g' & q & H & HP & HV & _) & _).
  exists g'. repeat split; assumption.
Defined.

Lemma current_snoc_none (a : list (option R)) : IdealGas.current (a ++ [None]) = Ok None.
Proof.
  unfold IdealGas.current.
  destruct (a ++ [None]) as [| y r] eqn:E; [destruct a; discriminate |].
  rewrite <- E, last_last. reflexivity.
Qed.

(** X16: a transition called without a single target (both targets given
    to [isothermal], [isobaric] or [isochoric], or none given to
    [adiabatic]) generates no trajectory, yet still records the process
    and appends its unset arrays: each history gains one [None].  After
    that the tape is unusable: every transition, with any targets, fails
    the three-values assertion of the process constructor. *)
Theorem transition_without_single_target_blocks_tape (g g' : IdealGas.t)
  (p v t a b : R) :
  IdealGas.current (IdealGas.P g) = Ok (Some p) ->
  IdealGas.current (IdealGas.V g) = Ok (Some v) ->
  IdealGas.current (IdealGas.T g) = Ok (Some t) ->
  IdealGas.isothermal g (Some a) (Some b) = Ok g'
  \/ IdealGas.isobaric g (Some a) (Some b) = Ok g'
  \/ IdealGas.isochoric g (Some a) (Some b) = Ok g'
  \/ IdealGas.adiabatic g None None None = Ok g' ->
  IdealGas.P g' = IdealGas.P g ++ [None]
  /\ IdealGas.V g' = IdealGas.V g ++ [None]
  /\ IdealGas.T g' = IdealGas.T g ++ [None]
  /\ (exists q, IdealGas.processes g' = IdealGas.processes g ++ [q]
                /\ BaseProcess.data q = None)
  /\ forall x y z : option R,
       IdealGas.isothermal g' x y = Raise (AssertionError assert_three_defined)
       /\ IdealGas.isobaric g' x y = Raise (AssertionError assert_three_defined)
       /\ IdealGas.isochoric g' x y = Raise (AssertionError assert_three_defined)
       /\ IdealGas.adiabatic g' x y z = Raise (AssertionError assert_three_defined).
Proof.
  intros HP HV HT H.
  assert (Hg' : exists q, g' = IdealGas.record g q /\ BaseProcess.data q = None).
  { unfold IdealGas.isothermal, IdealGas.isobaric, IdealGas.isochoric, IdealGas.adiabatic
      in H.
    rewrite HP, HV, HT in H. cbn in H.
    destruct H as [H | [H | [H | H]]]; injection H as <-;
      (eexists; split; [reflexivity | reflexivity]). }
  destruct Hg' as (q & -> & Hq).
  cbn [IdealGas.record IdealGas.P IdealGas.V IdealGas.T IdealGas.processes].
  rewrite Hq. cbn [option_map IdealGas.append].
  split; [reflexivity |]. split; [reflexivity |]. split; [reflexivity |].
  split; [exists q; split; [reflexivity | exact Hq] |].
  intros x y z.
  unfold IdealGas.isothermal, IdealGas.isobaric, IdealGas.isochoric, IdealGas.adiabatic.
  cbn [IdealGas.record IdealGas.P IdealGas.V IdealGas.T IdealGas.n IdealGas.material].
  rewrite Hq. cbn [option_map IdealGas.append].
  rewrite !current_snoc_none. cbn [bind].
  repeat split; reflexivity.
Qed.

Lemma transition_without_single_target_blocks_tape_witness :
  let g := IdealGas.mk [Some R_gas] [Some 1] [Some 1] 1
             (mkMaterial "N2O2" 29 21 29 (7 / 5)) "Air" 29 21 29 (7 / 5) "N2O2" [] in
  exists g',
    IdealGas.isobaric g (Some 2) (Some 2) = Ok g'
    /\ IdealGas.P g' = [Some R_gas; None]
    /\ IdealGas.isochoric g' None (Some 300)
       = Raise (AssertionError assert_three_defined).
Proof.
  intros g. eexists. split; [reflexivity |].
  refine (let H := transition_without_single_target_blocks_tape g _ R_gas 1 1 2 2
                     eq_refl eq_refl eq_refl (or_intror (or_introl eq_refl)) in _).
  destruct H as (HP & _ & _ & _ & Hstuck).
  split; [exact HP | exact (proj1 (proj2 (proj2 (Hstuck None (Some 300) None))))].
Defined.

(** ** The Otto cycle *)

Lemma otto_efficiency_cases (q q4 w1 w3 : R) :
  0 < q -> q4 = - q ->
  let ew := Rabs ((0 + w1 + 0 + w3 + 0) / (0 + q)) in
  (ew < allowed_error
   /\ exists eff,
       BaseCycle._calculate_efficiency [0; q; 0; q4] [w1; 0; w3; 0] = Ok eff
       /\ eff = ew / 2)
  \/ (~ ew < allowed_error
      /\ BaseCycle._calculate_efficiency [0; q; 0; q4] [w1; 0; w3; 0]
         = Raise (AssertionError assert_efficiency)).
Proof.
  intros Hq -> ew.
  unfold BaseCycle._calculate_efficiency. cbn [filter].
  rewrite (Rlt_b_false 0 0), (Rlt_b_true 0 q), (Rlt_b_false 0 (- q)),
    (Rlt_b_false q 0), (Rlt_b_true (- q) 0) by lra.
  unfold sum. cbn [fold_left]. fold ew.
  replace ((0 + - q) / (0 + q)) with (-1) by (field; lra).
  rewrite Rabs_minus_one.
  replace (1 - 1 - ew) with (- ew) by lra. rewrite Rabs_Ropp.
  assert (Hew : 0 <= ew) by apply Rabs_pos.
  rewrite (Rabs_pos_eq ew Hew).
  destruct (Rlt_dec ew allowed_error) as [H | H].
  - left. split; [exact H |]. rewrite (Rlt_b_true _ _ H). cbn [assert bind].
    eexists. split; [reflexivity |]. lra.
  - right. split; [exact H |]. rewrite (Rlt_b_false _ _ H). reflexivity.
Qed.

(** X17: an Otto cycle of a monatomic gas between [0 < T_cold < T_hot],
    with positive [r], [V1] and [n], either fails the efficiency cross-check or reports an
    efficiency below [allowed_error / 2].  The two isochoric steps exchange
    opposite heats [n Cv (T_hot - T_cold)], so the heat-based estimate is
    always 0, and the run is accepted only when the work-based estimate is
    within [allowed_error] of it. *)
Theorem otto_efficiency_is_negligible (substances : SubstanceTable)
  (r T_cold T_hot v1 n' : R) :
  0 < r -> 0 < v1 -> 0 < n' -> 0 < T_cold -> T_cold < T_hot ->
  Otto substances r T_cold T_hot None (Some v1) (Some n') true false
  = Raise (AssertionError assert_efficiency)
  \/ exists c run,
      Otto substances r T_cold T_hot None (Some v1) (Some n') true false = Ok c
      /\ BaseCycle.run c = Some run
      /\ BaseCycle.heat_absorbed run
         = [0; n' * (3 / 2 * R_gas) * (T_hot - T_cold); 0;
            n' * (3 / 2 * R_gas) * (T_cold - T_hot)]
      /\ 0 <= BaseCycle.efficiency run < allowed_error / 2.
Proof.
  intros _ _ Hn _ HT. pose proof R_gas_pos as HR.
  pose (self := BaseCycle.with_alpha_beta
                  (BaseCycle.with_state
                     (BaseCycle.with_title
                        (BaseCycle.mk CycleClass.Otto (Some v1) None (Some T_hot) (Some n')
                           r T_hot T_cold true false (5 / 3) (3 / 2 * R_gas)
                           (5 / 2 * R_gas) None None None None "" None None None None)
                        "Otto syklus" None)
                     (Some v1) (Some (n' * R_gas * T_hot / v1)) (Some T_hot) (Some n'))
                  (1 / r) r).
  change (Otto substances r T_cold T_hot None (Some v1) (Some n') true false)
    with (BaseCycle.run_cycle self).
  destruct (otto_processes self n' v1 (1 / r) r eq_refl eq_refl eq_refl eq_refl eq_refl)
    as (q1 & q2 & q3 & q4 & p2 & p4 & Hps & _ & O1 & _ & O2 & _ & O3 & _ & O4).
  cbn [self BaseCycle.T_cold BaseCycle.T_hot BaseCycle.with_alpha_beta
         BaseCycle.with_state BaseCycle.with_title] in O1, O2, O3, O4.
  destruct (out_data _ _ _ _ _ _ O1) as (d1 & Hd1 & Hw1 & _ & Hh1 & _).
  destruct (out_data _ _ _ _ _ _ O2) as (d2 & Hd2 & Hw2 & _ & Hh2 & _).
  destruct (out_data _ _ _ _ _ _ O3) as (d3 & Hd3 & Hw3 & _ & Hh3 & _).
  destruct (out_data _ _ _ _ _ _ O4) as (d4 & Hd4 & Hw4 & _ & Hh4 & _).
  unfold BaseCycle.run_cycle, BaseCycle.generate_processes.
  change (BaseCycle.class self) with CycleClass.Otto. cbv iota.
  rewrite Hps. cbn [bind].
  rewrite !(collect_four _ q1 q2 q3 q4 d1 d2 d3 d4 Hd1 Hd2 Hd3 Hd4). cbn [bind].
  rewrite Hh1, Hh2, Hh3, Hh4, Hw2, Hw4.
  assert (Hq : 0 < n' * (3 / 2 * R_gas) * (T_hot - T_cold)) by
    (apply Rmult_lt_0_compat; [apply Rmult_lt_0_compat |]; lra).
  destruct (otto_efficiency_cases (n' * (3 / 2 * R_gas) * (T_hot - T_cold))
              (n' * (3 / 2 * R_gas) * (T_cold - T_hot))
              (BaseProcess.work_done_by d1) (BaseProcess.work_done_by d3) Hq)
    as [(Hlt & eff & Heff & Hval) | (_ & Heff)]; [ring | |].
  - right. rewrite Heff. cbn [bind]. eexists. eexists.
    split; [reflexivity |].
    cbn [BaseCycle.run BaseCycle.with_run BaseCycle.heat_absorbed BaseCycle.efficiency].
    split; [reflexivity |]. split; [reflexivity |].
    rewrite Hval. cbn [BaseCycle.efficiency]. split; [| lra].
    apply Rmult_le_pos; [apply Rabs_pos | lra].
  - left. rewrite Heff. reflexivity.
Qed.

Lemma otto_efficiency_is_negligible_witness :
  Otto [] 8 300 1500 None (Some 0.01) (Some 1) true false
  = Raise (AssertionError assert_efficiency)
  \/ exists c run,
      Otto [] 8 300 1500 None (Some 0.01) (Some 1) true false = Ok c
      /\ BaseCycle.run c = Some run
      /\ 0 <= BaseCycle.efficiency run < allowed_error / 2.
Proof.
  destruct (otto_efficiency_is_negligible [] 8 300 1500 0.01 1) as [H | H];
    try lra.
  - left. exact H.
  - right. destruct H as (c & run & Hc & Hr & _ & He). exists c, run.
    repeat split; try assumption; apply He.
Defined.

(** ** The chain of Carnot *)

Lemma adiabatic_dT_pressure (n' v t T2 : R) :
  0 < n' -> 0 < v -> 0 < t -> 0 < T2 ->
  BaseProcess.P2_from_T2 (BaseProcess.P n' v t) t (5 / 3) T2
  = BaseProcess.P n' (BaseProcess.V2_from_T2 v t (5 / 3) T2) T2.
Proof.
  intros Hn Hv Ht HT. pose proof R_gas_pos as HR.
  destruct (adiabatic_of_three n' v t false) as (q & _ & _ & Hc & Hg & _).
  assert (Hp : 0 < BaseProcess.P n' v t).
  { unfold BaseProcess.P. apply Rdiv_lt_0_compat; [| exact Hv].
    apply Rmult_lt_0_compat; [apply Rmult_lt_0_compat |]; assumption. }
  assert (Hlaw : BaseProcess.P n' v t * v = n' * R_gas * t)
    by (unfold BaseProcess.P; field; lra).
  assert (Hg1 : 1 < BaseProcess.gamma q) by (rewrite Hg; lra).
  pose proof (path_ideal q to_T n' (BaseProcess.P n' v t) v t T2 2 T2 Hn Hp Hv Ht Hlaw
                Hg1 HT) as H.
  unfold path in H. rewrite Hc, Hg in H. cbn [fV fP fT] in H.
  assert (HV : 0 < BaseProcess.V2_from_T2 v t (5 / 3) T2).
  { unfold BaseProcess.V2_from_T2. apply Rmult_lt_0_compat; [exact Hv | apply Rpower_pos]. }
  unfold BaseProcess.P at 2.
  apply (Rmult_eq_reg_r (BaseProcess.V2_from_T2 v t (5 / 3) T2)); [| lra].
  replace (n' * R_gas * T2 / BaseProcess.V2_from_T2 v t (5 / 3) T2
           * BaseProcess.V2_from_T2 v t (5 / 3) T2)
    with (n' * R_gas * T2) by (field; lra).
  lra.
Qed.

(** With the three closure assertions passed, the chain of the four
    processes of a Carnot cycle of a monatomic gas. *)
Lemma carnot_chain (self : BaseCycle.t) (n' v1 p1 a b : R) :
  BaseCycle.n self = Some n' -> BaseCycle.V1 self = Some v1 ->
  BaseCycle.P1 self = Some p1 ->
  BaseCycle.alpha self = Some a -> BaseCycle.beta self = Some b ->
  BaseCycle.diatomic self = false ->
  0 < n' -> 0 < v1 -> 0 < a -> 0 < b ->
  0 < BaseCycle.T_cold self -> 0 < BaseCycle.T_hot self ->
  let Tc := BaseCycle.T_cold self in
  let Th := BaseCycle.T_hot self in
  let V3 := BaseProcess.V2_from_T2 (a * v1) (Th * 1) (5 / 3) Tc in
  let V4 := BaseProcess.V2_from_T2 (b * V3) (Tc * 1) (5 / 3) Th in
  let P4 := BaseProcess.P2_from_T2 (BaseProcess.P n' (b * V3) (Tc * 1)) (Tc * 1)
              (5 / 3) Th in
  Rabs (V3 - v1 * BaseCycle.compression_ratio self) < allowed_error ->
  Rabs (V4 - v1) < allowed_error ->
  Rabs (P4 - p1) < allowed_error ->
  exists q1 q2 q3 q4,
    BaseCycle.Carnot_generate_processes self = Ok [q1; q2; q3; q4]
    /\ (hands_over n' q1 q2 /\ hands_over n' q2 q3 /\ hands_over n' q3 q4)
    /\ continues q1 q2 /\ continues q2 q3 /\ continues q3 q4
    /\ BaseProcess.n q1 = Some n' /\ BaseProcess.n q2 = Some n'
    /\ BaseProcess.n q3 = Some n' /\ BaseProcess.n q4 = Some n'.
Proof.
  intros Hn HV HP Ha Hb Hdia Hn0 Hv0 Ha0 Hb0 HTc HTh Tc Th V3 V4 P4 H3 H4 HP4.
  destruct (carnot_processes self n' v1 p1 a b Hn HV HP Ha Hb Hdia H3 H4 HP4)
    as (q1 & q2 & q3 & q4 & Hps & Hst1 & O1 & Hst2 & O2 & Hst3 & O3 & Hst4 & O4).
  fold Tc Th in Hst1, O1, Hst2, O2, Hst3, O3, Hst4, O4.
  fold V3 in Hst3, O2, O3, Hst4, O4.
  pose proof R_gas_pos as HR.
  assert (Hv2 : 0 < a * v1) by (apply Rmult_lt_0_compat; assumption).
  assert (HV3 : 0 < V3).
  { unfold V3, BaseProcess.V2_from_T2. apply Rmult_lt_0_compat; [exact Hv2 |].
    apply Rpower_pos. }
  assert (Hv4 : 0 < b * V3) by (apply Rmult_lt_0_compat; assumption).
  exists q1, q2, q3, q4. split; [exact Hps |].
  split.
  { split; [| split].
    - exists (a * v1), (Th * 1). split; [apply O1 | split; [apply O1 | exact Hst2]].
    - exists V3, Tc. split; [apply O2 | split; [apply O2 | exact Hst3]].
    - exists (b * V3), (Tc * 1). split; [apply O3 | split; [apply O3 | exact Hst4]]. }
  split; [| split; [| split]].
  - exists n', (BaseProcess.P n' (a * v1) (Th * 1)), (a * v1), (Th * 1).
    split; [| split; [apply O1 | split; [apply O1 | exact Hst2]]].
    rewrite (out_pressure _ _ _ _ _ _ O1). f_equal. unfold BaseProcess.P. lra.
  - exists n', (BaseProcess.P n' V3 Tc), V3, Tc.
    split; [| split; [apply O2 | split; [apply O2 | exact Hst3]]].
    rewrite (out_pressure _ _ _ _ _ _ O2). f_equal.
    apply adiabatic_dT_pressure; try assumption. unfold Th. lra.
  - exists n', (BaseProcess.P n' (b * V3) (Tc * 1)), (b * V3), (Tc * 1).
    split; [| split; [apply O3 | split; [apply O3 | exact Hst4]]].
    rewrite (out_pressure _ _ _ _ _ _ O3). f_equal. unfold BaseProcess.P. lra.
  - repeat split; first [apply Hst1 | apply Hst2 | apply Hst3 | apply Hst4].
Qed.

(** What the closure assertions of [Carnot.generate_processes] decide: the
    first one that fails is the one raised. *)
Lemma carnot_closure_decides (self : BaseCycle.t) (n' v1 p1 a b : R) :
  BaseCycle.n self = Some n' -> BaseCycle.V1 self = Some v1 ->
  BaseCycle.P1 self = Some p1 ->
  BaseCycle.alpha self = Some a -> BaseCycle.beta self = Some b ->
  BaseCycle.diatomic self = false ->
  let Tc := BaseCycle.T_cold self in
  let Th := BaseCycle.T_hot self in
  let V3 := BaseProcess.V2_from_T2 (a * v1) (Th * 1) (5 / 3) Tc in
  let V4 := BaseProcess.V2_from_T2 (b * V3) (Tc * 1) (5 / 3) Th in
  let P4 := BaseProcess.P2_from_T2 (BaseProcess.P n' (b * V3) (Tc * 1)) (Tc * 1)
              (5 / 3) Th in
  let C3 := Rabs (V3 - v1 * BaseCycle.compression_ratio self) < allowed_error in
  let C4 := Rabs (V4 - v1) < allowed_error in
  let CP := Rabs (P4 - p1) < allowed_error in
  (~ C3 ->
   BaseCycle.Carnot_generate_processes self = Raise (AssertionError assert_V3))
  /\ (C3 -> ~ C4 ->
      BaseCycle.Carnot_generate_processes self = Raise (AssertionError assert_V4))
  /\ (C3 -> C4 -> ~ CP ->
      BaseCycle.Carnot_generate_processes self = Raise (AssertionError assert_P4)).
Proof.
  intros Hn HV HP Ha Hb Hdia Tc Th V3 V4 P4 C3 C4 CP.
  unfold BaseCycle.Carnot_generate_processes. rewrite Hn, HV, HP, Ha, Hb, Hdia.
  fold Tc Th.
  destruct (isothermal_of_three n' Th v1 false) as (q1 & Hq1 & Hst1 & Hc1).
  rewrite Hq1. cbn [bind attr].
  destruct (isothermal_dV_outcome q1 n' _ v1 Th (a * v1) K Hc1 Hst1 K_ge_2)
    as (q1' & Hgen1 & Hst1' & O1).
  rewrite Hgen1. cbn [bind].
  rewrite (out_volume _ _ _ _ _ _ O1), (out_temperature _ _ _ _ _ _ O1). cbn [bind].
  destruct (adiabatic_of_three n' (a * v1) (Th * 1) false)
    as (q2 & Hq2 & Hst2 & Hc2 & Hg2 & Hcv2).
  rewrite Hq2. cbn [bind].
  destruct (adiabatic_dT_outcome q2 n' _ (a * v1) (Th * 1) Tc K Hc2 Hst2 K_ge_2)
    as (q2' & Hgen2 & Hst2' & O2).
  rewrite Hg2, Hcv2 in O2. fold V3 in O2.
  rewrite Hgen2. cbn [bind]. rewrite (out_volume _ _ _ _ _ _ O2). cbn [bind].
  destruct (Rlt_dec (Rabs (V3 - v1 * BaseCycle.compression_ratio self)) allowed_error)
    as [H3 | H3].
  2: { rewrite (Rlt_b_false _ _ H3). cbn [assert bind].
       split; [reflexivity |]. split; intros G; contradiction. }
  rewrite (Rlt_b_true _ _ H3). cbn [assert bind].
  destruct (isothermal_of_three n' Tc V3 false) as (q3 & Hq3 & Hst3 & Hc3).
  rewrite Hq3. cbn [bind].
  destruct (isothermal_dV_outcome q3 n' _ V3 Tc (b * V3) K Hc3 Hst3 K_ge_2)
    as (q3' & Hgen3 & Hst3' & O3).
  rewrite Hgen3. cbn [bind].
  rewrite (out_volume _ _ _ _ _ _ O3), (out_temperature _ _ _ _ _ _ O3). cbn [bind].
  destruct (adiabatic_of_three n' (b * V3) (Tc * 1) false)
    as (q4 & Hq4 & Hst4 & Hc4 & Hg4 & Hcv4).
  rewrite Hq4. cbn [bind].
  destruct (adiabatic_dT_outcome q4 n' _ (b * V3) (Tc * 1) Th K Hc4 Hst4 K_ge_2)
    as (q4' & Hgen4 & Hst4' & O4).
  rewrite Hg4, Hcv4 in O4. fold V4 P4 in O4.
  rewrite Hgen4. cbn [bind]. rewrite (out_volume _ _ _ _ _ _ O4). cbn [bind].
  destruct (Rlt_dec (Rabs (V4 - v1)) allowed_error) as [H4 | H4].
  2: { rewrite (Rlt_b_false _ _ H4). cbn [assert bind].
       split; [intros G; contradiction |].
       split; [reflexivity | intros _ G; contradiction]. }
  rewrite (Rlt_b_true _ _ H4). cbn [assert bind].
  rewrite (out_temperature _ _ _ _ _ _ O4). cbn [bind].
  rewrite (Rlt_b_true (Rabs (Th - Th)) allowed_error)
    by (rewrite Rminus_diag, Rabs_R0; unfold allowed_error; lra).
  cbn [assert bind]. rewrite (out_pressure _ _ _ _ _ _ O4). cbn [bind].
  split; [intros G; contradiction |].
  split; [intros _ G; contradiction |].
  intros _ _ HP4. rewrite (Rlt_b_false _ _ HP4). reflexivity.
Qed.

(** X18: whenever [Carnot.generate_processes] returns its four processes
    (monatomic gas, positive [n], [V1], temperatures and multipliers), each
    process after the first is built from the volume and the temperature
    on which the one before it ended, its start pressure being computed
    from them as [n R T / V].  In exact arithmetic that pressure is the end
    pressure of the process before, so that each process starts on the end
    state of its predecessor; all four carry the same [n]. *)
Theorem carnot_chain_is_connected (self : BaseCycle.t) (n' v1 p1 a b : R)
  (q1 q2 q3 q4 : BaseProcess.t) :
  BaseCycle.n self = Some n' -> BaseCycle.V1 self = Some v1 ->
  BaseCycle.P1 self = Some p1 ->
  BaseCycle.alpha self = Some a -> BaseCycle.beta self = Some b ->
  BaseCycle.diatomic self = false ->
  0 < n' -> 0 < v1 -> 0 < a -> 0 < b ->
  0 < BaseCycle.T_cold self -> 0 < BaseCycle.T_hot self ->
  BaseCycle.Carnot_generate_processes self = Ok [q1; q2; q3; q4] ->
  (hands_over n' q1 q2 /\ hands_over n' q2 q3 /\ hands_over n' q3 q4)
  /\ (continues q1 q2 /\ continues q2 q3 /\ continues q3 q4)
  /\ BaseProcess.n q1 = Some n' /\ BaseProcess.n q2 = Some n'
  /\ BaseProcess.n q3 = Some n' /\ BaseProcess.n q4 = Some n'.
Proof.
  intros Hn HV HP Ha Hb Hdia Hn0 Hv0 Ha0 Hb0 HTc HTh Hps.
  destruct (carnot_closure_decides self n' v1 p1 a b Hn HV HP Ha Hb Hdia)
    as (D3 & D4 & DP).
  match type of D3 with
  | ~ ?C -> _ => destruct (Rlt_dec (Rabs (BaseProcess.V2_from_T2 (a * v1)
                    (BaseCycle.T_hot self * 1) (5 / 3) (BaseCycle.T_cold self)
                    - v1 * BaseCycle.compression_ratio self)) allowed_error) as [H3 | H3]
  end;
    [| rewrite (D3 H3) in Hps; discriminate Hps].
  match type of D4 with
  | _ -> ~ Rabs ?x < _ -> _ => destruct (Rlt_dec (Rabs x) allowed_error) as [H4 | H4]
  end;
    [| rewrite (D4 H3 H4) in Hps; discriminate Hps].
  match type of DP with
  | _ -> _ -> ~ Rabs ?x < _ -> _ => destruct (Rlt_dec (Rabs x) allowed_error) as [HP4 | HP4]
  end;
    [| rewrite (DP H3 H4 HP4) in Hps; discriminate Hps].
  destruct (carnot_chain self n' v1 p1 a b Hn HV HP Ha Hb Hdia Hn0 Hv0 Ha0 Hb0 HTc HTh
              H3 H4 HP4)
    as (r1 & r2 & r3 & r4 & Hps' & Hh & C1 & C2 & C3 & Hns).
  rewrite Hps in Hps'. injection Hps' as -> -> -> ->.
  split; [exact Hh |]. split; [split; [exact C1 | split; [exact C2 | exact C3]] |].
  exact Hns.
Qed.

Lemma carnot_example_closure (r : R) :
  0 < r ->
  let V3 := BaseProcess.V2_from_T2 (carnot_alpha r * 0.01) (500 * 1) (5 / 3) 300 in
  V3 = 0.01 * r
  /\ BaseProcess.V2_from_T2 (carnot_beta r * V3) (300 * 1) (5 / 3) 500 = 0.01
  /\ BaseProcess.P2_from_T2 (BaseProcess.P 1 (carnot_beta r * V3) (300 * 1)) (300 * 1)
       (5 / 3) 500 = carnot_p0.
Proof.
  intros Hr. pose proof carnot_x_pos as Hx. pose proof R_gas_pos as HR.
  assert (H500 : Rpower (500 * 1 / 300) carnot_e = / carnot_x)
    by (rewrite Rmult_1_r; exact carnot_y).
  assert (H300 : Rpower (300 * 1 / 500) carnot_e = carnot_x)
    by (rewrite Rmult_1_r; reflexivity).
  assert (HV3 : BaseProcess.V2_from_T2 (carnot_alpha r * 0.01) (500 * 1) (5 / 3) 300
                = 0.01 * r).
  { unfold BaseProcess.V2_from_T2. fold carnot_e. rewrite H500. unfold carnot_alpha.
    field. lra. }
  cbv zeta. rewrite HV3. split; [reflexivity |]. split.
  - unfold BaseProcess.V2_from_T2. fold carnot_e. rewrite H300. unfold carnot_beta.
    rewrite carnot_y. field. lra.
  - unfold BaseProcess.P2_from_T2, BaseProcess.P, carnot_p0, carnot_beta.
    replace (5 / 3 / (5 / 3 - 1)) with (carnot_e + 1) by (unfold carnot_e; field; lra).
    rewrite Rpower_succ by lra.
    replace (500 / (300 * 1)) with (500 / 300) by lra.
    rewrite carnot_y. field. lra.
Qed.

Lemma carnot_chain_is_connected_witness :
  exists q1 q2 q3 q4,
    BaseCycle.Carnot_generate_processes (carnot_self 3) = Ok [q1; q2; q3; q4]
    /\ hands_over 1 q1 q2 /\ hands_over 1 q2 q3 /\ hands_over 1 q3 q4
    /\ continues q1 q2 /\ continues q2 q3 /\ continues q3 q4.
Proof.
  assert (H3 : 0 < 3) by lra.
  destruct (carnot_example_closure 3 H3) as (HV3 & HV4 & HP4). cbv zeta in HV3, HV4, HP4.
  pose proof carnot_x_pos as Hx.
  assert (Hz : Rabs 0 < allowed_error) by (rewrite Rabs_R0; unfold allowed_error; lra).
  assert (Ha : 0 < carnot_alpha 3) by (unfold carnot_alpha; nra).
  assert (Hb : 0 < carnot_beta 3).
  { unfold carnot_beta. rewrite carnot_y.
    apply Rmult_lt_0_compat; [lra | apply Rinv_0_lt_compat; exact Hx]. }
  assert (H300 : 0 < BaseCycle.T_cold (carnot_self 3)) by (change (0 < 300); lra).
  assert (H500 : 0 < BaseCycle.T_hot (carnot_self 3)) by (change (0 < 500); lra).
  assert (H001 : 0 < 0.01) by lra.
  destruct (carnot_processes (carnot_self 3) 1 0.01 carnot_p0 (carnot_alpha 3)
              (carnot_beta 3) eq_refl eq_refl eq_refl eq_refl eq_refl eq_refl)
    as (q1 & q2 & q3 & q4 & Hps & _);
    cbn [carnot_self carnot_self1 BaseCycle.T_cold BaseCycle.T_hot
           BaseCycle.compression_ratio BaseCycle.with_alpha_beta BaseCycle.with_state
           BaseCycle.with_title].
  - rewrite HV3. replace (0.01 * 3 - 0.01 * 3) with 0 by lra. exact Hz.
  - rewrite HV4. replace (0.01 - 0.01) with 0 by lra. exact Hz.
  - rewrite HP4. replace (carnot_p0 - carnot_p0) with 0 by lra. exact Hz.
  - destruct (carnot_chain_is_connected (carnot_self 3) 1 0.01 carnot_p0 (carnot_alpha 3)
                (carnot_beta 3) q1 q2 q3 q4 eq_refl eq_refl eq_refl eq_refl eq_refl
                eq_refl Rlt_0_1 H001 Ha Hb H300 H500 Hps)
      as ((G1 & G2 & G3) & (C1 & C2 & C3) & _).
    exists q1, q2, q3, q4.
    split; [exact Hps |]. split; [exact G1 |]. split; [exact G2 |]. split; [exact G3 |].
    split; [exact C1 |]. split; [exact C2 | exact C3].
Defined.

(** ** Labels *)

Lemma find_missing_title (self p : BaseProcess.t) :
  BaseProcess._find_missing self = Ok p ->
  BaseProcess.title p = BaseProcess.title self.
Proof.
  unfold BaseProcess._find_missing.
  destruct (BaseProcess.P1 self), (BaseProcess.V1 self), (BaseProcess.T1 self),
    (BaseProcess.n self); cbn; intros H; try discriminate;
    injection H as <-; reflexivity.
Qed.

Lemma constructed_title (q : BaseProcess.t) (g n P1 V1 T1 : option R)
  (monatomic diatomic : bool) (gas : GasArg) :
  Isothermal n T1 V1 P1 monatomic diatomic gas = Ok q
  \/ Isobaric n P1 T1 V1 monatomic diatomic gas = Ok q
  \/ Isochoric n V1 T1 P1 monatomic diatomic gas = Ok q
  \/ Adiabatic g n P1 V1 T1 monatomic diatomic gas = Ok q ->
  BaseProcess.class q <> Class.BaseProcess
  /\ BaseProcess.title q = class_title (BaseProcess.class q).
Proof.
  unfold Isothermal, Isobaric, Isochoric, Adiabatic.
  intros [H | [H | [H | H]]];
    pose proof (find_missing_title _ _ H) as Ht;
    apply find_missing_preserves in H; destruct H as (Hc & _);
    rewrite Hc, Ht; try (destruct g); destruct monatomic, diatomic;
    (split; [discriminate | reflexivity]).
Qed.

(** X19: the label [process_label] gives a generated process of one of the
    four subclasses.  When the volume array ends above its first entry the
    label is the shortened title followed by " ekspansjon"; otherwise an
    isochoric process is labelled "Isokor process" and the others get
    " kompresjon".  The shortened title is "Isoterm" and "Adiabatisk", but
    "Iso" for isobaric and isochoric processes alike, since three letters
    are cut from "Isobar" and "Isokor". *)
Theorem process_label_of_generated (q p' : BaseProcess.t) (g n P1 V1 T1 : option R)
  (monatomic diatomic : bool) (gas : GasArg) (m : Target) (n' p1 v1 t1 x2 : R)
  (steps : nat) :
  Isothermal n T1 V1 P1 monatomic diatomic gas = Ok q
  \/ Isobaric n P1 T1 V1 monatomic diatomic gas = Ok q
  \/ Isochoric n V1 T1 P1 monatomic diatomic gas = Ok q
  \/ Adiabatic g n P1 V1 T1 monatomic diatomic gas = Ok q ->
  state q n' p1 v1 t1 ->
  generate m q (Some x2) steps = Ok p' ->
  exists d v_start v_end,
    BaseProcess.data p' = Some d
    /\ index0 (BaseProcess.volume d) = Ok v_start
    /\ index_last (BaseProcess.volume d) = Ok v_end
    /\ BaseCycle.process_label p'
       = Ok (if Rlt_b v_start v_end then
               match BaseProcess.class q with
               | Class.Isothermal => "Isoterm ekspansjon"
               | Class.Adiabatic => "Adiabatisk ekspansjon"
               | _ => "Iso ekspansjon"
               end
             else
               match BaseProcess.class q with
               | Class.Isothermal => "Isoterm kompresjon"
               | Class.Isochoric => "Isokor process"
               | Class.Adiabatic => "Adiabatisk kompresjon"
               | _ => "Iso kompresjon"
               end)%string.
Proof.
  intros Hctor Hst Hgen.
  destruct (constructed_title q g n P1 V1 T1 monatomic diatomic gas Hctor) as (Hnb & Ht).
  pose proof (generate_succeeds_inv q p' m n' p1 v1 t1 x2 steps Hst Hgen) as Hsteps.
  destruct (generate_data q m n' p1 v1 t1 x2 steps Hst Hsteps) as (d & Hgen0 & HV & _).
  rewrite Hgen0 in Hgen. injection Hgen as <-.
  pose proof (path_nonempty q m n' p1 v1 t1 x2 steps Hsteps) as Hs.
  exists d. eexists. eexists.
  split; [reflexivity |].
  rewrite HV. split; [apply index0_map; exact Hs |].
  split; [apply index_last_map; exact Hs |].
  unfold BaseCycle.process_label, trajectory.
  cbn [BaseProcess.data BaseProcess.with_data BaseProcess.title BaseProcess.class bind].
  rewrite HV, (index_last_map _ _ Hs), (index0_map _ _ Hs). cbn [bind].
  rewrite Ht.
  destruct (BaseProcess.class q); [contradiction | | | |]; cbn;
    destruct (Rlt_b _ _); reflexivity.
Qed.

Lemma process_label_of_generated_witness :
  exists q p',
    Isobaric (Some 1) None (Some 300) (Some 1) false false gas_none = Ok q
    /\ BaseProcess.generate_data_from_dV q (Some 2) K = Ok p'
    /\ BaseCycle.process_label p' = Ok "Iso ekspansjon"%string.
Proof.
  pose (q := BaseProcess.with_state
               (BaseProcess.with_title
                  (BaseProcess.__init__ Class.Isobaric (Some 1) None (Some 1) (Some 300)
                     false false gas_none) "Isobar prosess")
               (Some 1) (Some (BaseProcess.P 1 1 300)) (Some 1) (Some 300)).
  assert (Hq : Isobaric (Some 1) None (Some 300) (Some 1) false false gas_none = Ok q)
    by reflexivity.
  assert (Hst : state q 1 (BaseProcess.P 1 1 300) 1 300) by (repeat split).
  assert (Hone : (1 <= K)%nat) by (unfold K; lia).
  destruct (generate_end q to_V 1 (BaseProcess.P 1 1 300) 1 300 2 K Hst Hone)
    as (d & Hgen & Hve & _).
  cbn [generate] in Hgen.
  exists q, (BaseProcess.with_data q d). split; [exact Hq |]. split; [exact Hgen |].
  destruct (process_label_of_generated q (BaseProcess.with_data q d) None (Some 1) None
              (Some 1) (Some 300) false false gas_none to_V 1 (BaseProcess.P 1 1 300) 1
              300 2 K (or_intror (or_introl Hq)) Hst Hgen)
    as (d' & v_start & v_end & Hd & H0 & Hl & Hlabel).
  cbn in Hd. injection Hd as <-.
  destruct (generate_data q to_V 1 (BaseProcess.P 1 1 300) 1 300 2 K Hst Hone)
    as (d2 & Hgen2 & HV & _).
  cbn [generate] in Hgen2. rewrite Hgen in Hgen2. injection Hgen2 as <-.
  cbn [path q BaseProcess.class BaseProcess.with_state BaseProcess.with_title
         BaseProcess.__init__ swept fV] in HV.
  pose proof (linspace_nonempty 1 2 K Hone) as Hs.
  rewrite HV in H0, Hl.
  rewrite (index0_map _ _ Hs) in H0. rewrite (index_last_map _ _ Hs) in Hl.
  rewrite (hd_linspace 1 2 K Hone) in H0. rewrite (last_linspace 1 2 K K_ge_2) in Hl.
  injection H0 as H0. injection Hl as Hl.
  rewrite Hlabel, <- H0, <- Hl, Rlt_b_true by lra. reflexivity.
Defined.

(** ** Completion of a cycle's state *)

(** X20: [_find_missing] of a cycle given exactly three non-zero values of
    P1, V1, T, n computes the fourth from [P V = n R T] and keeps the
    others; the completed values obey [P1 V1 = n R T]. *)
Theorem cycle_state_completion (self : BaseCycle.t) :
  (defined (BaseCycle.P1 self) + defined (BaseCycle.V1 self)
   + defined (BaseCycle.T self) + defined (BaseCycle.n self) = 3)%nat ->
  (forall x, In (Some x) [BaseCycle.P1 self; BaseCycle.V1 self; BaseCycle.T self;
                          BaseCycle.n self] -> x <> 0) ->
  exists c p v t n',
    BaseCycle._find_missing self = Ok c
    /\ BaseCycle.P1 c = Some p /\ BaseCycle.V1 c = Some v
    /\ BaseCycle.T c = Some t /\ BaseCycle.n c = Some n'
    /\ (forall x, BaseCycle.P1 self = Some x -> p = x)
    /\ (forall x, BaseCycle.V1 self = Some x -> v = x)
    /\ (forall x, BaseCycle.T self = Some x -> t = x)
    /\ (forall x, BaseCycle.n self = Some x -> n' = x)
    /\ p * v = n' * R_gas * t
    /\ BaseCycle.class c = BaseCycle.class self
    /\ BaseCycle.gamma c = BaseCycle.gamma self.
Proof.
  pose proof R_gas_pos as HR. unfold BaseCycle._find_missing.
  destruct (BaseCycle.P1 self) as [p |], (BaseCycle.V1 self) as [v |],
    (BaseCycle.T self) as [t |], (BaseCycle.n self) as [n' |];
    cbn; intros Hc Hnz; try lia.
  - assert (t <> 0) by (apply Hnz; auto).
    eexists. exists p, v, t, (p * v / (t * R_gas)). split; [reflexivity |]. cbn.
    repeat split; try (intros x E; injection E as <-; reflexivity); try discriminate.
    field. lra.
  - assert (n' <> 0) by (apply Hnz; auto).
    eexists. exists p, v, (p * v / (n' * R_gas)), n'. split; [reflexivity |]. cbn.
    repeat split; try (intros x E; injection E as <-; reflexivity); try discriminate.
    field. lra.
  - assert (p <> 0) by (apply Hnz; auto).
    eexists. exists p, (n' * R_gas * t / p), t, n'. split; [reflexivity |]. cbn.
    repeat split; try (intros x E; injection E as <-; reflexivity); try discriminate.
    field. lra.
  - assert (v <> 0) by (apply Hnz; auto).
    eexists. exists (n' * R_gas * t / v), v, t, n'. split; [reflexivity |]. cbn.
    repeat split; try (intros x E; injection E as <-; reflexivity); try discriminate.
    field. lra.
Qed.

Lemma cycle_state_completion_witness :
  exists c p,
    BaseCycle._find_missing
      (BaseCycle.mk CycleClass.Carnot (Some 0.01) None (Some 500) (Some 1) 3 500 300
         true false (5 / 3) (3 / 2 * R_gas) (5 / 2 * R_gas) None None None None ""
         None None None None) = Ok c
    /\ BaseCycle.P1 c = Some p /\ p * 0.01 = 1 * R_gas * 500.
Proof.
  destruct (cycle_state_completion
              (BaseCycle.mk CycleClass.Carnot (Some 0.01) None (Some 500) (Some 1) 3 500
                 300 true false (5 / 3) (3 / 2 * R_gas) (5 / 2 * R_gas) None None None
                 None "" None None None None))
    as (c & p & v & t & n' & H & HP & _ & _ & _ & _ & Hv & Ht & Hn & Hlaw & _).
  - reflexivity.
  - cbn. intros x [E | [E | [E | [E | []]]]]; try discriminate; injection E as <-; lra.
  - exists c, p. split; [exact H |]. split; [exact HP |].
    rewrite <- (Hv 0.01 eq_refl), <- (Ht 500 eq_refl), <- (Hn 1 eq_refl). exact Hlaw.
Defined.

(** ** Direction of the energy flows *)

Lemma Rpower_lt_1 (x y : R) : 0 < x < 1 -> 0 < y -> Rpower x y < 1.
Proof.
  intros [Hx0 Hx1] Hy. unfold Rpower. rewrite <- exp_0. apply exp_increasing.
  assert (Hln : ln x < 0) by (rewrite <- ln_1; apply ln_increasing; lra).
  nra.
Qed.

(** X21: an isothermal expansion ([V2 > V1 > 0], positive [n] and [T1])
    does positive work and absorbs the same positive heat; an adiabatic
    expansion with [gamma > 1] and [Cv > 0] ends colder and at lower
    pressure than it started, and its work, paid by the internal energy,
    is positive. *)
Theorem expansion_does_positive_work (p p' : BaseProcess.t) (n' p1 v1 t1 V2 : R)
  (steps : nat) (d : BaseProcess.Data) :
  state p n' p1 v1 t1 ->
  0 < n' -> 0 < p1 -> 0 < v1 -> 0 < t1 -> v1 < V2 -> (2 <= steps)%nat ->
  BaseProcess.generate_data_from_dV p (Some V2) steps = Ok p' ->
  BaseProcess.data p' = Some d ->
  (BaseProcess.class p = Class.Isothermal ->
   0 < BaseProcess.work_done_by d /\ 0 < BaseProcess.heat_absorbed d)
  /\ (BaseProcess.class p = Class.Adiabatic ->
      1 < BaseProcess.gamma p -> 0 < BaseProcess.Cv p ->
      0 < BaseProcess.work_done_by d
      /\ exists pe te,
          pressure_end p' = Ok pe /\ temperature_end p' = Ok te
          /\ pe < p1 /\ te < t1).
Proof.
  intros Hst Hn Hp Hv Ht HV Hsteps Hgen Hd. pose proof R_gas_pos as HR.
  assert (H1 : (1 <= steps)%nat) by lia.
  destruct (generate_end p to_V n' p1 v1 t1 V2 steps Hst H1)
    as (d0 & Hgen0 & _ & Hpe & Hte & HW & _ & HQ & _).
  cbn [generate] in Hgen0. rewrite Hgen0 in Hgen. injection Hgen as <-.
  cbn in Hd. injection Hd as <-.
  rewrite HW, HQ. unfold work_by, heat_in.
  split.
  - intros Hc. unfold path. rewrite Hc. cbn [swept fV fT].
    rewrite (last_linspace v1 V2 steps Hsteps).
    assert (Hln : 0 < ln (V2 / v1)).
    { rewrite <- ln_1. apply ln_increasing; [lra |].
      apply (Rmult_lt_reg_r v1); [exact Hv |].
      replace (V2 / v1 * v1) with V2 by (field; lra). lra. }
    assert (Hw : 0 < R_gas * n' * t1 * ln (V2 / v1)).
    { apply Rmult_lt_0_compat; [| exact Hln].
      apply Rmult_lt_0_compat; [apply Rmult_lt_0_compat |]; assumption. }
    split; lra.
  - intros Hc Hg Hcv. rewrite Hpe, Hte. unfold path. rewrite Hc. cbn [swept fV fP fT].
    rewrite (last_linspace v1 V2 steps Hsteps).
    unfold BaseProcess.P2_from_V2, BaseProcess.T2_from_V2.
    assert (Hq : 0 < v1 / V2 < 1).
    { split; [apply Rdiv_lt_0_compat; lra |].
      apply (Rmult_lt_reg_r V2); [lra |].
      replace (v1 / V2 * V2) with v1 by (field; lra). lra. }
    pose proof (Rpower_lt_1 (v1 / V2) (BaseProcess.gamma p) Hq) as HP1.
    pose proof (Rpower_lt_1 (v1 / V2) (BaseProcess.gamma p - 1) Hq) as HT1.
    pose proof (Rpower_pos (v1 / V2) (BaseProcess.gamma p)) as HP0.
    pose proof (Rpower_pos (v1 / V2) (BaseProcess.gamma p - 1)) as HT0.
    assert (HP2 : Rpower (v1 / V2) (BaseProcess.gamma p) < 1) by (apply HP1; lra).
    assert (HT2 : Rpower (v1 / V2) (BaseProcess.gamma p - 1) < 1) by (apply HT1; lra).
    split.
    + assert (Hncv : 0 < n' * BaseProcess.Cv p) by (apply Rmult_lt_0_compat; assumption).
      assert (Hdrop : 0 < t1 - t1 * Rpower (v1 / V2) (BaseProcess.gamma p - 1)) by nra.
      assert (Hprod : 0 < n' * BaseProcess.Cv p
                          * (t1 - t1 * Rpower (v1 / V2) (BaseProcess.gamma p - 1)))
        by (apply Rmult_lt_0_compat; assumption).
      lra.
    + eexists. eexists. split; [reflexivity |]. split; [reflexivity |]. split; nra.
Qed.

Lemma expansion_does_positive_work_witness :
  exists p p' d,
    Isothermal (Some 1) (Some 300) (Some 1) None false false gas_none = Ok p
    /\ BaseProcess.generate_data_from_dV p (Some 2) K = Ok p'
    /\ BaseProcess.data p' = Some d
    /\ 0 < BaseProcess.work_done_by d /\ 0 < BaseProcess.heat_absorbed d.
Proof.
  pose (p := BaseProcess.with_state
               (BaseProcess.with_title
                  (BaseProcess.__init__ Class.Isothermal (Some 1) None (Some 1) (Some 300)
                     false false gas_none) "Isotermisk prosess")
               (Some 1) (Some (BaseProcess.P 1 1 300)) (Some 1) (Some 300)).
  assert (Hst : state p 1 (BaseProcess.P 1 1 300) 1 300) by (repeat split).
  assert (Hone : (1 <= K)%nat) by (unfold K; lia).
  destruct (generate_data p to_V 1 (BaseProcess.P 1 1 300) 1 300 2 K Hst Hone)
    as (d & Hgen & _).
  cbn [generate] in Hgen.
  exists p, (BaseProcess.with_data p d), d.
  split; [reflexivity |]. split; [exact Hgen |]. split; [reflexivity |].
  apply (expansion_does_positive_work p (BaseProcess.with_data p d) 1
           (BaseProcess.P 1 1 300) 1 300 2 K d Hst);
    try (unfold BaseProcess.P, R_gas; lra);
    [exact K_ge_2 | exact Hgen | reflexivity | reflexivity].
Defined.

(** ** The tape stays on the ideal-gas surface *)

Ltac positivity :=
  repeat first
    [ assumption
    | exact R_gas_pos
    | apply Rpower_pos
    | apply Rdiv_lt_0_compat
    | apply Rinv_0_lt_compat
    | apply Rmult_lt_0_compat
    | lra ].

Lemma path_values_pos (p : BaseProcess.t) (m : Target) (n' p1 v1 t1 x2 : R) (steps : nat)
  (x : R) :
  0 < n' -> 0 < p1 -> 0 < v1 -> 0 < t1 -> 0 < x ->
  let w := path p m n' p1 v1 t1 x2 steps in
  0 < fV w x /\ 0 < fP w x /\ 0 < fT w x.
Proof.
  intros Hn Hp Hv Ht Hx. unfold path, constant_path.
  destruct (BaseProcess.class p), m; cbn [fV fP fT];
    unfold BaseProcess.P, BaseProcess.V, BaseProcess.T, BaseProcess.P2_from_V2,
      BaseProcess.T2_from_V2, BaseProcess.V2_from_P2, BaseProcess.T2_from_P2,
      BaseProcess.P2_from_T2, BaseProcess.V2_from_T2;
    (split; [| split]); positivity.
Qed.

Lemma tape_constructors (n' p v t : R) (gas : GasArg) :
  (exists q,
      Adiabatic None (Some n') (Some p) (Some v) (Some t) false false gas = Ok q
      /\ state q n' p v t /\ BaseProcess.gamma q = 5 / 3)
  /\ (exists q,
      Isobaric (Some n') (Some p) (Some t) (Some v) false false gas = Ok q
      /\ state q n' p v t /\ BaseProcess.gamma q = 5 / 3)
  /\ (exists q,
      Isochoric (Some n') (Some v) (Some t) (Some p) false false gas = Ok q
      /\ state q n' p v t /\ BaseProcess.gamma q = 5 / 3).
Proof.
  unfold Adiabatic, Isobaric, Isochoric, BaseProcess._find_missing. cbn.
  repeat split; eexists; (split; [reflexivity |]); repeat split.
Qed.

(** Recording a process generated from the current state of the tape. *)
Lemma record_generated (g : IdealGas.t) (q : BaseProcess.t) (m : Target)
  (p v t x2 : R) :
  state q (IdealGas.n g) p v t -> 1 < BaseProcess.gamma q ->
  0 < IdealGas.n g -> 0 < p -> 0 < v -> 0 < t ->
  p * v = IdealGas.n g * R_gas * t -> 0 < x2 ->
  exists q' p' v' t',
    generate m q (Some x2) K = Ok q'
    /\ IdealGas.current (IdealGas.P (IdealGas.record g q')) = Ok (Some p')
    /\ IdealGas.current (IdealGas.V (IdealGas.record g q')) = Ok (Some v')
    /\ IdealGas.current (IdealGas.T (IdealGas.record g q')) = Ok (Some t')
    /\ 0 < p' /\ 0 < v' /\ 0 < t' /\ p' * v' = IdealGas.n g * R_gas * t'
    /\ List.length (IdealGas.P (IdealGas.record g q')) = (List.length (IdealGas.P g) + K)%nat
    /\ List.length (IdealGas.V (IdealGas.record g q')) = (List.length (IdealGas.V g) + K)%nat
    /\ List.length (IdealGas.T (IdealGas.record g q')) = (List.length (IdealGas.T g) + K)%nat.
Proof.
  intros Hst Hg Hn Hp Hv Ht Hlaw Hx.
  assert (Hone : (1 <= K)%nat) by (unfold K; lia).
  destruct (generate_data q m (IdealGas.n g) p v t x2 K Hst Hone)
    as (d & Hgen & HVd & HPd & HTd & _).
  set (w := path q m (IdealGas.n g) p v t x2 K) in *.
  assert (Hs : swept w <> []) by (apply path_nonempty; exact Hone).
  assert (Hlen : List.length (swept w) = K) by apply path_length.
  assert (Hend : 0 < last (swept w) 0).
  { apply (path_pos q m (IdealGas.n g) p v t x2 K); try assumption.
    apply last_In. exact Hs. }
  destruct (path_values_pos q m (IdealGas.n g) p v t x2 K (last (swept w) 0)
              Hn Hp Hv Ht Hend) as (HV' & HP' & HT').
  pose proof (path_ideal q m (IdealGas.n g) p v t x2 K (last (swept w) 0)
                Hn Hp Hv Ht Hlaw Hg Hend) as Hideal.
  fold w in HV', HP', HT', Hideal. cbv zeta in HV', HP', HT', Hideal.
  assert (Hne : forall f : R -> R, map f (swept w) <> []).
  { intros f E. apply map_eq_nil in E. exact (Hs E). }
  exists (BaseProcess.with_data q d), (fP w (last (swept w) 0)),
    (fV w (last (swept w) 0)), (fT w (last (swept w) 0)).
  split; [exact Hgen |].
  cbn [IdealGas.record IdealGas.P IdealGas.V IdealGas.T BaseProcess.data
         BaseProcess.with_data option_map].
  rewrite HVd, HPd, HTd.
  rewrite !current_append by apply Hne.
  rewrite !last_map by exact Hs.
  split; [reflexivity |]. split; [reflexivity |]. split; [reflexivity |].
  split; [exact HP' |]. split; [exact HV' |]. split; [exact HT' |].
  split; [lra |].
  unfold IdealGas.append. rewrite !length_app, !length_map, Hlen.
  repeat split.
Qed.

(** X22: the tape of [IdealGas] stays on the ideal-gas surface.  When its
    current state is positive and obeys [P V = n R T], every transition
    called with one positive target succeeds, extends each history by [K]
    entries, keeps [n], and leaves a current state that is again positive
    and obeys [P V = n R T]. *)
Theorem tape_stays_on_ideal_gas_surface (mv : Move) (g : IdealGas.t) (p v t x2 : R) :
  IdealGas.current (IdealGas.P g) = Ok (Some p) ->
  IdealGas.current (IdealGas.V g) = Ok (Some v) ->
  IdealGas.current (IdealGas.T g) = Ok (Some t) ->
  0 < IdealGas.n g -> 0 < p -> 0 < v -> 0 < t ->
  p * v = IdealGas.n g * R_gas * t -> 0 < x2 ->
  exists g' p' v' t',
    move mv g x2 = Ok g'
    /\ IdealGas.current (IdealGas.P g') = Ok (Some p')
    /\ IdealGas.current (IdealGas.V g') = Ok (Some v')
    /\ IdealGas.current (IdealGas.T g') = Ok (Some t')
    /\ IdealGas.n g' = IdealGas.n g
    /\ 0 < p' /\ 0 < v' /\ 0 < t' /\ p' * v' = IdealGas.n g' * R_gas * t'
    /\ List.length (IdealGas.P g') = (List.length (IdealGas.P g) + K)%nat
    /\ List.length (IdealGas.V g') = (List.length (IdealGas.V g) + K)%nat
    /\ List.length (IdealGas.T g') = (List.length (IdealGas.T g) + K)%nat.
Proof.
  intros HP HV HT Hn Hp Hv Ht Hlaw Hx.
  destruct (tape_constructors (IdealGas.n g) p v t (gas_material (IdealGas.material g)))
    as ((qa & Hqa & Hsta & Hga) & (qb & Hqb & Hstb & Hgb) & (qc & Hqc & Hstc & Hgc)).
  assert (H53 : 1 < 5 / 3) by lra.
  rewrite <- Hga in H53 at 1. clear Hga.
  assert (H53b : 1 < BaseProcess.gamma qb) by (rewrite Hgb; lra).
  assert (H53c : 1 < BaseProcess.gamma qc) by (rewrite Hgc; lra).
  assert (Hstep : forall (q : BaseProcess.t) (m : Target),
             state q (IdealGas.n g) p v t -> 1 < BaseProcess.gamma q ->
             exists q' p' v' t',
               generate m q (Some x2) K = Ok q'
               /\ IdealGas.current (IdealGas.P (IdealGas.record g q')) = Ok (Some p')
               /\ IdealGas.current (IdealGas.V (IdealGas.record g q')) = Ok (Some v')
               /\ IdealGas.current (IdealGas.T (IdealGas.record g q')) = Ok (Some t')
               /\ 0 < p' /\ 0 < v' /\ 0 < t' /\ p' * v' = IdealGas.n g * R_gas * t'
               /\ List.length (IdealGas.P (IdealGas.record g q'))
                  = (List.length (IdealGas.P g) + K)%nat
               /\ List.length (IdealGas.V (IdealGas.record g q'))
                  = (List.length (IdealGas.V g) + K)%nat
               /\ List.length (IdealGas.T (IdealGas.record g q'))
                  = (List.length (IdealGas.T g) + K)%nat).
  { intros q m Hst Hg. apply (record_generated g q m p v t x2); assumption. }
  unfold move, IdealGas.isothermal, IdealGas.isobaric, IdealGas.isochoric,
    IdealGas.adiabatic.
  rewrite HP, HV, HT. cbn [bind]. rewrite Hqa, Hqb, Hqc. cbn [bind].
  destruct mv;
    match goal with
    | |- context [BaseProcess.generate_data_from_dV ?q _ K] =>
        destruct (Hstep q to_V) as (q' & p' & v' & t' & Hgen & Hrest)
    | |- context [BaseProcess.generate_data_from_dP ?q _ K] =>
        destruct (Hstep q to_P) as (q' & p' & v' & t' & Hgen & Hrest)
    | |- context [BaseProcess.generate_data_from_dT ?q _ K] =>
        destruct (Hstep q to_T) as (q' & p' & v' & t' & Hgen & Hrest)
    end; try assumption;
    cbn [generate] in Hgen; rewrite Hgen; cbn [bind];
    exists (IdealGas.record g q'), p', v', t';
    (split; [reflexivity |]);
    destruct Hrest as (H1 & H2 & H3 & H4 & H5 & H6 & H7 & H8 & H9 & H10);
    cbn [IdealGas.record IdealGas.n] in *;
    repeat split; assumption.
Qed.

Lemma tape_stays_on_ideal_gas_surface_witness :
  let g := IdealGas.mk [Some R_gas] [Some 1] [Some 1] 1
             (mkMaterial "N2O2" 29 21 29 (7 / 5)) "Air" 29 21 29 (7 / 5) "N2O2" [] in
  exists g' p' v' t',
    IdealGas.adiabatic g None (Some 2) None = Ok g'
    /\ IdealGas.current (IdealGas.P g') = Ok (Some p')
    /\ IdealGas.current (IdealGas.V g') = Ok (Some v')
    /\ IdealGas.current (IdealGas.T g') = Ok (Some t')
    /\ p' * v' = 1 * R_gas * t'.
Proof.
  intros g. pose proof R_gas_pos as HR.
  assert (Hone : 0 < IdealGas.n g) by (change (0 < 1); lra).
  assert (Hlaw0 : R_gas * 1 = IdealGas.n g * R_gas * 1)
    by (change (R_gas * 1 = 1 * R_gas * 1); lra).
  destruct (tape_stays_on_ideal_gas_surface adiabatic_V g R_gas 1 1 2
              eq_refl eq_refl eq_refl Hone HR Rlt_0_1 Rlt_0_1 Hlaw0 Rlt_0_2)
    as (g' & p' & v' & t' & Hm & HP & HV & HT & Hn & _ & _ & _ & Hlaw & _).
  exists g', p', v', t'.
  split; [exact Hm |]. split; [exact HP |]. split; [exact HV |]. split; [exact HT |].
  rewrite Hn in Hlaw. exact Hlaw.
Defined.

(** ** The Carnot cycle in general *)








(** ** The Carnot cycle of the default gas *)

Lemma carnot_V3_assertion (self : BaseCycle.t) (n' v1 a : R) :
  BaseCycle.n self = Some n' -> BaseCycle.V1 self = Some v1 ->
  BaseCycle.alpha self = Some a -> BaseCycle.diatomic self = false ->
  ~ Rabs (BaseProcess.V2_from_T2 (a * v1) (BaseCycle.T_hot self * 1) (5 / 3)
            (BaseCycle.T_cold self)
          - v1 * BaseCycle.compression_ratio self) < allowed_error ->
  BaseCycle.Carnot_generate_processes self = Raise (AssertionError assert_V3).
Proof.
  intros Hn HV Ha Hdia HV3.
  unfold BaseCycle.Carnot_generate_processes. rewrite Hn, HV, Ha, Hdia.
  destruct (isothermal_of_three n' (BaseCycle.T_hot self) v1 false)
    as (q1 & Hq1 & Hst1 & Hc1).
  rewrite Hq1. cbn [bind attr].
  destruct (isothermal_dV_outcome q1 n' _ v1 _ (a * v1) K Hc1 Hst1 K_ge_2)
    as (q1' & Hgen1 & Hst1' & O1).
  rewrite Hgen1. cbn [bind].
  rewrite (out_volume _ _ _ _ _ _ O1), (out_temperature _ _ _ _ _ _ O1). cbn [bind].
  destruct (adiabatic_of_three n' (a * v1) (BaseCycle.T_hot self * 1) false)
    as (q2 & Hq2 & Hst2 & Hc2 & Hg2 & Hcv2).
  rewrite Hq2. cbn [bind].
  destruct (adiabatic_dT_outcome q2 n' _ (a * v1) (BaseCycle.T_hot self * 1)
              (BaseCycle.T_cold self) K Hc2 Hst2 K_ge_2)
    as (q2' & Hgen2 & Hst2' & O2).
  rewrite Hg2 in O2.
  rewrite Hgen2. cbn [bind]. rewrite (out_volume _ _ _ _ _ _ O2). cbn [bind].
  rewrite (Rlt_b_false _ _ HV3). cbn [assert bind]. reflexivity.
Qed.

(** X24: a Carnot cycle constructed with neither gas flag takes its
    [gamma] from the table's ["Air"] entry, but its four processes are
    built with the monatomic [5/3].  The second process therefore ends on
    [V3 = r V1 (T_cold/T_hot)**(1/(gamma-1)) (T_hot/T_cold)**(3/2)], and
    whenever that is not within [allowed_error] of [r V1] the construction
    raises the [V3] closure assertion. *)
Theorem carnot_of_default_gas_fails_closure (substances : SubstanceTable)
  (air : Material) (r Th Tc v1 n' : R) :
  lookup substances "Air" = Some air ->
  1 < mat_gamma air -> 0 < Tc -> Tc < Th -> 0 < r -> 0 < v1 -> 0 < n' ->
  ~ Rabs (r * Rpower (Tc / Th) (1 / (mat_gamma air - 1)) * v1
          * Rpower (Th / Tc) (1 / (5 / 3 - 1)) - v1 * r) < allowed_error ->
  Carnot substances r Th Tc None (Some v1) (Some n') false false
  = Raise (AssertionError assert_V3).
Proof.
  intros Hair Hg HTc HTh Hr Hv Hn HV3.
  set (a := r * Rpower (Tc / Th) (1 / (mat_gamma air - 1))) in *.
  set (b := 1 / r * Rpower (Th / Tc) (1 / (mat_gamma air - 1))).
  assert (H : BaseCycle._calculate_alpha_beta (carnot_of_air air r Th Tc v1 n')
              = Ok (BaseCycle.with_alpha_beta (carnot_of_air air r Th Tc v1 n') a b)).
  { refine (proj2 (proj2 (carnot_alpha_beta (carnot_of_air air r Th Tc v1 n') eq_refl))
              _ _);
      cbn [carnot_of_air BaseCycle.gamma BaseCycle.compression_ratio BaseCycle.T_cold
             BaseCycle.T_hot BaseCycle.with_state BaseCycle.with_title].
    - pose proof (Rpower_pos (Tc / Th) (1 / (mat_gamma air - 1))) as Hx.
      assert (0 < r * Rpower (Tc / Th) (1 / (mat_gamma air - 1))) by positivity. lra.
    - replace (1 / r * Rpower (Th / Tc) (1 / (mat_gamma air - 1)) * r)
        with (Rpower (Th / Tc) (1 / (mat_gamma air - 1))) by (field; lra).
      apply Rpower_gt_1.
      + apply (Rmult_lt_reg_r Tc); [exact HTc |].
        replace (Th / Tc * Tc) with Th by (field; lra). lra.
      + apply Rdiv_lt_0_compat; lra. }
  unfold Carnot, BaseCycle.__init__, select_material. rewrite Hair. cbn [bind].
  match goal with
  | |- bind (BaseCycle._find_missing ?s) _ = _ =>
      change (BaseCycle._find_missing s) with (Ok (carnot_of_air air r Th Tc v1 n'))
  end.
  cbn [bind]. rewrite H. cbn [bind].
  unfold BaseCycle.run_cycle, BaseCycle.generate_processes.
  change (BaseCycle.class (BaseCycle.with_alpha_beta (carnot_of_air air r Th Tc v1 n') a b))
    with CycleClass.Carnot.
  cbv iota.
  rewrite (carnot_V3_assertion
             (BaseCycle.with_alpha_beta (carnot_of_air air r Th Tc v1 n') a b) n' v1 a
             eq_refl eq_refl eq_refl eq_refl); [reflexivity |].
  cbn [carnot_of_air BaseCycle.compression_ratio BaseCycle.T_cold BaseCycle.T_hot
         BaseCycle.with_alpha_beta BaseCycle.with_state BaseCycle.with_title].
  unfold BaseProcess.V2_from_T2. rewrite Rmult_1_r. exact HV3.
Qed.

Lemma Rpower_quarter_five_halves :
  Rpower (100 / 400) (1 / (7 / 5 - 1)) = 1 / 32.
Proof.
  pose proof (Rpower_pos (100 / 400) (1 / (7 / 5 - 1))) as Hx.
  assert (H : Rpower (100 / 400) (1 / (7 / 5 - 1)) * Rpower (100 / 400) (1 / (7 / 5 - 1))
              = 1 / 1024).
  { rewrite <- Rpower_plus.
    replace (1 / (7 / 5 - 1) + 1 / (7 / 5 - 1)) with (INR 5) by (simpl; field; lra).
    rewrite Rpower_pow by lra. simpl. lra. }
  nra.
Qed.

Lemma Rpower_four_three_halves :
  Rpower (400 / 100) (1 / (5 / 3 - 1)) = 8.
Proof.
  pose proof (Rpower_pos (400 / 100) (1 / (5 / 3 - 1))) as Hx.
  assert (H : Rpower (400 / 100) (1 / (5 / 3 - 1)) * Rpower (400 / 100) (1 / (5 / 3 - 1))
              = 64).
  { rewrite <- Rpower_plus.
    replace (1 / (5 / 3 - 1) + 1 / (5 / 3 - 1)) with (INR 3) by (simpl; field; lra).
    rewrite Rpower_pow by lra. simpl. lra. }
  nra.
Qed.

Lemma carnot_of_default_gas_fails_closure_witness :
  Carnot [("Air"%string, mkMaterial "N2O2" 29 21 29 (7 / 5))] 8 400 100 None (Some 1)
    (Some 1) false false
  = Raise (AssertionError assert_V3).
Proof.
  apply (carnot_of_default_gas_fails_closure
           [("Air"%string, mkMaterial "N2O2" 29 21 29 (7 / 5))]
           (mkMaterial "N2O2" 29 21 29 (7 / 5)) 8 400 100 1 1 eq_refl);
    cbn [mat_gamma]; try lra.
  rewrite Rpower_quarter_five_halves, Rpower_four_three_halves.
  intros H. apply Rabs_def2 in H. unfold allowed_error in H. lra.
Defined.

(** ** Reversibility *)

Lemma ln_div_swap (a b : R) : 0 < a -> 0 < b -> ln (a / b) = - ln (b / a).
Proof.
  intros Ha Hb. rewrite <- ln_Rinv by (apply Rdiv_lt_0_compat; assumption).
  f_equal. field. lra.
Qed.

Lemma scaled_there_and_back (c a b y : R) :
  0 < a -> 0 < b -> c * Rpower (a / b) y * Rpower (b / a) y = c.
Proof.
  intros Ha Hb. rewrite Rmult_assoc, (Rpower_there_and_back a b y Ha Hb). ring.
Qed.

(** X25: every process a class sweeps itself is reversible.  Generate a
    trajectory from a positive start state with [P1 V1 = n R T1] to a
    positive target, then start a second process of the same class and
    constants on its end state and drive the same variable back to its
    start value: the second trajectory ends exactly on [P1], [V1], [T1],
    and over the two runs work and heat each sum to zero. *)
Theorem swept_processes_are_reversible (p q p' q' : BaseProcess.t) (m : Target)
  (n' p1 v1 t1 x2 pe ve te : R) (steps steps' : nat) (d d' : BaseProcess.Data) :
  sweeps (BaseProcess.class p) m = true ->
  state p n' p1 v1 t1 ->
  0 < n' -> 0 < p1 -> 0 < v1 -> 0 < t1 -> p1 * v1 = n' * R_gas * t1 ->
  1 < BaseProcess.gamma p -> 0 < x2 ->
  (2 <= steps)%nat -> (2 <= steps')%nat ->
  generate m p (Some x2) steps = Ok p' ->
  BaseProcess.data p' = Some d ->
  pressure_end p' = Ok pe -> volume_end p' = Ok ve -> temperature_end p' = Ok te ->
  BaseProcess.class q = BaseProcess.class p ->
  BaseProcess.gamma q = BaseProcess.gamma p ->
  BaseProcess.Cv q = BaseProcess.Cv p -> BaseProcess.Cp q = BaseProcess.Cp p ->
  state q n' pe ve te ->
  generate m q (Some (start_of m p1 v1 t1)) steps' = Ok q' ->
  BaseProcess.data q' = Some d' ->
  pressure_end q' = Ok p1 /\ volume_end q' = Ok v1 /\ temperature_end q' = Ok t1
  /\ BaseProcess.work_done_by d + BaseProcess.work_done_by d' = 0
  /\ BaseProcess.heat_absorbed d + BaseProcess.heat_absorbed d' = 0.
Proof.
  intros Hsw Hst Hn Hp Hv Ht Hlaw Hg Hx Hs Hs' Hgen Hd Hpe Hve Hte Hcq Hgq Hcvq Hcpq
    Hstq Hgen' Hd'.
  pose proof R_gas_pos as HR.
  assert (H1 : (1 <= steps)%nat) by lia. assert (H1' : (1 <= steps')%nat) by lia.
  destruct (generate_end p m n' p1 v1 t1 x2 steps Hst H1)
    as (d0 & Hgen0 & Hv0 & Hp0 & Ht0 & Hw0 & _ & Hh0 & _).
  rewrite Hgen in Hgen0. injection Hgen0 as Ep. subst p'.
  cbn [BaseProcess.data BaseProcess.with_data] in Hd. injection Hd as Ed. subst d0.
  rewrite Hp0 in Hpe. injection Hpe as Epe.
  rewrite Hv0 in Hve. injection Hve as Eve.
  rewrite Ht0 in Hte. injection Hte as Ete.
  destruct (generate_end q m n' pe ve te (start_of m p1 v1 t1) steps' Hstq H1')
    as (d0 & Hgen0 & Hv1 & Hp1 & Ht1 & Hw1 & _ & Hh1 & _).
  rewrite Hgen' in Hgen0. injection Hgen0 as Eq. subst q'.
  cbn [BaseProcess.data BaseProcess.with_data] in Hd'. injection Hd' as Ed. subst d0.
  rewrite Hv1, Hp1, Ht1, Hw0, Hw1, Hh0, Hh1.
  clear Hv0 Hp0 Ht0 Hv1 Hp1 Ht1 Hw0 Hw1 Hh0 Hh1 Hgen Hgen'.
  unfold path, work_by, heat_in, start_of, sweeps in *.
  rewrite Hcq, Hgq, Hcvq, Hcpq.
  destruct (BaseProcess.class p), m; try discriminate Hsw;
    cbn [swept fV fP fT] in *;
    rewrite ?(last_linspace _ _ steps Hs) in *;
    rewrite ?(last_linspace _ _ steps' Hs').
  all: assert (Et : t1 = p1 * v1 / (n' * R_gas))
    by (rewrite Hlaw; field; split; lra).
  all: subst pe ve te.
  - (* Isothermal, from a volume *)
    assert (Ha : BaseProcess.P n' v1 (t1 * 1) = p1)
      by (unfold BaseProcess.P; rewrite Et; field; split; lra).
    rewrite (ln_div_swap v1 x2 Hv Hx).
    repeat split; try (f_equal; lra); ring.
  - (* Isothermal, from a pressure *)
    assert (Hb : BaseProcess.V n' p1 (t1 * 1) = v1)
      by (unfold BaseProcess.V; rewrite Et; field; split; lra).
    assert (Hve : 0 < BaseProcess.V n' x2 t1) by (unfold BaseProcess.V; positivity).
    rewrite Hb, (ln_div_swap v1 (BaseProcess.V n' x2 t1) Hv Hve).
    repeat split; try (f_equal; lra); ring.
  - (* Isobaric, from a volume *)
    assert (Hc : BaseProcess.T n' (p1 * 1) v1 = t1)
      by (unfold BaseProcess.T; rewrite Et; field; split; lra).
    rewrite Hc.
    repeat split; try (f_equal; lra); ring.
  - (* Isobaric, from a temperature *)
    assert (Hb : BaseProcess.V n' (p1 * 1) t1 = v1)
      by (unfold BaseProcess.V; rewrite Et; field; split; lra).
    rewrite Hb.
    repeat split; try (f_equal; lra); ring.
  - (* Isochoric, from a pressure *)
    assert (Hc : BaseProcess.T n' p1 (v1 * 1) = t1)
      by (unfold BaseProcess.T; rewrite Et; field; split; lra).
    rewrite Hc.
    repeat split; try (f_equal; lra); ring.
  - (* Isochoric, from a temperature *)
    assert (Ha : BaseProcess.P n' (v1 * 1) t1 = p1)
      by (unfold BaseProcess.P; rewrite Et; field; split; lra).
    rewrite Ha.
    repeat split; try (f_equal; lra); ring.
  - (* Adiabatic, from a volume *)
    assert (Ha : BaseProcess.P2_from_V2
                   (BaseProcess.P2_from_V2 p1 v1 (BaseProcess.gamma p) x2) x2
                   (BaseProcess.gamma p) v1 = p1)
      by (unfold BaseProcess.P2_from_V2; apply scaled_there_and_back; assumption).
    assert (Hc : BaseProcess.T2_from_V2
                   (BaseProcess.T2_from_V2 t1 v1 (BaseProcess.gamma p) x2) x2
                   (BaseProcess.gamma p) v1 = t1)
      by (unfold BaseProcess.T2_from_V2; apply scaled_there_and_back; assumption).
    rewrite Ha, Hc.
    repeat split; try (f_equal; lra); ring.
  - (* Adiabatic, from a pressure *)
    assert (Hb : BaseProcess.V2_from_P2
                   (BaseProcess.V2_from_P2 v1 p1 (BaseProcess.gamma p) x2) x2
                   (BaseProcess.gamma p) p1 = v1)
      by (unfold BaseProcess.V2_from_P2; apply scaled_there_and_back; assumption).
    assert (Hc : BaseProcess.T2_from_P2
                   (BaseProcess.T2_from_P2 t1 p1 (BaseProcess.gamma p) x2) x2
                   (BaseProcess.gamma p) p1 = t1)
      by (unfold BaseProcess.T2_from_P2; apply scaled_there_and_back; assumption).
    rewrite Hb, Hc.
    repeat split; try (f_equal; lra); ring.
  - (* Adiabatic, from a temperature *)
    assert (Ha : BaseProcess.P2_from_T2
                   (BaseProcess.P2_from_T2 p1 t1 (BaseProcess.gamma p) x2) x2
                   (BaseProcess.gamma p) t1 = p1)
      by (unfold BaseProcess.P2_from_T2; apply scaled_there_and_back; assumption).
    assert (Hb : BaseProcess.V2_from_T2
                   (BaseProcess.V2_from_T2 v1 t1 (BaseProcess.gamma p) x2) x2
                   (BaseProcess.gamma p) t1 = v1)
      by (unfold BaseProcess.V2_from_T2; apply scaled_there_and_back; assumption).
    rewrite Ha, Hb.
    repeat split; try (f_equal; lra); ring.
Qed.

Lemma swept_processes_are_reversible_witness :
  exists p p' q q' pe ve te,
    Isothermal (Some 1) (Some 300) (Some 1) None false false gas_none = Ok p
    /\ BaseProcess.generate_data_from_dV p (Some 2) K = Ok p'
    /\ pressure_end p' = Ok pe /\ volume_end p' = Ok ve /\ temperature_end p' = Ok te
    /\ Isothermal (Some 1) (Some te) (Some ve) (Some pe) false false gas_none = Ok q
    /\ BaseProcess.generate_data_from_dV q (Some 1) K = Ok q'
    /\ pressure_end q' = Ok (BaseProcess.P 1 1 300)
    /\ volume_end q' = Ok 1 /\ temperature_end q' = Ok 300.
Proof.
  pose (p := BaseProcess.with_state
               (BaseProcess.with_title
                  (BaseProcess.__init__ Class.Isothermal (Some 1) None (Some 1) (Some 300)
                     false false gas_none) "Isotermisk prosess")
               (Some 1) (Some (BaseProcess.P 1 1 300)) (Some 1) (Some 300)).
  assert (Hst : state p 1 (BaseProcess.P 1 1 300) 1 300) by (repeat split).
  assert (Hone : (1 <= K)%nat) by (unfold K; lia).
  destruct (generate_end p to_V 1 (BaseProcess.P 1 1 300) 1 300 2 K Hst Hone)
    as (d & Hgen & Hv & Hp & Ht & _).
  set (w := path p to_V 1 (BaseProcess.P 1 1 300) 1 300 2 K) in *.
  set (x := last (swept w) 0) in *.
  pose (q := BaseProcess.with_title
               (BaseProcess.__init__ Class.Isothermal (Some 1) (Some (fP w x))
                  (Some (fV w x)) (Some (fT w x)) false false gas_none)
               "Isotermisk prosess").
  assert (Hstq : state q 1 (fP w x) (fV w x) (fT w x)) by (repeat split).
  destruct (generate_end q to_V 1 (fP w x) (fV w x) (fT w x) 1 K Hstq Hone)
    as (d' & Hgen' & _).
  assert (Hpos : 0 < BaseProcess.P 1 1 300) by (unfold BaseProcess.P, R_gas; lra).
  assert (Hlaw : BaseProcess.P 1 1 300 * 1 = 1 * R_gas * 300)
    by (unfold BaseProcess.P; lra).
  assert (Hg : 1 < BaseProcess.gamma p) by (change (1 < 5 / 3); lra).
  destruct (swept_processes_are_reversible p q (BaseProcess.with_data p d)
              (BaseProcess.with_data q d') to_V 1 (BaseProcess.P 1 1 300) 1 300 2
              (fP w x) (fV w x) (fT w x) K K d d' eq_refl Hst Rlt_0_1 Hpos Rlt_0_1
              ltac:(lra) Hlaw Hg Rlt_0_2 K_ge_2 K_ge_2 Hgen eq_refl Hp Hv Ht eq_refl
              eq_refl eq_refl eq_refl Hstq Hgen' eq_refl)
    as (Hpe & Hve & Hte & _).
  exists p, (BaseProcess.with_data p d), q, (BaseProcess.with_data q d'),
    (fP w x), (fV w x), (fT w x).
  split; [reflexivity |]. split; [exact Hgen |]. split; [exact Hp |].
  split; [exact Hv |]. split; [exact Ht |]. split; [reflexivity |].
  split; [exact Hgen' |]. split; [exact Hpe |]. split; [exact Hve | exact Hte].
Defined.
